(** * Task manager (Fastify + knex): a shallow embedding of [src/app.js],
      [src/db.js] and [src/repositories/statusRepository.js].

    JavaScript strings are modelled by [string] (a sequence of code units
    below 256), objects used as dictionaries by [gmap string _], thrown
    exceptions and rejected promises by the [Throw] constructor of [outcome],
    and the mutable [reply] object together with the database by an explicit
    state threaded through the monad [M].  Calls that leave the embedded
    sources are recorded in a log. *)

From Stdlib Require Import ZArith Ascii String List Bool Lia.
From stdpp Require Import base strings pretty list gmap.

Local Open Scope string_scope.
Local Open Scope Z_scope.

(** ** Exceptions and completions *)

Inductive exn : Type :=
| JsError (name message : string).

Inductive outcome (A : Type) : Type :=
| Return (a : A)
| Throw (e : exn).
Arguments Return {A} a.
Arguments Throw {A} e.

Definition obind {A B} (o : outcome A) (k : A -> outcome B) : outcome B :=
  match o with
  | Return a => k a
  | Throw e => Throw e
  end.

(** [try { body } catch (e) { handler e }] for code without side effects. *)
Definition otry {A} (body : outcome A) (handler : exn -> outcome A) : outcome A :=
  match body with
  | Return a => Return a
  | Throw e => handler e
  end.

(** [Array.prototype.reduce] with an initial value; an exception raised by the
    callback aborts the fold. *)
Fixpoint reduce {A B} (f : A -> B -> outcome A) (l : list B) (acc : A) : outcome A :=
  match l with
  | [] => Return acc
  | x :: l' => obind (f acc x) (reduce f l')
  end.

(** ** String primitives of the JavaScript runtime *)

Module JsString.

(** White space removed by [String.prototype.trim], restricted to the code
    units below 256: TAB, LF, VT, FF, CR, SP and NBSP. *)
Definition is_space (c : ascii) : bool :=
  let n := N_of_ascii c in
  ((9 <=? n) && (n <=? 13) || (n =? 32) || (n =? 160))%N.

Fixpoint trimStart (s : string) : string :=
  match s with
  | String c s' => if is_space c then trimStart s' else s
  | EmptyString => EmptyString
  end.

Definition trim (s : string) : string :=
  String.rev (trimStart (String.rev (trimStart s))).

(** [s.split(sep)] for a one-character separator. *)
Fixpoint split_go (sep : ascii) (cur : string) (s : string) : list string :=
  match s with
  | EmptyString => [String.rev cur]
  | String c s' =>
      if Ascii.eqb c sep then String.rev cur :: split_go sep EmptyString s'
      else split_go sep (String c cur) s'
  end.

Definition split (sep : ascii) (s : string) : list string :=
  split_go sep EmptyString s.

(** [s.indexOf(c)]; [None] stands for [-1]. *)
Fixpoint indexOf (c : ascii) (s : string) : option nat :=
  match s with
  | EmptyString => None
  | String d s' =>
      if Ascii.eqb d c then Some O
      else match indexOf c s' with
           | Some n => Some (S n)
           | None => None
           end
  end.

(** [s.slice(0, n)] and [s.slice(n)] for [0 <= n]. *)
Fixpoint slice_to (n : nat) (s : string) : string :=
  match n, s with
  | S n', String c s' => String c (slice_to n' s')
  | _, _ => EmptyString
  end.

Fixpoint slice_from (n : nat) (s : string) : string :=
  match n, s with
  | S n', String _ s' => slice_from n' s'
  | _, _ => s
  end.

(** [s.toUpperCase()], mapping the letters a-z only.  The upper case of any
    other code unit is not a letter of PATCH, DELETE or PUT, so the test made
    by the preHandler hook is the same. *)
Definition upper_char (c : ascii) : ascii :=
  let n := N_of_ascii c in
  if ((97 <=? n) && (n <=? 122))%N then ascii_of_N (n - 32) else c.

Fixpoint toUpperCase (s : string) : string :=
  match s with
  | EmptyString => EmptyString
  | String c s' => String (upper_char c) (toUpperCase s')
  end.

(** Truthiness of a string: only the empty string is falsy. *)
Definition truthy (s : string) : bool :=
  match s with
  | EmptyString => false
  | _ => true
  end.

End JsString.

(** Truthiness of a possibly [undefined] string property. *)
Definition truthy_opt (v : option string) : bool :=
  match v with
  | Some s => JsString.truthy s
  | None => false
  end.

(** ** Values produced by [JSON.parse] *)

#[local] Unset Elimination Schemes.
Inductive json : Type :=
| JNull
| JBool (b : bool)
| JNum (n : Z)
| JStr (s : string)
| JArr (l : list json)
| JObj (fields : list (string * json)).
#[local] Set Elimination Schemes.

(** Numbers produced by [Number(s)]: an integer, or one of the other values
    ([NaN], fractions, infinities), none of which equals the content of an
    INTEGER column. *)
Inductive jsnum : Type :=
| Int (z : Z)
| NotInt.

(** ** Built-ins of the runtime and pure third-party functions

    They are not part of the repository; the development is parametric in
    them.  A function that can throw returns an [outcome]. *)

Record builtins : Type := {
  decodeURIComponent : string -> outcome string;
  encodeURIComponent : string -> string;
  JSON_parse : string -> outcome json;
  JSON_stringify : json -> string;
  (** [Number(s)] *)
  Number_of : string -> jsnum;
  (** [i18next.getFixedT(lang)(key)] *)
  i18n_t : string -> string -> string;
  (** [new Date(ms).toUTCString()] *)
  Date_toUTCString : Z -> string;
  (** SQLite's [col = ?] for an INTEGER column and a bound text parameter
      (route parameters and cookie values reach knex as strings). *)
  sqlite_int_eq : Z -> string -> bool
}.

(** ** Cookie helpers ([src/app.js], lines 59-99) *)

Section Cookies.
Context (B : builtins).

(** [acc[key] = v] on a plain object: assigning a string to [__proto__]
    runs the inherited setter, which ignores it. *)
Definition obj_set (acc : gmap string string) (key v : string) : gmap string string :=
  if String.eqb key "__proto__" then acc else <[key := v]> acc.

Definition parseCookies_pair (acc : gmap string string) (pair : string)
  : outcome (gmap string string) :=
  match JsString.indexOf "=" pair with
  | None => Return acc
  | Some idx =>
      let key := JsString.trim (JsString.slice_to idx pair) in
      let val := JsString.trim (JsString.slice_from (S idx) pair) in
      otry (obind (decodeURIComponent B val) (fun d => Return (obj_set acc key d)))
           (fun _ => Return (obj_set acc key val))
  end.

Definition parseCookies (cookieHeader : option string) : outcome (gmap string string) :=
  if negb (truthy_opt cookieHeader) then Return ∅
  else
    let s := default "" cookieHeader in
    reduce parseCookies_pair
           (List.filter JsString.truthy
                        (map JsString.trim (JsString.split ";" s)))
           ∅.

End Cookies.

(** ** Persistence layer ([src/db.js]) *)

(** *** The schema created by [ensureSchema] *)

Inductive on_delete : Type := RESTRICT | CASCADE | SET_NULL.

Inductive column_type : Type := Increments | CString | CText | CInteger | CTimestamp.

Record column : Type := {
  col_name : string;
  col_type : column_type;
  col_primary : bool;
  col_notNullable : bool;
  col_unique : bool;
  col_references : option (string * string * on_delete)
}.

Record table_def : Type := {
  tbl_name : string;
  tbl_columns : list column;
  tbl_primary : list string
}.

Definition mk_column (n : string) (t : column_type) : column :=
  {| col_name := n; col_type := t; col_primary := false; col_notNullable := false;
     col_unique := false; col_references := None |}.
Definition primary (c : column) : column :=
  {| col_name := col_name c; col_type := col_type c; col_primary := true;
     col_notNullable := col_notNullable c; col_unique := col_unique c;
     col_references := col_references c |}.
Definition notNullable (c : column) : column :=
  {| col_name := col_name c; col_type := col_type c; col_primary := col_primary c;
     col_notNullable := true; col_unique := col_unique c;
     col_references := col_references c |}.
Definition unique (c : column) : column :=
  {| col_name := col_name c; col_type := col_type c; col_primary := col_primary c;
     col_notNullable := col_notNullable c; col_unique := true;
     col_references := col_references c |}.
Definition references (col tbl : string) (od : on_delete) (c : column) : column :=
  {| col_name := col_name c; col_type := col_type c; col_primary := col_primary c;
     col_notNullable := col_notNullable c; col_unique := col_unique c;
     col_references := Some (col, tbl, od) |}.

Definition schema : list table_def :=
  [ {| tbl_name := "users";
       tbl_columns :=
         [ primary (mk_column "id" Increments);
           notNullable (mk_column "firstName" CString);
           notNullable (mk_column "lastName" CString);
           unique (notNullable (mk_column "email" CString));
           notNullable (mk_column "password" CString) ];
       tbl_primary := [] |};
    {| tbl_name := "statuses";
       tbl_columns :=
         [ primary (mk_column "id" Increments);
           notNullable (mk_column "name" CString) ];
       tbl_primary := [] |};
    {| tbl_name := "tasks";
       tbl_columns :=
         [ primary (mk_column "id" Increments);
           notNullable (mk_column "name" CString);
           mk_column "description" CText;
           references "id" "statuses" RESTRICT (notNullable (mk_column "statusId" CInteger));
           references "id" "users" RESTRICT (notNullable (mk_column "creatorId" CInteger));
           references "id" "users" SET_NULL (mk_column "executorId" CInteger);
           mk_column "created_at" CTimestamp ];
       tbl_primary := [] |};
    {| tbl_name := "labels";
       tbl_columns :=
         [ primary (mk_column "id" Increments);
           notNullable (mk_column "name" CString) ];
       tbl_primary := [] |};
    {| tbl_name := "tasks_labels";
       tbl_columns :=
         [ references "id" "tasks" CASCADE (notNullable (mk_column "taskId" CInteger));
           references "id" "labels" RESTRICT (notNullable (mk_column "labelId" CInteger)) ];
       tbl_primary := ["taskId"; "labelId"] |} ].

Definition find_table (n : string) : option table_def :=
  List.find (fun t => String.eqb (tbl_name t) n) schema.

Definition find_column (tbl col : string) : option column :=
  match find_table tbl with
  | Some t => List.find (fun c => String.eqb (col_name c) col) (tbl_columns t)
  | None => None
  end.

(** *** Rows and the database state *)

Record user : Type := {
  user_id : Z;
  firstName : string;
  lastName : string;
  email : string;
  password : string
}.

Record status : Type := {
  status_id : Z;
  status_name : string
}.

Record task : Type := {
  task_id : Z;
  task_name : string;
  description : option string;
  statusId : Z;
  creatorId : Z;
  executorId : option Z;
  created_at : Z
}.

Record label : Type := {
  label_id : Z;
  label_name : string
}.

Record database : Type := {
  users : list user;
  statuses : list status;
  tasks : list task;
  labels : list label;
  tasks_labels : list (Z * Z);
  (** [PRAGMA foreign_keys]: whether the engine enforces the declared
      references. *)
  foreign_keys : bool
}.

Definition set_statuses (l : list status) (d : database) : database :=
  {| users := users d; statuses := l; tasks := tasks d; labels := labels d;
     tasks_labels := tasks_labels d; foreign_keys := foreign_keys d |}.

(** ** State-and-exception monad

    An [await]ed promise that rejects is a [Throw]. *)

Definition ST (S A : Type) : Type := S -> outcome A * S.

Definition ret {S A} (a : A) : ST S A := fun s => (Return a, s).
Definition throw {S A} (e : exn) : ST S A := fun s => (Throw e, s).
Definition bind {S A B} (m : ST S A) (k : A -> ST S B) : ST S B :=
  fun s => match m s with
           | (Return a, s') => k a s'
           | (Throw e, s') => (Throw e, s')
           end.
(** [try { m } catch (e) { h e }]: the effects of [m] up to the exception
    are kept. *)
Definition try_catch {S A} (m : ST S A) (h : exn -> ST S A) : ST S A :=
  fun s => match m s with
           | (Return a, s') => (Return a, s')
           | (Throw e, s') => h e s'
           end.
Definition lift_o {S A} (o : outcome A) : ST S A := fun s => (o, s).

Declare Scope st_scope.
Delimit Scope st_scope with st.
Notation "'let*' x ':=' m 'in' k" := (bind m (fun x => k))
  (at level 10, x name, m at level 100, k at level 200) : st_scope.
Notation "'do*' m 'in' k" := (bind m (fun _ => k))
  (at level 10, m at level 100, k at level 200) : st_scope.
Local Open Scope st_scope.

(** *** The knex queries used by the status repository *)

Definition SQLITE_CONSTRAINT : exn :=
  JsError "Error" "SQLITE_CONSTRAINT: FOREIGN KEY constraint failed".

Section Knex.
Context (B : builtins).

(** [knex('statuses').select('*')] *)
Definition knex_statuses_select : ST database (list status) :=
  fun d => (Return (statuses d), d).

(** [knex('statuses').where({ id }).first()] *)
Definition knex_statuses_where_id_first (id : string) : ST database (option status) :=
  fun d => (Return (List.find (fun s => sqlite_int_eq B (status_id s) id) (statuses d)), d).

(** [knex('tasks').where({ statusId: id }).count({ c: 'id' }).first()]:
    the field [c] of the single row of the result. *)
Definition knex_tasks_where_statusId_count (id : string) : ST database Z :=
  fun d => (Return (Z.of_nat (length
              (List.filter (fun t => sqlite_int_eq B (statusId t) id) (tasks d)))), d).

(** [knex('statuses').where({ id }).del()]: the number of deleted rows.
    With foreign keys enforced, the RESTRICT reference of [tasks.statusId]
    makes the statement fail when a task points to a row to delete. *)
Definition knex_statuses_where_id_del (id : string) : ST database Z :=
  fun d =>
    let victims := List.filter (fun s => sqlite_int_eq B (status_id s) id) (statuses d) in
    if foreign_keys d &&
       existsb (fun t => existsb (fun s => statusId t =? status_id s) victims) (tasks d)
    then (Throw SQLITE_CONSTRAINT, d)
    else (Return (Z.of_nat (length victims)),
          set_statuses
            (List.filter (fun s => negb (sqlite_int_eq B (status_id s) id)) (statuses d)) d).

End Knex.

(** ** Status repository ([src/repositories/statusRepository.js]) *)

Module statusRepo.
Section Repo.
Context (B : builtins).

Definition findAll : ST database (list status) := knex_statuses_select.

Definition findById (id : string) : ST database (option status) :=
  knex_statuses_where_id_first B id.

Definition remove (id : string) : ST database bool :=
  (* Prevent deletion if any task references this status *)
  let* count := knex_tasks_where_statusId_count B id in
  if 0 <? count then ret false
  else
    let* deleted := knex_statuses_where_id_del B id in
    ret (0 <? deleted).

End Repo.
End statusRepo.

(** ** Requests, replies and the state of a request *)

Record raw_request : Type := {
  raw_method : string;
  raw_url : string
}.

Record query_t : Type := {
  q_lng : option string;
  q_statusId : option string;
  q_executorId : option string;
  q_labelId : option string;
  q_onlyMy : option string;
  q_hasLabel : option string
}.

Record form_data : Type := {
  d_firstName : option string;
  d_lastName : option string;
  d_email : option string;
  d_password : option string
}.

Record body_t : Type := {
  b__method : option string;
  b_data : option form_data
}.

Record Request : Type := {
  raw : raw_request;
  method : string;
  headers_cookie : option string;
  params_id : string;
  query : query_t;
  body : option body_t;
  (** [undefined] until the onRequest hook has run *)
  cookies : option (gmap string string);
  currentUser : option user
}.

Definition set_method (m : string) (r : Request) : Request :=
  {| raw := {| raw_method := m; raw_url := raw_url (raw r) |};
     method := m; headers_cookie := headers_cookie r; params_id := params_id r;
     query := query r; body := body r; cookies := cookies r;
     currentUser := currentUser r |}.
Definition set_cookies (c : gmap string string) (r : Request) : Request :=
  {| raw := raw r; method := method r; headers_cookie := headers_cookie r;
     params_id := params_id r; query := query r; body := body r;
     cookies := Some c; currentUser := currentUser r |}.
Definition set_currentUser (u : option user) (r : Request) : Request :=
  {| raw := raw r; method := method r; headers_cookie := headers_cookie r;
     params_id := params_id r; query := query r; body := body r;
     cookies := cookies r; currentUser := u |}.

(** The value of a response header: a string or an array of strings. *)
Inductive header_value : Type :=
| HStr (s : string)
| HArr (l : list string).

Record reply_t : Type := {
  set_cookie : option header_value;
  statusCode : Z;
  contentType : option string;
  location : option string;
  payload : option string
}.

Definition fresh_reply : reply_t :=
  {| set_cookie := None; statusCode := 200; contentType := None;
     location := None; payload := None |}.

Record user_attrs : Type := {
  a_firstName : string;
  a_lastName : string;
  a_email : string;
  a_password : string
}.

(** The filter object handed to [taskRepo.findAll]; [None] is an absent
    key.  [f_hasLabel] tells whether the key [hasLabel] is present (its value
    is then [true]). *)
Record task_filters : Type := {
  f_statusId : option jsnum;
  f_executorId : option jsnum;
  f_labelId : option jsnum;
  f_hasLabel : bool;
  f_createdBy : option Z
}.

(** The locals given to [views/tasks/index.pug]; the translator [t] is
    determined by [l_lang]. *)
Record tasks_index_locals : Type := {
  l_lang : string;
  l_tasks : list task;
  l_currentUser : option user;
  l_flash : json;
  l_statuses : list status;
  l_users : list user;
  l_labels : list label;
  l_filters : query_t
}.

(** Calls that leave [src/app.js] for a module or a package that is not
    part of the embedded sources. *)
Inductive call : Type :=
| Call_userRepo_findAll
| Call_userRepo_findById (id : string)
| Call_userRepo_findByEmail (email : string)
| Call_userRepo_create (attrs : user_attrs)
| Call_userRepo_remove (id : string)
| Call_taskRepo_findAll (filters : task_filters)
| Call_taskRepo_findById (id : string)
| Call_taskRepo_remove (id : string)
| Call_labelRepo_findAll
| Call_bcrypt_hash (data : string) (rounds : Z)
| Call_bcrypt_compare (data hash : string)
| Call_pug_renderFile (path : string) (locals : tasks_index_locals)
| Call_rollbar_error (error : exn) (req : raw_request)
| Call_log_error (msg : string) (error : exn).

Record state : Type := {
  db : database;
  reply : reply_t;
  log : list call
}.

Definition M (A : Type) : Type := ST state A.

(** A Rollbar instance, as returned by [getRollbar()]. *)
Record rollbar : Type := {
  rollbar_error : exn -> raw_request -> outcome unit
}.

(** The modules imported by [src/app.js] whose sources are not available,
    and the packages [bcrypt], [pug] and [rollbar].  [bcrypt_hash] fixes the
    salt it draws. *)
Record collaborators : Type := {
  userRepo_findAll : ST database (list user);
  userRepo_findById : string -> ST database (option user);
  userRepo_findByEmail : string -> ST database (option user);
  userRepo_create : user_attrs -> ST database user;
  userRepo_remove : string -> ST database bool;
  taskRepo_findAll : task_filters -> ST database (list task);
  taskRepo_findById : string -> ST database (option task);
  taskRepo_remove : string -> ST database unit;
  labelRepo_findAll : ST database (list label);
  bcrypt_hash : string -> Z -> outcome string;
  bcrypt_compare : string -> string -> outcome bool;
  pug_renderFile : string -> tasks_index_locals -> outcome string;
  getRollbar : outcome (option rollbar)
}.

Definition with_db (d : database) (st : state) : state :=
  {| db := d; reply := reply st; log := log st |}.
Definition with_reply (f : reply_t -> reply_t) (st : state) : state :=
  {| db := db st; reply := f (reply st); log := log st |}.
Definition with_log (c : call) (st : state) : state :=
  {| db := db st; reply := reply st; log := (log st ++ [c])%list |}.

Definition on_db {A} (m : ST database A) : M A :=
  fun st => let (o, d) := m (db st) in (o, with_db d st).

Definition tell (c : call) : M unit :=
  fun st => (Return tt, with_log c st).

(** A logged call to a collaborator working on the database. *)
Definition invoke {A} (c : call) (m : ST database A) : M A :=
  do* tell c in on_db m.

(** A logged call to a collaborator that has no state. *)
Definition invoke_o {A} (c : call) (o : outcome A) : M A :=
  do* tell c in lift_o o.

Definition update_reply (f : reply_t -> reply_t) : M unit :=
  fun st => (Return tt, with_reply f st).

Definition get_reply : M reply_t := fun st => (Return (reply st), st).

(** *** Methods of the Fastify reply *)

Definition r_status (code : Z) (r : reply_t) : reply_t :=
  {| set_cookie := set_cookie r; statusCode := code; contentType := contentType r;
     location := location r; payload := payload r |}.
Definition r_type (t : string) (r : reply_t) : reply_t :=
  {| set_cookie := set_cookie r; statusCode := statusCode r; contentType := Some t;
     location := location r; payload := payload r |}.
Definition r_send (p : string) (r : reply_t) : reply_t :=
  {| set_cookie := set_cookie r; statusCode := statusCode r;
     contentType := contentType r; location := location r; payload := Some p |}.
(** [reply.redirect(url)]: status 302, a Location header and an empty body. *)
Definition r_redirect (url : string) (r : reply_t) : reply_t :=
  {| set_cookie := set_cookie r; statusCode := 302; contentType := contentType r;
     location := Some url; payload := Some "" |}.
(** [raw.setHeader('Set-Cookie', v)] *)
Definition r_setHeader_Set_Cookie (v : header_value) (r : reply_t) : reply_t :=
  {| set_cookie := Some v; statusCode := statusCode r; contentType := contentType r;
     location := location r; payload := payload r |}.

Definition reply_status (code : Z) : M unit := update_reply (r_status code).
Definition reply_type (t : string) : M unit := update_reply (r_type t).
Definition reply_send (p : string) : M unit := update_reply (r_send p).
Definition reply_redirect (url : string) : M unit := update_reply (r_redirect url).
Definition raw_setHeader_Set_Cookie (v : header_value) : M unit :=
  update_reply (r_setHeader_Set_Cookie v).

(** ** The application ([src/app.js]) *)

(** [String(n)] for an integer [n]. *)
Definition String_of_Z (n : Z) : string := pretty n.

(** [v || d] for a possibly [undefined] string [v]. *)
Definition or_default (v : option string) (d : string) : string :=
  match v with
  | Some s => if JsString.truthy s then s else d
  | None => d
  end.

Record cookie_opts : Type := {
  path : option string;
  expires : option Z;
  httpOnly : bool;
  maxAge : option Z;
  secure : bool;
  sameSite : option string
}.

Definition opts_path (p : string) : cookie_opts :=
  {| path := Some p; expires := None; httpOnly := false; maxAge := None;
     secure := false; sameSite := None |}.

Section App.
Context (B : builtins) (C : collaborators).

(** *** Cookie and flash helpers (lines 75-117) *)

Definition serializeCookie (name value : string) (opts : cookie_opts) : string :=
  let pairs := [name +:+ "=" +:+ encodeURIComponent B value] in
  let pairs := if truthy_opt (path opts)
               then (pairs ++ ["Path=" +:+ default "" (path opts)])%list else pairs in
  let pairs := match expires opts with
               | Some d => (pairs ++ ["Expires=" +:+ Date_toUTCString B d])%list
               | None => pairs
               end in
  let pairs := if httpOnly opts then (pairs ++ ["HttpOnly"])%list else pairs in
  let pairs := match maxAge opts with
               | Some n => if n =? 0 then pairs
                           else (pairs ++ ["Max-Age=" +:+ String_of_Z n])%list
               | None => pairs
               end in
  let pairs := if secure opts then (pairs ++ ["Secure"])%list else pairs in
  let pairs := if truthy_opt (sameSite opts)
               then (pairs ++ ["SameSite=" +:+ default "" (sameSite opts)])%list else pairs in
  String.concat "; " pairs.

Definition setCookie (name value : string) (opts : cookie_opts) : M unit :=
  let header := serializeCookie name value opts in
  (* append to existing Set-Cookie header(s) *)
  let* r := get_reply in
  match set_cookie r with
  | None => raw_setHeader_Set_Cookie (HStr header)
  | Some (HArr prev) => raw_setHeader_Set_Cookie (HArr (prev ++ [header]))
  | Some (HStr prev) =>
      if JsString.truthy prev then raw_setHeader_Set_Cookie (HArr [prev; header])
      else raw_setHeader_Set_Cookie (HStr header)
  end.

Definition clearCookie (name : string) (opts : cookie_opts) : M unit :=
  let expires := 0 in
  setCookie name ""
    {| path := Some (or_default (path opts) "/"); expires := Some expires;
       httpOnly := httpOnly opts; maxAge := maxAge opts; secure := secure opts;
       sameSite := sameSite opts |}.

Definition flash_payload (type message : string) : string :=
  JSON_stringify B (JObj [("type", JStr type); ("message", JStr message)]).

Definition setFlash (type message : string) : M unit :=
  let payload := flash_payload type message in
  setCookie "flash" payload (opts_path "/").

Definition getFlash (request : Request) : M json :=
  let v := match cookies request with
           | Some c => c !! "flash"
           | None => None
           end in
  if negb (truthy_opt v) then ret JNull
  else
    try_catch
      (let* parsed := lift_o (JSON_parse B (default "" v)) in
       (* clear *)
       do* clearCookie "flash" (opts_path "/") in
       ret parsed)
      (fun e => ret JNull).

(** *** Hooks (lines 119-143) *)

(** [request.raw.method = m].  The raw request is the IncomingMessage of
    Node, whose [method] is an ordinary writable property.  Fastify's
    [request.method] is a getter that reads [request.raw.method], so the
    new value shows there as well. *)
Definition assign_raw_method (m : string) : ST Request unit :=
  fun request => (Return tt, set_method m request).

(** [request.method = m].  Fastify defines [method] on its Request by a
    getter and no setter, and [app.js] is an ES module, hence strict code:
    the assignment raises a TypeError and changes nothing. *)
Definition TypeError_method : exn :=
  JsError "TypeError"
    "Cannot set property method of #<Request> which has only a getter".

Definition assign_method (m : string) : ST Request unit :=
  throw TypeError_method.

(** Method override for forms: [_method].  The hook works on the request
    object, which is the state here: what it has changed before an
    exception stays changed. *)
Definition preHandler : ST Request unit :=
  fun request =>
    if String.eqb (method request) "POST"
       && match body request with
          | Some b => truthy_opt (b__method b)
          | None => false
          end
    then
      let m := JsString.toUpperCase
                 (default "" (match body request with
                              | Some b => b__method b
                              | None => None
                              end)) in
      if existsb (String.eqb m) ["PATCH"; "DELETE"; "PUT"]
      then (do* assign_raw_method m in assign_method m) request
      else ret tt request
    else ret tt request.

Definition onRequest (request : Request) : M Request :=
  (* parse cookies into request.cookies *)
  let rawCookies := headers_cookie request in
  let* parsed := lift_o (parseCookies B rawCookies) in
  let request := set_cookies parsed request in
  (* attach currentUser if logged *)
  let userId := parsed !! "userId" in
  if truthy_opt userId then
    let* u := invoke (Call_userRepo_findById (default "" userId))
                     (userRepo_findById C (default "" userId)) in
    ret (set_currentUser u request)
  else ret (set_currentUser None request).

(** *** Error handler (lines 148-161) *)

Definition errorHandler (error : exn) (request : Request) : M unit :=
  do* try_catch
        (let* rollbarInstance := lift_o (getRollbar C) in
         match rollbarInstance with
         | Some inst =>
             (* include request data to help debugging *)
             invoke_o (Call_rollbar_error error (raw request))
                      (rollbar_error inst error (raw request))
         | None => ret tt
         end)
        (fun e => tell (Call_log_error "Error reporting to Rollbar" e)) in
  (* keep behavior simple: generic 500 *)
  do* reply_status 500 in
  do* reply_type "text/html" in
  reply_send "Internal Server Error".

(** *** Route handlers *)

Definition lang_of (request : Request) : string :=
  or_default (q_lng (query request)) "es".

Definition t (lang key : string) : string := i18n_t B lang key.

(** [DELETE /statuses/:id] (lines 261-276) *)
Definition delete_statuses_id (request : Request) : M unit :=
  match currentUser request with
  | None =>
      do* setFlash "danger" "Access denied" in
      reply_redirect "/session/new"
  | Some _ =>
      let id := params_id request in
      let* ok := on_db (statusRepo.remove B id) in
      let lang := lang_of request in
      if negb ok then
        do* setFlash "danger" "Cannot delete status with assigned tasks" in
        reply_redirect "/statuses"
      else
        do* setFlash "success" (t lang "status.deleted") in
        reply_redirect "/statuses"
  end.

(** The [onlyMy] and [hasLabel] check boxes: [v && (v === '1' || v ===
    'true' || v === 'on')]. *)
Definition checked (v : option string) : bool :=
  truthy_opt v
  && match v with
     | Some s => String.eqb s "1" || String.eqb s "true" || String.eqb s "on"
     | None => false
     end.

(** The object [filters] built by [GET /tasks] (lines 283-289). *)
Definition tasks_filters (request : Request) : task_filters :=
  let q := query request in
  {| f_statusId := if truthy_opt (q_statusId q)
                   then Some (Number_of B (default "" (q_statusId q))) else None;
     f_executorId := if truthy_opt (q_executorId q)
                     then Some (Number_of B (default "" (q_executorId q))) else None;
     f_labelId := if truthy_opt (q_labelId q)
                  then Some (Number_of B (default "" (q_labelId q))) else None;
     f_hasLabel := checked (q_hasLabel q);
     f_createdBy := if checked (q_onlyMy q)
                    then match currentUser request with
                         | Some u => Some (user_id u)
                         | None => None
                         end
                    else None |}.

(** [GET /tasks], after the tasks have been fetched (lines 292-297) *)
Definition get_tasks_render (request : Request) (tasks : list task) : M unit :=
  let lang := lang_of request in
  let* statuses := on_db statusRepo.findAll in
  let* users := invoke Call_userRepo_findAll (userRepo_findAll C) in
  let* labels := invoke Call_labelRepo_findAll (labelRepo_findAll C) in
  let* flash := getFlash request in
  let locals :=
    {| l_lang := lang; l_tasks := tasks; l_currentUser := currentUser request;
       l_flash := flash; l_statuses := statuses; l_users := users;
       l_labels := labels; l_filters := query request |} in
  let* html := invoke_o (Call_pug_renderFile "views/tasks/index.pug" locals)
                        (pug_renderFile C "views/tasks/index.pug" locals) in
  do* reply_type "text/html" in
  reply_send html.

(** [GET /tasks] (lines 279-298) *)
Definition get_tasks (request : Request) : M unit :=
  (* Parse filters from query params *)
  let filters := tasks_filters request in
  let* tasks := invoke (Call_taskRepo_findAll filters) (taskRepo_findAll C filters) in
  get_tasks_render request tasks.

(** [DELETE /tasks/:id] (lines 393-406) *)
Definition delete_tasks_id (request : Request) : M unit :=
  let id := params_id request in
  let* task := invoke (Call_taskRepo_findById id) (taskRepo_findById C id) in
  match task with
  | None => do* reply_status 404 in reply_send "Not found"
  | Some task =>
      if match currentUser request with
         | None => true
         | Some u => negb (String.eqb (String_of_Z (user_id u))
                                      (String_of_Z (creatorId task)))
         end
      then
        do* setFlash "danger" "Access denied" in
        reply_redirect "/tasks"
      else
        do* invoke (Call_taskRepo_remove id) (taskRepo_remove C id) in
        let lang := lang_of request in
        do* setFlash "success" (t lang "task.deleted") in
        reply_redirect "/tasks"
  end.

(** The form fields [request.body.data], or [{}]. *)
Definition data_field (request : Request) (f : form_data -> option string)
  : option string :=
  match body request with
  | Some b => match b_data b with
              | Some d => f d
              | None => None
              end
  | None => None
  end.

(** The validation of [POST /users] (line 420). *)
Definition registration_invalid (request : Request) : bool :=
  let firstName := default "" (data_field request d_firstName) in
  let lastName := default "" (data_field request d_lastName) in
  let email := default "" (data_field request d_email) in
  let password := default "" (data_field request d_password) in
  negb (JsString.truthy firstName) || negb (JsString.truthy lastName)
  || negb (JsString.truthy email) || negb (JsString.truthy password)
  || (Z.of_nat (String.length password) <? 3).

(** [POST /users] (lines 416-434) *)
Definition post_users (request : Request) : M unit :=
  let firstName := default "" (data_field request d_firstName) in
  let lastName := default "" (data_field request d_lastName) in
  let email := default "" (data_field request d_email) in
  let password := default "" (data_field request d_password) in
  (* Validations *)
  if registration_invalid request
  then
    do* setFlash "danger" "Validation error: check required fields" in
    reply_redirect "/users/new"
  else
    let* existing := invoke (Call_userRepo_findByEmail email)
                            (userRepo_findByEmail C email) in
    match existing with
    | Some _ =>
        do* setFlash "danger" "Email already in use" in
        reply_redirect "/users/new"
    | None =>
        let* hashed := invoke_o (Call_bcrypt_hash password 10)
                                (bcrypt_hash C password 10) in
        let attrs := {| a_firstName := firstName; a_lastName := lastName;
                        a_email := email; a_password := hashed |} in
        let* user := invoke (Call_userRepo_create attrs) (userRepo_create C attrs) in
        do* setFlash "success" "User created" in
        (* auto-login *)
        do* setCookie "userId" (String_of_Z (user_id user)) (opts_path "/") in
        reply_redirect "/users"
    end.

(** [DELETE /users/:id] (lines 467-482) *)
Definition delete_users_id (request : Request) : M unit :=
  let id := params_id request in
  if match currentUser request with
     | None => true
     | Some u => negb (String.eqb (String_of_Z (user_id u)) id)
     end
  then
    do* setFlash "danger" "Access denied" in
    reply_redirect "/users"
  else
    let* ok := invoke (Call_userRepo_remove id) (userRepo_remove C id) in
    if negb ok then
      do* setFlash "danger" "Cannot delete user with assigned tasks" in
      reply_redirect "/users"
    else
      (* clear cookie *)
      do* clearCookie "userId" (opts_path "/") in
      do* setFlash "success" "User deleted" in
      reply_redirect "/"
  .

(** [POST /session] (lines 493-509) *)
Definition post_session (request : Request) : M unit :=
  let email' := default "" (data_field request d_email) in
  let password' := default "" (data_field request d_password) in
  let* user := invoke (Call_userRepo_findByEmail email')
                      (userRepo_findByEmail C email') in
  match user with
  | None =>
      do* setFlash "danger" "Invalid credentials" in
      reply_redirect "/session/new"
  | Some user =>
      let* ok := invoke_o (Call_bcrypt_compare password' (password user))
                          (bcrypt_compare C password' (password user)) in
      if negb ok then
        do* setFlash "danger" "Invalid credentials" in
        reply_redirect "/session/new"
      else
        do* setCookie "userId" (String_of_Z (user_id user)) (opts_path "/") in
        do* setFlash "success" "Signed in" in
        reply_redirect "/"
  end.

(** [GET /debug/rollbar] (lines 518-521) *)
Definition get_debug_rollbar (request : Request) : M unit :=
  throw (JsError "Error" "Debug rollbar error: manual trigger").

(** *** The request lifecycle of Fastify

    The onRequest hook runs first, then the preHandler hook, then the
    handler of the route; an exception raised on the way is handed to the
    error handler, and the steps after it are skipped.  The error handler
    reads only [request.raw], which the onRequest hook leaves alone and
    the preHandler hook may have written before it threw. *)
Definition lifecycle (handler : Request -> M unit) (request : Request) : M unit :=
  fun st =>
    match onRequest request st with
    | (Throw e, st') => errorHandler e request st'
    | (Return r, st') =>
        match preHandler r with
        | (Throw e, r') => errorHandler e r' st'
        | (Return _, r') =>
            try_catch (handler r') (fun e => errorHandler e r') st'
        end
    end.

End App.

(** ** Observations on a request *)

(** The form asks for the verb [m]: a POST whose [_method] field
    upper-cases to [m], one of the verbs the preHandler hook lists. *)
Definition overrides (request : Request) (m : string) : Prop :=
  method request = "POST"
  /\ exists b v, body request = Some b /\ b__method b = Some v
                 /\ m = JsString.toUpperCase v
                 /\ In m ["PATCH"; "DELETE"; "PUT"].

(** ** Observations on a reply *)

(** The Set-Cookie headers of a reply, in order.  [setCookie] treats an
    empty header string like a missing one. *)
Definition cookie_headers (r : reply_t) : list string :=
  match set_cookie r with
  | None => []
  | Some (HStr s) => if JsString.truthy s then [s] else []
  | Some (HArr l) => l
  end.

Section Observations.
Context (B : builtins).

(** The header written by [setCookie(reply, name, value, { path: '/' })]. *)
Definition cookie_header (name value : string) : string :=
  (name +:+ "=" +:+ encodeURIComponent B value) +:+ "; Path=/".

(** The header written by [setFlash(reply, type, message)]. *)
Definition flash_header (type message : string) : string :=
  cookie_header "flash" (flash_payload B type message).

(** The header written by [clearCookie(reply, name, { path: '/' })]. *)
Definition clear_header (name : string) : string :=
  (name +:+ "=" +:+ encodeURIComponent B "") +:+ "; Path=/; Expires="
    +:+ Date_toUTCString B 0.

(** [r'] is [r] after [setFlash(reply, type, message)] and
    [reply.redirect(url)]. *)
Definition flash_redirect (type message url : string) (r r' : reply_t) : Prop :=
  cookie_headers r' = (cookie_headers r ++ [flash_header type message])%list
  /\ statusCode r' = 302
  /\ location r' = Some url
  /\ payload r' = Some ""
  /\ contentType r' = contentType r.

(** Whether the requester is the creator of [task]. *)
Definition is_creator (request : Request) (task : task) : bool :=
  match currentUser request with
  | Some u => user_id u =? creatorId task
  | None => false
  end.

(** What a task satisfies when it passes the filters of a query. *)
Definition satisfies_query (request : Request) (d : database) (t : task) : Prop :=
  let q := query request in
  (truthy_opt (q_statusId q) = true ->
     Number_of B (default "" (q_statusId q)) = Int (statusId t))
  /\ (truthy_opt (q_executorId q) = true ->
        exists e, executorId t = Some e
                  /\ Number_of B (default "" (q_executorId q)) = Int e)
  /\ (truthy_opt (q_labelId q) = true ->
        exists l, In (task_id t, l) (tasks_labels d)
                  /\ Number_of B (default "" (q_labelId q)) = Int l)
  /\ (checked (q_hasLabel q) = true ->
        exists l, In (task_id t, l) (tasks_labels d))
  /\ (checked (q_onlyMy q) = true ->
        forall u, currentUser request = Some u -> creatorId t = user_id u).

(** The reply of a rejected login: the flash 'Invalid credentials', a
    redirect to /session/new, and no [userId] cookie among the new headers. *)
Definition login_rejected (st st' : state) (o : outcome unit) (d1 : database) : Prop :=
  o = Return tt
  /\ db st' = d1
  /\ flash_redirect "danger" "Invalid credentials" "/session/new" (reply st) (reply st')
  /\ forall h, In h (cookie_headers (reply st')) ->
               In h (cookie_headers (reply st)) \/ forall v, h <> cookie_header "userId" v.

End Observations.

(** ** Repositories whose sources are not available *)

Section Models.
Context (B : builtins).

(** Modelled from the spec: [src/repositories/userRepository.js] is
    missing.  "Removal of statuses/users returns a boolean indicating
    whether deletion was blocked by referential constraints, rather than
    throwing"; a user is "blocked if referenced by any task as creator",
    and the "executor reference is nulled on user deletion". *)
Definition userRepo_remove_model (id : string) : ST database bool :=
  fun d =>
    if existsb (fun t => sqlite_int_eq B (creatorId t) id) (tasks d)
    then (Return false, d)
    else
      (Return true,
       {| users := List.filter (fun u => negb (sqlite_int_eq B (user_id u) id)) (users d);
          statuses := statuses d;
          tasks := map (fun t =>
                     match executorId t with
                     | Some e =>
                         if sqlite_int_eq B e id
                         then {| task_id := task_id t; task_name := task_name t;
                                 description := description t; statusId := statusId t;
                                 creatorId := creatorId t; executorId := None;
                                 created_at := created_at t |}
                         else t
                     | None => t
                     end) (tasks d);
          labels := labels d;
          tasks_labels := tasks_labels d;
          foreign_keys := foreign_keys d |}).

(** Modelled from the spec: [userRepository.js] is missing; [findById(id)]
    returns the row with that id, if any. *)
Definition userRepo_findById_model (id : string) : ST database (option user) :=
  fun d => (Return (List.find (fun u => sqlite_int_eq B (user_id u) id) (users d)), d).

(** Modelled from the spec: [userRepository.js] is missing; the lookup by
    the "email (unique)" of a user. *)
Definition userRepo_findByEmail_model (e : string) : ST database (option user) :=
  fun d => (Return (List.find (fun u => String.eqb (email u) e) (users d)), d).

(** Modelled from the spec: [userRepository.js] is missing; [findAll()]
    returns every row. *)
Definition userRepo_findAll_model : ST database (list user) :=
  fun d => (Return (users d), d).

(** Modelled from the spec: [userRepository.js] is missing; [create(attrs)]
    inserts a row under a fresh id, and "email uniqueness [is] enforced at
    the database level". *)
Definition userRepo_create_model (a : user_attrs) : ST database user :=
  fun d =>
    if existsb (fun u => String.eqb (email u) (a_email a)) (users d)
    then (Throw (JsError "Error" "SQLITE_CONSTRAINT: UNIQUE constraint failed: users.email"), d)
    else
      let u := {| user_id := 1 + fold_right Z.max 0 (map user_id (users d));
                  firstName := a_firstName a; lastName := a_lastName a;
                  email := a_email a; password := a_password a |} in
      (Return u,
       {| users := users d ++ [u]; statuses := statuses d; tasks := tasks d;
          labels := labels d; tasks_labels := tasks_labels d;
          foreign_keys := foreign_keys d |}).

(** Modelled from the spec: the comparison of an INTEGER column with a
    number of the filter object of [taskRepo.findAll]. *)
Definition matches_num (col : Z) (n : jsnum) : bool :=
  match n with
  | Int z => col =? z
  | NotInt => false
  end.

(** Modelled from the spec: the "AND-conjoined predicates" of
    [taskRepo.findAll], one conjunct per key present in the filter object;
    labels are reached through the join table. *)
Definition task_matches (f : task_filters) (d : database) (t : task) : bool :=
  match f_statusId f with
  | Some n => matches_num (statusId t) n
  | None => true
  end
  && match f_executorId f with
     | Some n => match executorId t with
                 | Some e => matches_num e n
                 | None => false
                 end
     | None => true
     end
  && match f_labelId f with
     | Some n => existsb (fun tl => (fst tl =? task_id t) && matches_num (snd tl) n)
                         (tasks_labels d)
     | None => true
     end
  && (if f_hasLabel f
      then existsb (fun tl => fst tl =? task_id t) (tasks_labels d)
      else true)
  && match f_createdBy f with
     | Some uid => creatorId t =? uid
     | None => true
     end.

(** Modelled from the spec: [src/repositories/taskRepository.js] is
    missing.  "Task repository's [findAll] accepts filters {statusId,
    executorId, labelId, hasLabel, createdBy} and composes them as
    AND-conjoined predicates against joined tables." *)
Definition taskRepo_findAll_model (f : task_filters) : ST database (list task) :=
  fun d => (Return (List.filter (task_matches f d) (tasks d)), d).

(** Modelled from the spec: [taskRepository.js] is missing; [findById(id)]
    returns the row with that id, if any. *)
Definition taskRepo_findById_model (id : string) : ST database (option task) :=
  fun d => (Return (List.find (fun t => sqlite_int_eq B (task_id t) id) (tasks d)), d).

(** Modelled from the spec: [taskRepository.js] is missing; [remove(id)]
    deletes the task and, by the "cascading delete from task side", its
    label associations. *)
Definition taskRepo_remove_model (id : string) : ST database unit :=
  fun d =>
    (Return tt,
     {| users := users d; statuses := statuses d;
        tasks := List.filter (fun t => negb (sqlite_int_eq B (task_id t) id)) (tasks d);
        labels := labels d;
        tasks_labels := List.filter (fun tl => negb (sqlite_int_eq B (fst tl) id))
                                    (tasks_labels d);
        foreign_keys := foreign_keys d |}).

(** Modelled from the spec: [src/repositories/labelRepository.js] is
    missing; [findAll()] returns every row. *)
Definition labelRepo_findAll_model : ST database (list label) :=
  fun d => (Return (labels d), d).

End Models.

(** ** A concrete runtime for the examples

    The functions below agree with the JavaScript runtime on the inputs the
    examples use: [decodeURIComponent] and [encodeURIComponent] on code units
    below 128, [JSON.parse] on the literals [null], [true], [false], on
    decimal integers and on every text that is not JSON, [Number] on decimal
    integers, SQLite's comparison on canonical decimal text. *)

Module Fixture.

Definition URIError : exn := JsError "URIError" "URI malformed".
Definition SyntaxError : exn := JsError "SyntaxError" "Unexpected token in JSON".

Definition hex_val (c : ascii) : option N :=
  let n := N_of_ascii c in
  if ((48 <=? n) && (n <=? 57))%N then Some (n - 48)%N
  else if ((65 <=? n) && (n <=? 70))%N then Some (n - 55)%N
  else if ((97 <=? n) && (n <=? 102))%N then Some (n - 87)%N
  else None.

Fixpoint decode (s : string) : outcome string :=
  match s with
  | EmptyString => Return EmptyString
  | String c rest =>
      if Ascii.eqb c "%" then
        match rest with
        | String h (String l rest') =>
            match hex_val h, hex_val l with
            | Some a, Some b =>
                if (16 * a + b <? 128)%N
                then obind (decode rest')
                           (fun r => Return (String (ascii_of_N (16 * a + b)) r))
                else Throw URIError
            | _, _ => Throw URIError
            end
        | _ => Throw URIError
        end
      else obind (decode rest) (fun r => Return (String c r))
  end.

Definition unreserved (c : ascii) : bool :=
  let n := N_of_ascii c in
  ((48 <=? n) && (n <=? 57) || (65 <=? n) && (n <=? 90) || (97 <=? n) && (n <=? 122))%N
  || existsb (Ascii.eqb c) (list_ascii_of_string "-_.!~*'()").

Definition hex_digit (n : N) : ascii :=
  if (n <? 10)%N then ascii_of_N (48 + n) else ascii_of_N (55 + n).

Definition pct (n : N) : string :=
  String "%" (String (hex_digit (n / 16)) (String (hex_digit (n mod 16)) EmptyString)).

Fixpoint encode (s : string) : string :=
  match s with
  | EmptyString => EmptyString
  | String c rest =>
      let n := N_of_ascii c in
      if unreserved c then String c (encode rest)
      else if (n <? 128)%N then pct n +:+ encode rest
      else pct (192 + n / 64) +:+ pct (128 + n mod 64) +:+ encode rest
  end.

Fixpoint digits_val (acc : Z) (s : string) : option Z :=
  match s with
  | EmptyString => Some acc
  | String c rest =>
      let n := N_of_ascii c in
      if ((48 <=? n) && (n <=? 57))%N
      then digits_val (10 * acc + Z.of_N (n - 48)) rest
      else None
  end.

Definition decimal (s : string) : option Z :=
  match s with
  | EmptyString => None
  | String c rest =>
      if Ascii.eqb c "-" then
        match rest with
        | EmptyString => None
        | _ => option_map Z.opp (digits_val 0 rest)
        end
      else digits_val 0 s
  end.

Definition number (s : string) : jsnum :=
  match decimal s with
  | Some z => Int z
  | None => NotInt
  end.

Definition parse (s : string) : outcome json :=
  if String.eqb s "null" then Return JNull
  else if String.eqb s "true" then Return (JBool true)
  else if String.eqb s "false" then Return (JBool false)
  else match decimal s with
       | Some z => if String.eqb (pretty z) s then Return (JNum z) else Throw SyntaxError
       | None => Throw SyntaxError
       end.

Definition quote (s : string) : string :=
  String (ascii_of_N 34) (s +:+ String (ascii_of_N 34) EmptyString).

Fixpoint stringify (j : json) : string :=
  match j with
  | JNull => "null"
  | JBool b => if b then "true" else "false"
  | JNum n => pretty n
  | JStr s => quote s
  | JArr l => "[" +:+ String.concat "," (map stringify l) +:+ "]"
  | JObj fs =>
      "{" +:+ String.concat ","
                (map (fun kv => quote (fst kv) +:+ ":" +:+ stringify (snd kv)) fs)
          +:+ "}"
  end.

Definition runtime : builtins :=
  {| decodeURIComponent := decode;
     encodeURIComponent := encode;
     JSON_parse := parse;
     JSON_stringify := stringify;
     Number_of := number;
     i18n_t := fun lang key => key;
     Date_toUTCString := fun ms => "Thu, 01 Jan 1970 00:00:00 GMT";
     sqlite_int_eq := fun col s => String.eqb (pretty col) s |}.

(** The collaborators of the application: the repositories as modelled
    above, a reversible stand-in for bcrypt and a constant page. *)
Definition collab (rb : outcome (option rollbar)) : collaborators :=
  {| userRepo_findAll := userRepo_findAll_model;
     userRepo_findById := userRepo_findById_model runtime;
     userRepo_findByEmail := userRepo_findByEmail_model;
     userRepo_create := userRepo_create_model;
     userRepo_remove := userRepo_remove_model runtime;
     taskRepo_findAll := taskRepo_findAll_model;
     taskRepo_findById := taskRepo_findById_model runtime;
     taskRepo_remove := taskRepo_remove_model runtime;
     labelRepo_findAll := labelRepo_findAll_model;
     bcrypt_hash := fun data rounds => Return ("$2b$" +:+ data);
     bcrypt_compare := fun data hash => Return (String.eqb hash ("$2b$" +:+ data));
     pug_renderFile := fun path locals => Return "<!DOCTYPE html>";
     getRollbar := rb |}.

Definition alice : user :=
  {| user_id := 1; firstName := "Alice"; lastName := "A";
     email := "alice@example.com"; password := "$2b$secret" |}.
Definition bob : user :=
  {| user_id := 2; firstName := "Bob"; lastName := "B";
     email := "bob@example.com"; password := "$2b$hunter2" |}.

Definition todo : status := {| status_id := 1; status_name := "todo" |}.
Definition done_ : status := {| status_id := 2; status_name := "done" |}.

Definition task1 : task :=
  {| task_id := 1; task_name := "write"; description := None; statusId := 1;
     creatorId := 1; executorId := Some 2; created_at := 0 |}.

Definition bug : label := {| label_id := 1; label_name := "bug" |}.

Definition data0 : database :=
  {| users := [alice; bob]; statuses := [todo; done_]; tasks := [task1];
     labels := [bug]; tasks_labels := [(1, 1)]; foreign_keys := true |}.

Definition st0 : state := {| db := data0; reply := fresh_reply; log := [] |}.

Definition no_query : query_t :=
  {| q_lng := None; q_statusId := None; q_executorId := None; q_labelId := None;
     q_onlyMy := None; q_hasLabel := None |}.

(** A request as Fastify hands it to the onRequest hook. *)
Definition req (m url : string) (cookie : option string) (id : string)
           (q : query_t) (b : option body_t) : Request :=
  {| raw := {| raw_method := m; raw_url := url |}; method := m;
     headers_cookie := cookie; params_id := id; query := q; body := b;
     cookies := None; currentUser := None |}.

End Fixture.

(** ** Further observations on strings *)

(** [s] does not begin with white space. *)
Definition starts_clean (s : string) : bool :=
  match s with
  | String c _ => negb (JsString.is_space c)
  | EmptyString => true
  end.

(** [s] has no white space at either end: [s.trim() === s]. *)
Definition trimmed (s : string) : bool :=
  starts_clean s && starts_clean (String.rev s).

(** The character [c] does not occur in [s]. *)
Definition lacks (c : ascii) (s : string) : Prop :=
  JsString.indexOf c s = None.

(** The options [{}] of [serializeCookie]. *)
Definition no_opts : cookie_opts :=
  {| path := None; expires := None; httpOnly := false; maxAge := None;
     secure := false; sameSite := None |}.

(** ** More of the persistence layer ([src/db.js]) *)

(** The schema builder of knex, [knex.schema], on a database of state
    [D].  Both calls are awaited: each may reject, and [createTable] may
    have changed the database before it does. *)
Record schema_builder (D : Type) : Type := {
  hasTable : string -> ST D bool;
  createTable : table_def -> ST D unit
}.
Arguments hasTable {D} _ _ _.
Arguments createTable {D} _ _ _.

Section Schema.
Context {D : Type} (K : schema_builder D).

(** One block of [ensureSchema]: create the table if [hasTable] denies
    it. *)
Definition ensure_table (t : table_def) : ST D unit :=
  let* has := hasTable K (tbl_name t) in
  if negb has then createTable K t else ret tt.

(** The blocks for a list of tables, in order. *)
Fixpoint ensure_tables (tables : list table_def) : ST D unit :=
  match tables with
  | [] => ret tt
  | t :: rest => do* ensure_table t in ensure_tables rest
  end.

(** [ensureSchema] (lines 47-96): users, statuses, tasks, labels and
    tasks_labels, in this order. *)
Definition ensureSchema : ST D unit :=
  ensure_tables schema.

(** What the engine behind the builder is taken to guarantee, in terms of
    [def n d], the definition of the table named [n] in the database [d]
    if there is one: [hasTable] changes nothing and, when it answers, tells
    whether the table exists; [createTable], when it returns, has created
    the table as defined; and, returning or not, it leaves every table of
    another name as it was. *)
Record engine_laws (def : string -> D -> option table_def) : Prop := {
  hasTable_reads : forall n d, snd (hasTable K n d) = d;
  hasTable_answers :
    forall n d b, fst (hasTable K n d) = Return b ->
                  b = match def n d with Some _ => true | None => false end;
  createTable_creates :
    forall t d d', createTable K t d = (Return tt, d') -> def (tbl_name t) d' = Some t;
  createTable_frame :
    forall t d n, n <> tbl_name t -> def n (snd (createTable K t d)) = def n d
}.

End Schema.

(** *** A sample engine

    The tables and the views of a SQLite file share one name space:
    [hasTable] asks [sqlite_master] for a table of the name, and CREATE
    TABLE fails when a table or a view holds it. *)
Module SqliteSample.

Inductive object : Type :=
| Table (t : table_def)
| View (name : string).

Definition catalog : Type := list object.

Definition object_name (o : object) : string :=
  match o with
  | Table t => tbl_name t
  | View n => n
  end.

Fixpoint table_named (n : string) (c : catalog) : option table_def :=
  match c with
  | [] => None
  | Table t :: c' => if String.eqb (tbl_name t) n then Some t else table_named n c'
  | View _ :: c' => table_named n c'
  end.

Definition name_taken (n : string) (c : catalog) : bool :=
  existsb (fun o => String.eqb (object_name o) n) c.

Definition already_exists (n : string) : exn :=
  JsError "Error" ("SQLITE_ERROR: " +:+ n +:+ " already exists").

Definition builder : schema_builder catalog :=
  {| hasTable := fun n c =>
       (Return (match table_named n c with Some _ => true | None => false end), c);
     createTable := fun t c =>
       if name_taken (tbl_name t) c then (Throw (already_exists (tbl_name t)), c)
       else (Return tt, (c ++ [Table t])%list) |}.

(** A file with one table of an earlier version of [users] and a view
    called [tasks]. *)
Definition old_users : table_def :=
  {| tbl_name := "users";
     tbl_columns := [primary (mk_column "id" Increments)];
     tbl_primary := [] |}.

Definition with_view : catalog := [Table old_users; View "tasks"].

End SqliteSample.

(** ** More of the status repository *)

(** A value bound to [where({ id })]: a route parameter is text, the id that
    [insert] returns is a number. *)
Inductive sql_param : Type :=
| PText (s : string)
| PInt (z : Z).

(** The [attrs] given by the handlers: [{ name }]. *)
Record status_attrs : Type := {
  attrs_name : string
}.

(** SQLite's allocation of the rowid of a row inserted into [statuses]. *)
Record sqlite : Type := {
  statuses_rowid : database -> Z
}.

Definition SQLITE_CONSTRAINT_PRIMARYKEY : exn :=
  JsError "Error" "SQLITE_CONSTRAINT: UNIQUE constraint failed: statuses.id".

Section KnexStatuses.
Context (B : builtins) (E : sqlite).

Definition sql_int_eq (col : Z) (p : sql_param) : bool :=
  match p with
  | PText s => sqlite_int_eq B col s
  | PInt z => col =? z
  end.

(** [knex('statuses').where({ id }).first()] *)
Definition knex_statuses_first (id : sql_param) : ST database (option status) :=
  fun d => (Return (List.find (fun s => sql_int_eq (status_id s) id) (statuses d)), d).

(** [knex('statuses').insert(attrs)]: the array holding the id of the new
    row.  The primary key rejects an id that is in use. *)
Definition knex_statuses_insert (attrs : status_attrs) : ST database (list Z) :=
  fun d =>
    let rowid := statuses_rowid E d in
    if existsb (fun s => status_id s =? rowid) (statuses d)
    then (Throw SQLITE_CONSTRAINT_PRIMARYKEY, d)
    else (Return [rowid],
          set_statuses
            (statuses d ++ [{| status_id := rowid; status_name := attrs_name attrs |}]) d).

(** [knex('statuses').where({ id }).update(attrs)]: the number of rows
    updated. *)
Definition knex_statuses_update (id : sql_param) (attrs : status_attrs) : ST database Z :=
  fun d =>
    (Return (Z.of_nat (length (List.filter (fun s => sql_int_eq (status_id s) id)
                                           (statuses d)))),
     set_statuses
       (map (fun s => if sql_int_eq (status_id s) id
                      then {| status_id := status_id s; status_name := attrs_name attrs |}
                      else s)
            (statuses d)) d).

End KnexStatuses.

(** [findById], [create] and [update] of
    [src/repositories/statusRepository.js] (lines 139-149), for ids of either
    kind. *)
Module statusRepository.
Section Repo.
Context (B : builtins) (E : sqlite).

Definition findById (id : sql_param) : ST database (option status) :=
  knex_statuses_first B id.

Definition create (attrs : status_attrs) : ST database (option status) :=
  let* ids := knex_statuses_insert E attrs in
  match ids with
  | id :: _ => findById (PInt id)
  | [] => throw (JsError "Error" "Undefined binding(s) detected when compiling FIRST")
  end.

Definition update (id : sql_param) (attrs : status_attrs) : ST database (option status) :=
  do* knex_statuses_update B id attrs in
  findById id.

End Repo.
End statusRepository.

(** Every task points to a status that exists. *)
Definition statuses_referenced (d : database) : Prop :=
  forall t, In t (tasks d) -> exists s, In s (statuses d) /\ status_id s = statusId t.

Definition sample_engine : sqlite :=
  {| statuses_rowid := fun d => 1 + fold_right Z.max 0 (map status_id (statuses d)) |}.

(** ** The remaining routes of [src/app.js]

    The forms of statuses and tasks post other fields than those of
    [form_data]; their handlers take [request.body.data] as an argument,
    [None] standing for a missing body or a missing [data]. *)

Record status_form : Type := {
  sf_name : option string
}.

(** [data.labelIds]: one value, or an array of values. *)
Inductive labelIds_input : Type :=
| LSingle (s : string)
| LArray (l : list string).

Record task_form : Type := {
  tf_name : option string;
  tf_description : option string;
  tf_statusId : option string;
  tf_executorId : option string;
  tf_labelIds : option labelIds_input
}.

(** The argument of [taskRepo.create]. *)
Record task_attrs : Type := {
  ta_name : string;
  ta_description : option string;
  ta_statusId : option string;
  ta_creatorId : Z;
  ta_executorId : option string;
  ta_labelIds : option (list jsnum)
}.

(** The second argument of [taskRepo.update]. *)
Record task_update : Type := {
  tu_name : option string;
  tu_description : option string;
  tu_statusId : option string;
  tu_executorId : option string;
  tu_labelIds : option (list jsnum)
}.

(** The second argument of [userRepo.update]; [uu_password] is absent
    unless the handler sets it. *)
Record user_update : Type := {
  uu_firstName : option string;
  uu_lastName : option string;
  uu_email : option string;
  uu_password : option string
}.

(** A template with its locals; the translator [t] is determined by the
    language. *)
Inductive page : Type :=
| Page_index (lang : string) (cu : option user) (flash : json)
| Page_users_index (lang : string) (us : list user) (cu : option user) (flash : json)
| Page_statuses_index (lang : string) (ss : list status) (cu : option user) (flash : json)
| Page_statuses_new (lang : string) (flash : json)
| Page_statuses_edit (lang : string) (s : status) (flash : json)
| Page_tasks_new (lang : string) (ss : list status) (us : list user) (ls : list label)
                 (flash : json)
| Page_tasks_show (lang : string) (tk : task) (cu : option user) (flash : json)
| Page_tasks_edit (lang : string) (tk : task) (ss : list status) (us : list user)
                  (ls : list label) (flash : json)
| Page_users_new (lang : string) (flash : json)
| Page_users_edit (lang : string) (u : user) (flash : json)
| Page_session_new (lang : string) (flash : json).

(** What the routes below use beyond [builtins] and [collaborators]. *)
Record platform : Type := {
  (** whether [Number(s)] is [NaN] *)
  Number_isNaN : string -> bool;
  (** [pug.renderFile(view, locals)] *)
  renderFile : page -> outcome string;
  userRepo_update : string -> user_update -> ST database (option user);
  taskRepo_create : task_attrs -> ST database task;
  taskRepo_update : string -> task_update -> ST database (option task)
}.

(** Calls of the routes below that leave the embedded sources. *)
Inductive call2 : Type :=
| Call_renderFile (p : page)
| Call_userRepo_update (id : string) (attrs : user_update)
| Call_taskRepo_create (attrs : task_attrs)
| Call_taskRepo_update (id : string) (attrs : task_update)
| Call_request_log_error (e : exn).

(** The state of a request, with the log of these calls. *)
Record state2 : Type := {
  base : state;
  calls : list call2
}.

Definition M2 (A : Type) : Type := ST state2 A.

(** A computation on the state of the routes above, run within [M2]. *)
Definition lift {A} (m : M A) : M2 A :=
  fun s => let (o, st) := m (base s) in (o, {| base := st; calls := calls s |}).

Definition tell2 (c : call2) : M2 unit :=
  fun s => (Return tt, {| base := base s; calls := (calls s ++ [c])%list |}).

Definition invoke2 {A} (c : call2) (m : ST database A) : M2 A :=
  do* tell2 c in lift (on_db m).

Definition invoke2_o {A} (c : call2) (o : outcome A) : M2 A :=
  do* tell2 c in lift_o o.

(** [v || null] *)
Definition or_null (v : option string) : option string :=
  if truthy_opt v then v else None.

Section Routes.
Context (B : builtins) (C : collaborators) (E : sqlite) (P : platform).

(** [pug.renderFile(...)] followed by [reply.type('text/html').send(html)] *)
Definition render (p : page) : M2 unit :=
  let* html := invoke2_o (Call_renderFile p) (renderFile P p) in
  do* lift (reply_type "text/html") in
  lift (reply_send html).

(** [GET /] (lines 164-176) *)
Definition get_index (request : Request) : M2 unit :=
  let lang := lang_of request in
  try_catch
    (let* flash := lift (getFlash B request) in
     render (Page_index lang (currentUser request) flash))
    (fun err =>
       do* tell2 (Call_request_log_error err) in
       do* lift (reply_status 500) in
       lift (reply_send "Template render error")).

(** [GET /users] (lines 179-186) *)
Definition get_users (request : Request) : M2 unit :=
  let lang := lang_of request in
  let* users := lift (invoke Call_userRepo_findAll (userRepo_findAll C)) in
  let* flash := lift (getFlash B request) in
  render (Page_users_index lang users (currentUser request) flash).

(** [GET /statuses] (lines 189-196) *)
Definition get_statuses (request : Request) : M2 unit :=
  let lang := lang_of request in
  let* statuses := lift (on_db statusRepo.findAll) in
  let* flash := lift (getFlash B request) in
  render (Page_statuses_index lang statuses (currentUser request) flash).

(** [GET /statuses/new] (lines 198-208) *)
Definition get_statuses_new (request : Request) : M2 unit :=
  match currentUser request with
  | None =>
      lift (do* setFlash B "danger" "Access denied" in reply_redirect "/session/new")
  | Some _ =>
      let lang := lang_of request in
      let* flash := lift (getFlash B request) in
      render (Page_statuses_new lang flash)
  end.

(** [(data.name || '').trim()] *)
Definition trimmed_name (name : option string) : string :=
  JsString.trim (or_default name "").

(** [POST /statuses] (lines 210-226) *)
Definition post_statuses (request : Request) (data : option status_form) : M2 unit :=
  match currentUser request with
  | None =>
      lift (do* setFlash B "danger" "Access denied" in reply_redirect "/session/new")
  | Some _ =>
      let name := trimmed_name (match data with Some f => sf_name f | None => None end) in
      let lang := lang_of request in
      if negb (JsString.truthy name) then
        lift (do* setFlash B "danger" (t B lang "status.name" +:+ " is required") in
              reply_redirect "/statuses/new")
      else
        do* lift (on_db (statusRepository.create B E {| attrs_name := name |})) in
        lift (do* setFlash B "success" (t B lang "status.created") in
              reply_redirect "/statuses")
  end.

(** [GET /statuses/:id/edit] (lines 228-241) *)
Definition get_statuses_id_edit (request : Request) : M2 unit :=
  match currentUser request with
  | None =>
      lift (do* setFlash B "danger" "Access denied" in reply_redirect "/session/new")
  | Some _ =>
      let id := params_id request in
      let* status := lift (on_db (statusRepo.findById B id)) in
      match status with
      | None => lift (do* reply_status 404 in reply_send "Not found")
      | Some status =>
          let lang := lang_of request in
          let* flash := lift (getFlash B request) in
          render (Page_statuses_edit lang status flash)
      end
  end.

(** [PATCH /statuses/:id] (lines 243-260) *)
Definition patch_statuses_id (request : Request) (data : option status_form) : M2 unit :=
  match currentUser request with
  | None =>
      lift (do* setFlash B "danger" "Access denied" in reply_redirect "/session/new")
  | Some _ =>
      let id := params_id request in
      let name := trimmed_name (match data with Some f => sf_name f | None => None end) in
      let lang := lang_of request in
      if negb (JsString.truthy name) then
        lift (do* setFlash B "danger" (t B lang "status.name" +:+ " is required") in
              reply_redirect ("/statuses/" +:+ id +:+ "/edit"))
      else
        do* lift (on_db (statusRepository.update B (PText id) {| attrs_name := name |})) in
        lift (do* setFlash B "success" (t B lang "status.updated") in
              reply_redirect "/statuses")
  end.

(** [GET /tasks/new] (lines 300-313) *)
Definition get_tasks_new (request : Request) : M2 unit :=
  match currentUser request with
  | None =>
      lift (do* setFlash B "danger" "Access denied" in reply_redirect "/session/new")
  | Some _ =>
      let* statuses := lift (on_db statusRepo.findAll) in
      let* users := lift (invoke Call_userRepo_findAll (userRepo_findAll C)) in
      let* labels := lift (invoke Call_labelRepo_findAll (labelRepo_findAll C)) in
      let lang := lang_of request in
      let* flash := lift (getFlash B request) in
      render (Page_tasks_new lang statuses users labels flash)
  end.

(** Truthiness of [Number(x)]: neither zero nor [NaN]. *)
Definition Number_truthy (x : string) : bool :=
  match Number_of B x with
  | Int z => negb (z =? 0)
  | NotInt => negb (Number_isNaN P x)
  end.

(** [Array.isArray(li) ? li.map((x) => (x === '' ? null :
    Number(x))).filter(Boolean) : [Number(li)]] *)
Definition normalize_labelIds (li : labelIds_input) : list jsnum :=
  match li with
  | LArray l =>
      map (Number_of B)
          (List.filter (fun x => negb (String.eqb x "") && Number_truthy x) l)
  | LSingle s => [Number_of B s]
  end.

(** [labelIds]: [null] unless [data.labelIds] is truthy. *)
Definition labelIds_of (data : option task_form) : option (list jsnum) :=
  match data with
  | Some f =>
      match tf_labelIds f with
      | Some (LSingle s) =>
          if JsString.truthy s then Some (normalize_labelIds (LSingle s)) else None
      | Some (LArray l) => Some (normalize_labelIds (LArray l))
      | None => None
      end
  | None => None
  end.

Definition field {F : Type} (data : option F) (f : F -> option string) : option string :=
  match data with
  | Some d => f d
  | None => None
  end.

(** [POST /tasks] (lines 315-341) *)
Definition post_tasks (request : Request) (data : option task_form) : M2 unit :=
  match currentUser request with
  | None =>
      lift (do* setFlash B "danger" "Access denied" in reply_redirect "/session/new")
  | Some currentUser =>
      let name := trimmed_name (field data tf_name) in
      let description := or_null (field data tf_description) in
      let statusId := field data tf_statusId in
      let executorId := or_null (field data tf_executorId) in
      if negb (JsString.truthy name) || negb (truthy_opt statusId) then
        lift (do* setFlash B "danger" "Validation error" in reply_redirect "/tasks/new")
      else
        let creatorId := user_id currentUser in
        (* Normalize labelIds: may be undefined, single value or array *)
        let labelIds := labelIds_of data in
        let attrs := {| ta_name := name; ta_description := description;
                        ta_statusId := statusId; ta_creatorId := creatorId;
                        ta_executorId := or_null executorId; ta_labelIds := labelIds |} in
        do* invoke2 (Call_taskRepo_create attrs) (taskRepo_create P attrs) in
        let lang := lang_of request in
        lift (do* setFlash B "success" (t B lang "task.created") in
              reply_redirect "/tasks")
  end.

(** [GET /tasks/:id] (lines 343-352) *)
Definition get_tasks_id (request : Request) : M2 unit :=
  let id := params_id request in
  let* task := lift (invoke (Call_taskRepo_findById id) (taskRepo_findById C id)) in
  match task with
  | None => lift (do* reply_status 404 in reply_send "Not found")
  | Some task =>
      let* flash := lift (getFlash B request) in
      let lang := lang_of request in
      render (Page_tasks_show lang task (currentUser request) flash)
  end.

(** [GET /tasks/:id/edit] (lines 354-370) *)
Definition get_tasks_id_edit (request : Request) : M2 unit :=
  match currentUser request with
  | None =>
      lift (do* setFlash B "danger" "Access denied" in reply_redirect "/session/new")
  | Some _ =>
      let id := params_id request in
      let* task := lift (invoke (Call_taskRepo_findById id) (taskRepo_findById C id)) in
      match task with
      | None => lift (do* reply_status 404 in reply_send "Not found")
      | Some task =>
          let* statuses := lift (on_db statusRepo.findAll) in
          let* users := lift (invoke Call_userRepo_findAll (userRepo_findAll C)) in
          let* labels := lift (invoke Call_labelRepo_findAll (labelRepo_findAll C)) in
          let* flash := lift (getFlash B request) in
          let lang := lang_of request in
          render (Page_tasks_edit lang task statuses users labels flash)
      end
  end.

(** The [attrs] of [PATCH /tasks/:id] (lines 378-385). *)
Definition patch_tasks_attrs (data : option task_form) : task_update :=
  {| tu_name := field data tf_name;
     tu_description := field data tf_description;
     tu_statusId := field data tf_statusId;
     tu_executorId := or_null (field data tf_executorId);
     tu_labelIds := labelIds_of data |}.

(** [PATCH /tasks/:id] (lines 372-391) *)
Definition patch_tasks_id (request : Request) (data : option task_form) : M2 unit :=
  match currentUser request with
  | None =>
      lift (do* setFlash B "danger" "Access denied" in reply_redirect "/session/new")
  | Some _ =>
      let id := params_id request in
      let attrs := patch_tasks_attrs data in
      do* invoke2 (Call_taskRepo_update id attrs) (taskRepo_update P id attrs) in
      let lang := lang_of request in
      lift (do* setFlash B "success" (t B lang "task.updated") in
            reply_redirect "/tasks")
  end.

(** [GET /users/new] (lines 408-414) *)
Definition get_users_new (request : Request) : M2 unit :=
  let lang := lang_of request in
  let* flash := lift (getFlash B request) in
  render (Page_users_new lang flash).

(** [!request.currentUser || String(request.currentUser.id) !== String(id)] *)
Definition not_self (request : Request) (id : string) : bool :=
  match currentUser request with
  | None => true
  | Some u => negb (String.eqb (String_of_Z (user_id u)) id)
  end.

(** [GET /users/:id/edit] (lines 436-449) *)
Definition get_users_id_edit (request : Request) : M2 unit :=
  let id := params_id request in
  let* user := lift (invoke (Call_userRepo_findById id) (userRepo_findById C id)) in
  match user with
  | None => lift (do* reply_status 404 in reply_send "Not found")
  | Some user =>
      if not_self request id then
        lift (do* setFlash B "danger" "Access denied" in reply_redirect "/users")
      else
        let lang := lang_of request in
        let* flash := lift (getFlash B request) in
        render (Page_users_edit lang user flash)
  end.

(** [PATCH /users/:id] (lines 451-465) *)
Definition patch_users_id (request : Request) : M2 unit :=
  let id := params_id request in
  if not_self request id then
    lift (do* setFlash B "danger" "Access denied" in reply_redirect "/users")
  else
    let attrs := {| uu_firstName := data_field request d_firstName;
                    uu_lastName := data_field request d_lastName;
                    uu_email := data_field request d_email;
                    uu_password := None |} in
    let given := data_field request d_password in
    let* attrs :=
      if truthy_opt given && (3 <=? Z.of_nat (String.length (default "" given)))
      then
        let* hashed := lift (invoke_o (Call_bcrypt_hash (default "" given) 10)
                                      (bcrypt_hash C (default "" given) 10)) in
        ret {| uu_firstName := uu_firstName attrs; uu_lastName := uu_lastName attrs;
               uu_email := uu_email attrs; uu_password := Some hashed |}
      else ret attrs in
    do* invoke2 (Call_userRepo_update id attrs) (userRepo_update P id attrs) in
    lift (do* setFlash B "success" "User updated" in reply_redirect "/users").

(** [GET /session/new] (lines 485-491) *)
Definition get_session_new (request : Request) : M2 unit :=
  let lang := lang_of request in
  let* flash := lift (getFlash B request) in
  render (Page_session_new lang flash).

(** [DELETE /session] (lines 511-515) *)
Definition delete_session (request : Request) : M unit :=
  do* clearCookie B "userId" (opts_path "/") in
  do* setFlash B "success" "Signed out" in
  reply_redirect "/".

End Routes.

(** ** Static files ([GET /public/*], lines 36-56) *)

(** The calls to [fs] and [path] of the route; [joined] is
    [join(publicRoot, relPath)]. *)
Record filesystem : Type := {
  joined : string -> string;
  existsSync : string -> outcome bool;
  lstatSync_isDirectory : string -> outcome bool;
  createReadStream : string -> outcome string
}.

(** [a.pop()] of a non-empty array of strings. *)
Definition pop (l : list string) : string := List.last l "".

(** The content type chosen from the extension. *)
Definition mime_of (safePath : string) : string :=
  let ext := pop (JsString.split "." safePath) in
  if String.eqb ext "js" then "application/javascript"
  else if String.eqb ext "css" then "text/css"
  else "application/octet-stream".

Definition get_public (F : filesystem) (star : option string) : M2 unit :=
  let relPath := or_default star "" in
  let safePath := joined F relPath in
  try_catch
    (let* present := lift_o (existsSync F safePath) in
     let* missing :=
       if negb present then ret true
       else lift_o (lstatSync_isDirectory F safePath) in
     if missing then
       lift (do* reply_status 404 in reply_send "Not found")
     else
       let* stream := lift_o (createReadStream F safePath) in
       (* Determinar content-type básico por extensión *)
       let mime := mime_of safePath in
       do* lift (reply_type mime) in
       lift (reply_send stream))
    (fun err =>
       do* tell2 (Call_request_log_error err) in
       do* lift (reply_status 500) in
       lift (reply_send "Error reading static file")).

(** ** Sample data for the routes *)

Module Sample.

Definition platform0 : platform :=
  {| Number_isNaN := fun s => match Fixture.decimal s with Some _ => false | None => true end;
     renderFile := fun p => Return "<!DOCTYPE html>";
     userRepo_update := fun id attrs d =>
       (Return (List.find (fun u => String.eqb (pretty (user_id u)) id) (users d)), d);
     taskRepo_create := fun attrs d =>
       (Return {| task_id := 2; task_name := ta_name attrs;
                  description := ta_description attrs; statusId := 1;
                  creatorId := ta_creatorId attrs; executorId := None; created_at := 0 |}, d);
     taskRepo_update := fun id attrs d =>
       (Return (List.find (fun x => String.eqb (pretty (task_id x)) id) (tasks d)), d) |}.

Definition s0 : state2 := {| base := Fixture.st0; calls := [] |}.

Definition anonymous (m url id : string) : Request :=
  set_currentUser None (set_cookies ∅ (Fixture.req m url None id Fixture.no_query None)).

Definition as_user (u : user) (m url id : string) (b : option body_t) : Request :=
  set_currentUser (Some u)
    (set_cookies {[ "userId" := pretty (user_id u) ]}
       (Fixture.req m url (Some ("userId=" +:+ pretty (user_id u))) id Fixture.no_query b)).

Definition files : filesystem :=
  {| joined := fun rel => "/app/public/" +:+ rel;
     existsSync := fun p => Return (String.eqb p "/app/public/site.css");
     lstatSync_isDirectory := fun p => Return false;
     createReadStream := fun p => Return "body { }" |}.

End Sample.

(** ** Observations on the routes *)

(** The handler answered with a flash message and a redirect, and did
    nothing else: no call left the application, the database is as it was. *)
Definition refused (B : builtins) (type message url : string)
           (s : state2) (r : outcome unit * state2) : Prop :=
  fst r = Return tt
  /\ db (base (snd r)) = db (base s)
  /\ log (base (snd r)) = log (base s)
  /\ calls (snd r) = calls s
  /\ flash_redirect B type message url (reply (base s)) (reply (base (snd r))).

(** The handler answered 404 'Not found' and rendered no page. *)
Definition not_found (s : state2) (r : outcome unit * state2) : Prop :=
  fst r = Return tt
  /\ statusCode (reply (base (snd r))) = 404
  /\ payload (reply (base (snd r))) = Some "Not found"
  /\ cookie_headers (reply (base (snd r))) = cookie_headers (reply (base s))
  /\ calls (snd r) = calls s.

(** A request with [u] as its current user. *)
Definition logged_in (u : user) (request : Request) : Prop :=
  currentUser request = Some u.

(** ** The JSON file of statuses ([src/repositories/statusRepository.js],
    lines 110-133) *)

Module JsonStore.

(** The two paths of the module: [join(__dirname, '..', 'data')] and
    [join(__dirname, '..', 'data', 'statuses.json')]. *)
Inductive path : Type := dataDir | STATUSES_FILE.

(** The calls to [fs], on a file system of state [F].  Each may throw,
    and none is inside a [try] of the module. *)
Record fs (F : Type) : Type := {
  existsSync : path -> ST F bool;
  mkdirSync : path -> ST F unit;
  writeFileSync : path -> string -> ST F unit;
  (** [fs.readFileSync(p, 'utf8')] *)
  readFileSync : path -> ST F string
}.
Arguments existsSync {F} _ _ _.
Arguments mkdirSync {F} _ _ _.
Arguments writeFileSync {F} _ _ _ _.
Arguments readFileSync {F} _ _ _.

Section Store.
Context (B : builtins).
(** [JSON.stringify(items, null, 2)] *)
Context (JSON_stringify_indented : json -> string).
Context {F : Type} (FS : fs F).

Definition ensureDataDir : ST F unit :=
  let* present := existsSync FS dataDir in
  do* (if negb present then mkdirSync FS dataDir else ret tt) in
  let* has_file := existsSync FS STATUSES_FILE in
  if negb has_file
  then writeFileSync FS STATUSES_FILE (JSON_stringify B (JArr []))
  else ret tt.

Definition read : ST F json :=
  do* ensureDataDir in
  let* raw := readFileSync FS STATUSES_FILE in
  try_catch (lift_o (JSON_parse B raw)) (fun err => ret (JArr [])).

Definition write (items : json) : ST F unit :=
  do* ensureDataDir in
  writeFileSync FS STATUSES_FILE (JSON_stringify_indented items).

(** A file system that shows what was written: once [writeFileSync] on
    the file of statuses has returned, the directory and the file exist
    and the file reads as the text written. *)
Definition keeps_written : Prop :=
  forall text f f',
    writeFileSync FS STATUSES_FILE text f = (Return tt, f') ->
    existsSync FS dataDir f' = (Return true, f')
    /\ existsSync FS STATUSES_FILE f' = (Return true, f')
    /\ readFileSync FS STATUSES_FILE f' = (Return text, f').

End Store.

(** *** A sample file system

    What is at [data]: nothing, a regular file, or a directory, in which
    [statuses.json] is missing, a regular file or a directory. *)
Inductive entry : Type := NoEntry | Regular (text : string) | Directory.
Inductive node : Type := Missing | RegularFile (text : string) | Folder (statuses : entry).

Definition ENOENT : exn := JsError "Error" "ENOENT: no such file or directory".
Definition EEXIST : exn := JsError "Error" "EEXIST: file already exists".
Definition ENOTDIR : exn := JsError "Error" "ENOTDIR: not a directory".
Definition EISDIR : exn := JsError "Error" "EISDIR: illegal operation on a directory".

Definition sample : fs node :=
  {| existsSync := fun p n =>
       (Return match p, n with
               | dataDir, Missing => false
               | dataDir, _ => true
               | STATUSES_FILE, Folder (Regular _ | Directory) => true
               | STATUSES_FILE, _ => false
               end, n);
     mkdirSync := fun p n =>
       match p, n with
       | dataDir, Missing => (Return tt, Folder NoEntry)
       | dataDir, _ => (Throw EEXIST, n)
       | STATUSES_FILE, Missing => (Throw ENOENT, n)
       | STATUSES_FILE, RegularFile _ => (Throw ENOTDIR, n)
       | STATUSES_FILE, Folder NoEntry => (Return tt, Folder Directory)
       | STATUSES_FILE, Folder _ => (Throw EEXIST, n)
       end;
     writeFileSync := fun p text n =>
       match p, n with
       | dataDir, Folder _ => (Throw EISDIR, n)
       | dataDir, _ => (Return tt, RegularFile text)
       | STATUSES_FILE, Missing => (Throw ENOENT, n)
       | STATUSES_FILE, RegularFile _ => (Throw ENOTDIR, n)
       | STATUSES_FILE, Folder Directory => (Throw EISDIR, n)
       | STATUSES_FILE, Folder _ => (Return tt, Folder (Regular text))
       end;
     readFileSync := fun p n =>
       match p, n with
       | dataDir, Missing => (Throw ENOENT, n)
       | dataDir, RegularFile text => (Return text, n)
       | dataDir, Folder _ => (Throw EISDIR, n)
       | STATUSES_FILE, Missing => (Throw ENOENT, n)
       | STATUSES_FILE, RegularFile _ => (Throw ENOTDIR, n)
       | STATUSES_FILE, Folder NoEntry => (Throw ENOENT, n)
       | STATUSES_FILE, Folder (Regular text) => (Return text, n)
       | STATUSES_FILE, Folder Directory => (Throw EISDIR, n)
       end |}.

End JsonStore.

(** * Properties *)

(** ** The state monad and the reply helpers *)

Lemma cookie_headers_append (h : string) (r : reply_t) (v : header_value) :
  v = match set_cookie r with
      | None => HStr h
      | Some (HArr prev) => HArr (prev ++ [h])
      | Some (HStr prev) => if JsString.truthy prev then HArr [prev; h] else HStr h
      end ->
  JsString.truthy h = true ->
  cookie_headers (r_setHeader_Set_Cookie v r) = (cookie_headers r ++ [h])%list.
Proof.
  intros -> Hh. unfold cookie_headers. simpl.
  destruct (set_cookie r) as [[prev|prev]|]; simpl.
  - destruct (JsString.truthy prev); simpl; [reflexivity | now rewrite Hh].
  - reflexivity.
  - now rewrite Hh.
Qed.

Lemma append_truthy (a b : string) :
  JsString.truthy b = true -> JsString.truthy (a +:+ b) = true.
Proof. destruct a; simpl; auto. Qed.

Lemma serializeCookie_path (B : builtins) (name value : string) :
  serializeCookie B name value (opts_path "/") = cookie_header B name value.
Proof. reflexivity. Qed.

Lemma serializeCookie_clear (B : builtins) (name : string) :
  serializeCookie B name ""
    {| path := Some (or_default (path (opts_path "/")) "/"); expires := Some 0;
       httpOnly := false; maxAge := None; secure := false; sameSite := None |}
  = clear_header B name.
Proof.
  reflexivity.
Qed.

(** [setCookie] appends one header and touches nothing else. *)
Lemma setCookie_run (B : builtins) (name value : string) (opts : cookie_opts) (st : state) :
  exists st',
    setCookie B name value opts st = (Return tt, st')
    /\ db st' = db st /\ log st' = log st
    /\ statusCode (reply st') = statusCode (reply st)
    /\ contentType (reply st') = contentType (reply st)
    /\ location (reply st') = location (reply st)
    /\ payload (reply st') = payload (reply st)
    /\ (JsString.truthy (serializeCookie B name value opts) = true ->
        cookie_headers (reply st')
        = (cookie_headers (reply st) ++ [serializeCookie B name value opts])%list).
Proof.
  unfold setCookie, bind, get_reply.
  set (h := serializeCookie B name value opts).
  destruct (set_cookie (reply st)) as [[prev|prev]|] eqn:E.
  - destruct (JsString.truthy prev) eqn:Ep;
      (eexists; split; [reflexivity|]; repeat split; try reflexivity;
       intros Hh; simpl; apply cookie_headers_append; [now rewrite E, Ep | exact Hh]).
  - eexists; split; [reflexivity|]; repeat split; try reflexivity.
    intros Hh; simpl; apply cookie_headers_append; [now rewrite E | exact Hh].
  - eexists; split; [reflexivity|]; repeat split; try reflexivity.
    intros Hh; simpl; apply cookie_headers_append; [now rewrite E | exact Hh].
Qed.

Lemma cookie_header_truthy (B : builtins) (name value : string) :
  JsString.truthy (cookie_header B name value) = true.
Proof. unfold cookie_header. now apply append_truthy. Qed.

Lemma clear_header_truthy (B : builtins) (name : string) :
  JsString.truthy (clear_header B name) = true.
Proof. unfold clear_header. now apply append_truthy. Qed.

(** [setFlash(reply, type, message); return reply.redirect(url)] *)
Lemma setFlash_redirect_run (B : builtins) (type message url : string) (st : state) :
  exists st',
    (do* setFlash B type message in reply_redirect url) st = (Return tt, st')
    /\ db st' = db st /\ log st' = log st
    /\ flash_redirect B type message url (reply st) (reply st').
Proof.
  unfold setFlash, bind.
  destruct (setCookie_run B "flash" (flash_payload B type message) (opts_path "/") st)
    as (st1 & -> & Hdb & Hlog & _ & Hct & _ & _ & Hck).
  eexists; split; [reflexivity|]. simpl.
  repeat split; try assumption.
  - change (cookie_headers (r_redirect url (reply st1))) with (cookie_headers (reply st1)).
    rewrite serializeCookie_path in Hck. apply Hck, cookie_header_truthy.
Qed.

(** ** Lists of rows *)

Lemma filter_length_zero {A} (f : A -> bool) (l : list A) :
  existsb f l = false -> List.filter f l = [].
Proof.
  induction l as [|x l IH]; simpl; [reflexivity|].
  destruct (f x); simpl; [discriminate | exact IH].
Qed.

Lemma filter_length_pos {A} (f : A -> bool) (l : list A) :
  existsb f l = true -> (0 < length (List.filter f l))%nat.
Proof.
  induction l as [|x l IH]; simpl; [discriminate|].
  destruct (f x); simpl; [lia | exact IH].
Qed.

Lemma filter_negb_id {A} (f : A -> bool) (l : list A) :
  existsb f l = false -> List.filter (fun x => negb (f x)) l = l.
Proof.
  induction l as [|x l IH]; simpl; [reflexivity|].
  destruct (f x); simpl; [discriminate|]. intros H. now rewrite IH.
Qed.

Lemma filter_negb_length {A} (f : A -> bool) (l : list A) :
  (length (List.filter (fun x => negb (f x)) l) + length (List.filter f l) = length l)%nat.
Proof.
  induction l as [|x l IH]; simpl; [reflexivity|].
  destruct (f x); simpl; lia.
Qed.

(** With no task pointing to [id], no task points to a status selected by
    [id]: the RESTRICT reference cannot fire. *)
Lemma restrict_cannot_fire (B : builtins) (id : string) (d : database) :
  existsb (fun t => sqlite_int_eq B (statusId t) id) (tasks d) = false ->
  existsb (fun t => existsb (fun s => statusId t =? status_id s)
                      (List.filter (fun s => sqlite_int_eq B (status_id s) id) (statuses d)))
          (tasks d) = false.
Proof.
  intros Hno. apply not_true_is_false. intros Hex.
  apply existsb_exists in Hex as (t & Ht & Hs).
  apply existsb_exists in Hs as (s & Hs & Heq).
  apply filter_In in Hs as [_ Hs]. apply Z.eqb_eq in Heq.
  assert (Hyes : existsb (fun t => sqlite_int_eq B (statusId t) id) (tasks d) = true).
  { apply existsb_exists. exists t. split; [exact Ht|]. now rewrite Heq. }
  congruence.
Qed.

Lemma set_statuses_id (d : database) : set_statuses (statuses d) d = d.
Proof. now destruct d. Qed.

(** A referenced status: the guard answers [false] before any deletion. *)
Lemma statusRepo_remove_referenced (B : builtins) (id : string) (d : database) :
  existsb (fun t => sqlite_int_eq B (statusId t) id) (tasks d) = true ->
  statusRepo.remove B id d = (Return false, d).
Proof.
  intros H. unfold statusRepo.remove, bind, knex_tasks_where_statusId_count.
  apply filter_length_pos in H.
  destruct (0 <? _) eqn:E; [reflexivity|].
  apply Z.ltb_ge in E. lia.
Qed.

(** An unreferenced status: the rows selected by [id] are deleted. *)
Lemma statusRepo_remove_unreferenced (B : builtins) (id : string) (d : database) :
  existsb (fun t => sqlite_int_eq B (statusId t) id) (tasks d) = false ->
  statusRepo.remove B id d
  = (Return (existsb (fun s => sqlite_int_eq B (status_id s) id) (statuses d)),
     set_statuses
       (List.filter (fun s => negb (sqlite_int_eq B (status_id s) id)) (statuses d)) d).
Proof.
  intros H. unfold statusRepo.remove, bind, knex_tasks_where_statusId_count.
  rewrite (filter_length_zero _ _ H). simpl.
  unfold knex_statuses_where_id_del.
  rewrite (restrict_cannot_fire B id d H), andb_false_r. unfold ret.
  f_equal. f_equal.
  destruct (existsb _ (statuses d)) eqn:E.
  - apply filter_length_pos in E. apply Z.ltb_lt. lia.
  - rewrite (filter_length_zero _ _ E). reflexivity.
Qed.

(** ** Removal of statuses and users *)

(** C1: a status referenced by a task is not deleted: [statusRepo.remove]
    returns [false], leaves the database as it is and does not throw, and
    [DELETE /statuses/:id] answers with a danger flash and a redirect; with
    the user repository as the specification describes it, the same holds
    for a user referenced as the creator of a task and [DELETE /users/:id]. *)
Theorem referenced_rows_are_not_deleted
    (B : builtins) (C : collaborators) (request : Request) (st : state) :
  let id := params_id request in
  (existsb (fun t => sqlite_int_eq B (statusId t) id) (tasks (db st)) = true ->
   statusRepo.remove B id (db st) = (Return false, db st)
   /\ exists st',
        delete_statuses_id B request st = (Return tt, st')
        /\ db st' = db st
        /\ match currentUser request with
           | Some _ =>
               flash_redirect B "danger" "Cannot delete status with assigned tasks"
                              "/statuses" (reply st) (reply st')
           | None =>
               flash_redirect B "danger" "Access denied" "/session/new"
                              (reply st) (reply st')
           end)
  /\ (userRepo_remove C = userRepo_remove_model B ->
      existsb (fun t => sqlite_int_eq B (creatorId t) id) (tasks (db st)) = true ->
      userRepo_remove C id (db st) = (Return false, db st)
      /\ exists st',
           delete_users_id B C request st = (Return tt, st')
           /\ db st' = db st
           /\ if match currentUser request with
                 | Some u => String.eqb (String_of_Z (user_id u)) id
                 | None => false
                 end
              then flash_redirect B "danger" "Cannot delete user with assigned tasks"
                                  "/users" (reply st) (reply st')
              else flash_redirect B "danger" "Access denied" "/users"
                                  (reply st) (reply st')).
Proof.
  intros id. split.
  - intros Href. pose proof (statusRepo_remove_referenced B id (db st) Href) as Hrm.
    split; [exact Hrm|].
    unfold delete_statuses_id. fold id.
    destruct (currentUser request) as [u|].
    + unfold bind at 1. unfold on_db. rewrite Hrm. cbn [negb].
      destruct (setFlash_redirect_run B "danger" "Cannot delete status with assigned tasks"
                  "/statuses" (with_db (db st) st)) as (st' & Hrun & Hdb & _ & Hfl).
      exists st'. split; [exact Hrun|]. split; [exact Hdb | exact Hfl].
    + destruct (setFlash_redirect_run B "danger" "Access denied" "/session/new" st)
        as (st' & Hrun & Hdb & _ & Hfl).
      exists st'. split; [exact Hrun|]. split; [exact Hdb | exact Hfl].
  - intros Hmodel Href.
    assert (Hrm : userRepo_remove C id (db st) = (Return false, db st)).
    { rewrite Hmodel. unfold userRepo_remove_model. now rewrite Href. }
    split; [exact Hrm|].
    unfold delete_users_id. fold id.
    destruct (currentUser request) as [u|].
    + destruct (String.eqb (String_of_Z (user_id u)) id); cbn [negb].
      * unfold bind at 1, invoke, bind at 1, tell, on_db. cbn [db with_log].
        rewrite Hrm. cbn [negb].
        destruct (setFlash_redirect_run B "danger" "Cannot delete user with assigned tasks"
                    "/users" (with_db (db st) (with_log (Call_userRepo_remove id) st)))
          as (st' & Hrun & Hdb & _ & Hfl).
        exists st'. split; [exact Hrun|]. split; [exact Hdb | exact Hfl].
      * destruct (setFlash_redirect_run B "danger" "Access denied" "/users" st)
          as (st' & Hrun & Hdb & _ & Hfl).
        exists st'. split; [exact Hrun|]. split; [exact Hdb | exact Hfl].
    + destruct (setFlash_redirect_run B "danger" "Access denied" "/users" st)
        as (st' & Hrun & Hdb & _ & Hfl).
      exists st'. split; [exact Hrun|]. split; [exact Hdb | exact Hfl].
Qed.

(** C9: [statusRepo.remove] never throws; it returns [true] exactly when a
    status row has been deleted, that is when no task refers to [id] and a
    row with that id exists; a [false] result leaves the database unchanged
    and is also what a missing row gives. *)
Theorem statusRepo_remove_true_iff_row_deleted
    (B : builtins) (id : string) (d : database) :
  exists b d',
    statusRepo.remove B id d = (Return b, d')
    /\ (b = true <-> (length (statuses d') < length (statuses d))%nat)
    /\ (b = true <->
        existsb (fun t => sqlite_int_eq B (statusId t) id) (tasks d) = false
        /\ existsb (fun s => sqlite_int_eq B (status_id s) id) (statuses d) = true)
    /\ (b = false -> d' = d)
    /\ (existsb (fun t => sqlite_int_eq B (statusId t) id) (tasks d) = false ->
        existsb (fun s => sqlite_int_eq B (status_id s) id) (statuses d) = false ->
        b = false).
Proof.
  destruct (existsb (fun t => sqlite_int_eq B (statusId t) id) (tasks d)) eqn:Href.
  - exists false, d. rewrite (statusRepo_remove_referenced B id d Href).
    repeat split; try discriminate; try lia; try reflexivity.
  - rewrite (statusRepo_remove_unreferenced B id d Href).
    pose proof (filter_negb_length (fun s => sqlite_int_eq B (status_id s) id) (statuses d))
      as Hlen.
    destruct (existsb (fun s => sqlite_int_eq B (status_id s) id) (statuses d)) eqn:Hpres.
    + eexists _, _. split; [reflexivity|]. cbn [statuses set_statuses].
      apply filter_length_pos in Hpres.
      repeat split; try discriminate; try lia; try reflexivity.
    + eexists _, _. split; [reflexivity|]. cbn [statuses set_statuses].
      rewrite (filter_negb_id _ _ Hpres).
      repeat split; try discriminate; try lia; try reflexivity.
      intros _. apply set_statuses_id.
Qed.

Lemma referenced_rows_are_not_deleted_witness :
  statusRepo.remove Fixture.runtime "1" Fixture.data0 = (Return false, Fixture.data0)
  /\ userRepo_remove (Fixture.collab (Return None)) "1" Fixture.data0
     = (Return false, Fixture.data0).
Proof.
  destruct (referenced_rows_are_not_deleted
              Fixture.runtime (Fixture.collab (Return None))
              (Fixture.req "DELETE" "/statuses/1" None "1" Fixture.no_query None)
              Fixture.st0) as [Hs Hu].
  split.
  - apply (proj1 (Hs eq_refl)).
  - apply (proj1 (Hu eq_refl eq_refl)).
Defined.

(** A status that no task uses and that does not exist: [false] again. *)
Example statusRepo_remove_missing_row :
  statusRepo.remove Fixture.runtime "3" Fixture.data0 = (Return false, Fixture.data0)
  /\ statusRepo.remove Fixture.runtime "2" Fixture.data0
     = (Return true, set_statuses [Fixture.todo] Fixture.data0).
Proof. split; reflexivity. Qed.

(** ** Cookies and the flash message *)

Lemma reduce_parseCookies_total (B : builtins) (l : list string) (acc : gmap string string) :
  exists m, reduce (parseCookies_pair B) l acc = Return m.
Proof.
  revert acc. induction l as [|pair l IH]; intros acc; simpl.
  - now exists acc.
  - unfold parseCookies_pair at 1.
    destruct (JsString.indexOf "=" pair) as [idx|]; simpl.
    + destruct (decodeURIComponent B _); simpl; apply IH.
    + apply IH.
Qed.

(** C10: [parseCookies] returns a map for every header, present or not: a
    pair without [=] leaves the map as it is, a value that
    [decodeURIComponent] rejects is stored raw; and [getFlash] returns [null]
    and leaves the reply alone when the flash cookie is not JSON. *)
Theorem cookie_parsing_is_total (B : builtins) :
  (forall header, exists m, parseCookies B header = Return m)
  /\ parseCookies B None = Return ∅
  /\ parseCookies B (Some "") = Return ∅
  /\ (forall acc pair,
        JsString.indexOf "=" pair = None -> parseCookies_pair B acc pair = Return acc)
  /\ (forall acc pair idx e,
        JsString.indexOf "=" pair = Some idx ->
        decodeURIComponent B (JsString.trim (JsString.slice_from (S idx) pair)) = Throw e ->
        parseCookies_pair B acc pair
        = Return (obj_set acc (JsString.trim (JsString.slice_to idx pair))
                          (JsString.trim (JsString.slice_from (S idx) pair))))
  /\ (forall request c v e st,
        cookies request = Some c -> c !! "flash" = Some v ->
        JSON_parse B v = Throw e ->
        getFlash B request st = (Return JNull, st)).
Proof.
  repeat split.
  - intros header. unfold parseCookies.
    destruct (negb (truthy_opt header)); [now exists ∅ | apply reduce_parseCookies_total].
  - intros acc pair H. unfold parseCookies_pair. now rewrite H.
  - intros acc pair idx e Hidx Hdec. unfold parseCookies_pair. rewrite Hidx.
    cbv zeta. now rewrite Hdec.
  - intros request c v e st Hc Hv Hparse. unfold getFlash. rewrite Hc, Hv.
    destruct (negb (truthy_opt (Some v))); [reflexivity|].
    unfold try_catch, bind, lift_o. simpl. now rewrite Hparse.
Qed.

(** [getFlash] always completes; it leaves the database and the log alone. *)
Lemma getFlash_total (B : builtins) (request : Request) (st : state) :
  exists j st',
    getFlash B request st = (Return j, st') /\ db st' = db st /\ log st' = log st.
Proof.
  unfold getFlash.
  destruct (negb (truthy_opt _)); [now exists JNull, st|].
  unfold try_catch, bind at 1, lift_o.
  destruct (JSON_parse B _) as [j|e]; [|now exists JNull, st].
  unfold bind, clearCookie.
  destruct (setCookie_run B "flash" ""
              {| path := Some (or_default (path (opts_path "/")) "/"); expires := Some 0;
                 httpOnly := httpOnly (opts_path "/"); maxAge := maxAge (opts_path "/");
                 secure := secure (opts_path "/"); sameSite := sameSite (opts_path "/") |} st)
    as (st' & Hrun & Hdb & Hlog & _).
  rewrite Hrun. now exists j, st'.
Qed.

(** C6, as the code has it: the flash cookie is read once.  Without a flash
    cookie, or with an empty one, [getFlash] returns [null] and leaves the
    reply alone; a non-empty cookie that [JSON.parse] accepts is returned
    parsed, and one Set-Cookie header that empties and expires the cookie is
    appended to the reply; a cookie that is not JSON gives [null] and is
    not cleared. *)
Theorem getFlash_one_shot (B : builtins) (request : Request) (st : state) :
  let v := match cookies request with
           | Some c => c !! "flash"
           | None => None
           end in
  (truthy_opt v = false -> getFlash B request st = (Return JNull, st))
  /\ (forall s j,
        v = Some s -> JsString.truthy s = true -> JSON_parse B s = Return j ->
        exists st',
          getFlash B request st = (Return j, st')
          /\ db st' = db st /\ log st' = log st
          /\ cookie_headers (reply st')
             = (cookie_headers (reply st) ++ [clear_header B "flash"])%list
          /\ statusCode (reply st') = statusCode (reply st)
          /\ location (reply st') = location (reply st)
          /\ payload (reply st') = payload (reply st))
  /\ (forall s e,
        v = Some s -> JSON_parse B s = Throw e ->
        getFlash B request st = (Return JNull, st)).
Proof.
  intros v. repeat split.
  - intros Hv. unfold getFlash. fold v. now rewrite Hv.
  - intros s j Hs Ht Hparse. unfold getFlash. fold v. rewrite Hs. simpl. rewrite Ht. simpl.
    unfold try_catch, bind at 1, lift_o. rewrite Hparse.
    unfold bind, clearCookie.
    destruct (setCookie_run B "flash" ""
                {| path := Some (or_default (path (opts_path "/")) "/"); expires := Some 0;
                   httpOnly := httpOnly (opts_path "/"); maxAge := maxAge (opts_path "/");
                   secure := secure (opts_path "/"); sameSite := sameSite (opts_path "/") |} st)
      as (st' & Hrun & Hdb & Hlog & Hsc & _ & Hloc & Hpl & Hck).
    rewrite Hrun. exists st'. split; [reflexivity|].
    repeat split; try assumption.
    apply Hck. change (serializeCookie B "flash" "" _) with (clear_header B "flash").
    apply clear_header_truthy.
  - intros s e Hs Hparse. unfold getFlash. fold v. rewrite Hs.
    destruct (negb (truthy_opt (Some s))); [reflexivity|].
    unfold try_catch, bind, lift_o. simpl. now rewrite Hparse.
Qed.

(** C6 as stated fails: a request that carries the flash cookie [x], which
    is not JSON, gets [null], and no header clears the cookie. *)
Lemma getFlash_invalid_cookie_not_cleared :
  let r := set_cookies {[ "flash" := "x" ]}
             (Fixture.req "GET" "/" (Some "flash=x") "" Fixture.no_query None) in
  (exists m, parseCookies Fixture.runtime (headers_cookie r) = Return m
             /\ m !! "flash" = Some "x")
  /\ (exists c, cookies r = Some c /\ c !! "flash" = Some "x")
  /\ (exists e, JSON_parse Fixture.runtime "x" = Throw e)
  /\ getFlash Fixture.runtime r Fixture.st0 = (Return JNull, Fixture.st0)
  /\ cookie_headers (reply Fixture.st0) = []
  /\ ~ (exists j st',
          getFlash Fixture.runtime r Fixture.st0 = (Return j, st')
          /\ JSON_parse Fixture.runtime "x" = Return j
          /\ cookie_headers (reply st') = [clear_header Fixture.runtime "flash"]).
Proof.
  cbv zeta. repeat split.
  - eexists. split; [vm_compute; reflexivity | reflexivity].
  - eexists. split; reflexivity.
  - eexists. reflexivity.
  - intros (j & st' & _ & Hparse & _). discriminate Hparse.
Qed.

(** A flash cookie holding JSON is returned and cleared; the emptied cookie
    of the next request gives [null]. *)
Example getFlash_then_nothing :
  let r v := set_cookies {[ "flash" := v ]}
               (Fixture.req "GET" "/" None "" Fixture.no_query None) in
  let first := getFlash Fixture.runtime (r "5") Fixture.st0 in
  fst first = Return (JNum 5)
  /\ cookie_headers (reply (snd first))
     = ["flash=; Path=/; Expires=Thu, 01 Jan 1970 00:00:00 GMT"]
  /\ (exists m, parseCookies Fixture.runtime (Some "flash=") = Return m
                /\ m !! "flash" = Some "")
  /\ getFlash Fixture.runtime (r "") Fixture.st0 = (Return JNull, Fixture.st0).
Proof.
  cbv zeta. repeat split; try reflexivity.
  eexists. split; [vm_compute; reflexivity | reflexivity].
Qed.

(** ** Method override *)

Lemma toUpperCase_nonempty (v : string) :
  In (JsString.toUpperCase v) ["PATCH"; "DELETE"; "PUT"] -> JsString.truthy v = true.
Proof.
  destruct v; simpl; [|reflexivity].
  intros [H|[H|[H|[]]]]; discriminate H.
Qed.

Lemma existsb_eqb_In (m : string) (l : list string) :
  existsb (String.eqb m) l = true <-> In m l.
Proof.
  rewrite existsb_exists. split.
  - intros (x & Hx & He). apply String.eqb_eq in He. now subst.
  - intros H. exists m. split; [exact H | apply String.eqb_refl].
Qed.

(** The hook on a form that asks for another verb: [request.raw.method] is
    written, then the assignment to [request.method] throws. *)
Lemma preHandler_override_throws (request : Request) (m : string) :
  overrides request m ->
  preHandler request = (Throw TypeError_method, set_method m request).
Proof.
  intros (Hm & b & v & Hb & Hv & -> & Hin). unfold preHandler.
  rewrite Hm, Hb, Hv. unfold truthy_opt. rewrite (toUpperCase_nonempty v Hin).
  change (default "" (Some v)) with v.
  apply existsb_eqb_In in Hin. rewrite Hin. reflexivity.
Qed.

(** The hook on every other request: it returns and the request is as it
    was. *)
Lemma preHandler_keeps (request : Request) :
  (forall m, ~ overrides request m) ->
  preHandler request = (Return tt, request).
Proof.
  intros Hno. unfold preHandler.
  destruct (String.eqb (method request) "POST") eqn:Em; [|reflexivity].
  apply String.eqb_eq in Em.
  destruct (body request) as [b|] eqn:Eb; [|reflexivity].
  destruct (b__method b) as [v|] eqn:Hv; [|reflexivity].
  unfold truthy_opt. destruct (JsString.truthy v); [|reflexivity].
  change (default "" (Some v)) with v.
  destruct (existsb _ _) eqn:E; [|reflexivity].
  apply existsb_eqb_In in E.
  destruct (Hno (JsString.toUpperCase v)).
  split; [exact Em|]. exists b, v. now repeat split.
Qed.

(** The two cases are the only ones. *)
Lemma preHandler_cases (request : Request) :
  (preHandler request = (Return tt, request) /\ forall m, ~ overrides request m)
  \/ (exists m, overrides request m
                /\ preHandler request = (Throw TypeError_method, set_method m request)).
Proof.
  unfold preHandler, overrides.
  destruct (String.eqb (method request) "POST") eqn:Em.
  2:{ left. split; [reflexivity|]. intros m (H & _).
      apply String.eqb_eq in H. congruence. }
  apply String.eqb_eq in Em.
  destruct (body request) as [b|] eqn:Eb.
  2:{ left. split; [reflexivity|]. intros m (_ & b & v & H & _). discriminate H. }
  destruct (b__method b) as [v|] eqn:Hv.
  2:{ left. split; [reflexivity|]. intros m (_ & b' & v & H & Hv' & _).
      injection H as <-. congruence. }
  unfold truthy_opt. cbn [andb].
  destruct (JsString.truthy v) eqn:Et.
  2:{ left. split; [reflexivity|]. intros m (_ & b' & v' & H & Hv' & -> & Hin).
      injection H as <-. rewrite Hv in Hv'. injection Hv' as <-.
      apply toUpperCase_nonempty in Hin. congruence. }
  change (default "" (Some v)) with v.
  destruct (existsb _ _) eqn:E.
  - right. apply existsb_eqb_In in E. exists (JsString.toUpperCase v).
    split; [|reflexivity]. split; [exact Em|]. exists b, v. now repeat split.
  - left. split; [reflexivity|]. intros m (_ & b' & v' & H & Hv' & -> & Hin).
    injection H as <-. rewrite Hv in Hv'. injection Hv' as <-.
    apply existsb_eqb_In in Hin. congruence.
Qed.

(** When the hook returns, the handler gets the request of the onRequest
    hook. *)
Lemma preHandler_returns (r r' : Request) (o : unit) :
  preHandler r = (Return o, r') -> r' = r.
Proof.
  intros H. destruct (preHandler_cases r) as [[Hk _]|(m & _ & Ht)].
  - rewrite Hk in H. now injection H as <-.
  - rewrite Ht in H. discriminate H.
Qed.

(** C7, at a failing input: the delete form of task 1, a POST to /tasks/1
    with [_method=delete], sent by the creator of the task.  The claim has
    the hook turn it into a DELETE that the route [DELETE /tasks/:id]
    handles, which would delete the task as the plain DELETE request does.
    In the code the hook writes [request.raw.method] and throws on
    [request.method]: whatever handler the router has chosen is not run,
    the answer is the generic status 500, and the task is still there. *)
Theorem method_override_ends_in_500 :
  let C := Fixture.collab (Return None) in
  let form := Some {| b__method := Some "delete"; b_data := None |} in
  let post := Fixture.req "POST" "/tasks/1" (Some "userId=1") "1" Fixture.no_query form in
  let delete := Fixture.req "DELETE" "/tasks/1" (Some "userId=1") "1" Fixture.no_query None in
  let hooked := set_currentUser (Some Fixture.alice)
                  (set_cookies (<["userId":="1"]> ∅) post) in
  tasks (db (snd (lifecycle Fixture.runtime C (delete_tasks_id Fixture.runtime C)
                    delete Fixture.st0))) = []
  /\ onRequest Fixture.runtime C post Fixture.st0
     = (Return hooked, with_log (Call_userRepo_findById "1") Fixture.st0)
  /\ preHandler hooked = (Throw TypeError_method, set_method "DELETE" hooked)
  /\ forall handler : Request -> M unit,
       exists st',
         lifecycle Fixture.runtime C handler post Fixture.st0 = (Return tt, st')
         /\ statusCode (reply st') = 500
         /\ payload (reply st') = Some "Internal Server Error"
         /\ location (reply st') = None
         /\ tasks (db st') = [Fixture.task1]
         /\ log st' = [Call_userRepo_findById "1"].
Proof.
  cbv zeta. split; [vm_compute; reflexivity|]. split; [vm_compute; reflexivity|].
  split; [reflexivity|].
  intros handler. eexists. split; [vm_compute; reflexivity|].
  repeat split.
Qed.

(** ** Running handlers *)

Lemma invoke_eq {A} (c : call) (m : ST database A) (st : state) (o : outcome A)
      (d : database) :
  m (db st) = (o, d) -> invoke c m st = (o, with_db d (with_log c st)).
Proof.
  intros H. unfold invoke, bind, tell, on_db. cbn [db with_log]. now rewrite H.
Qed.

Lemma invoke_o_eq {A} (c : call) (o : outcome A) (st : state) :
  invoke_o c o st = (o, with_log c st).
Proof. reflexivity. Qed.

Lemma bind_Return {S A B} (m : ST S A) (k : A -> ST S B) (s s' : S) (a : A) :
  m s = (Return a, s') -> bind m k s = k a s'.
Proof. intros H. unfold bind. now rewrite H. Qed.

Lemma bind_Throw {S A B} (m : ST S A) (k : A -> ST S B) (s s' : S) (e : exn) :
  m s = (Throw e, s') -> bind m k s = (Throw e, s').
Proof. intros H. unfold bind. now rewrite H. Qed.

Lemma String_of_Z_eqb (a b : Z) :
  String.eqb (String_of_Z a) (String_of_Z b) = (a =? b).
Proof.
  unfold String_of_Z. destruct (Z.eqb_spec a b) as [->|Hne].
  - apply String.eqb_refl.
  - apply String.eqb_neq. intros H. apply Hne. now apply (inj pretty).
Qed.

(** ** Error handler *)

(** The error handler always completes, answers 500 with a fixed body, and
    reports to Rollbar when [getRollbar()] returns an instance. *)
Lemma errorHandler_run (C : collaborators) (error : exn) (request : Request) (st : state) :
  exists st',
    errorHandler C error request st = (Return tt, st')
    /\ db st' = db st
    /\ reply st' = r_send "Internal Server Error" (r_type "text/html" (r_status 500 (reply st)))
    /\ log st'
       = (log st ++
          match getRollbar C with
          | Return (Some inst) =>
              Call_rollbar_error error (raw request)
              :: match rollbar_error inst error (raw request) with
                 | Return _ => []
                 | Throw e => [Call_log_error "Error reporting to Rollbar" e]
                 end
          | Return None => []
          | Throw e => [Call_log_error "Error reporting to Rollbar" e]
          end)%list.
Proof.
  unfold errorHandler, bind, try_catch, lift_o, invoke_o, bind, tell, lift_o.
  destruct (getRollbar C) as [[inst|]|e].
  - destruct (rollbar_error inst error (raw request)) as [[]|e];
      (eexists; split; [reflexivity|]; cbn; repeat split; try reflexivity).
    + now rewrite <- app_assoc.
  - eexists; split; [reflexivity|]; cbn; repeat split; try reflexivity.
    now rewrite app_nil_r.
  - eexists; split; [reflexivity|]; cbn; repeat split; reflexivity.
Qed.

(** C8: when the handler of a route throws, the error handler runs: it
    passes the error and [request.raw] to the Rollbar instance if
    [getRollbar()] returns one, and whatever Rollbar does, the reply is the
    status 500 with the body 'Internal Server Error', which does not depend
    on the error.  The handler runs on the request that the two hooks have
    let through. *)
Theorem unhandled_exception_gives_500
    (B : builtins) (C : collaborators) (handler : Request -> M unit)
    (request r r' : Request) (st st1 st2 : state) (error : exn) :
  onRequest B C request st = (Return r, st1) ->
  preHandler r = (Return tt, r') ->
  handler r' st1 = (Throw error, st2) ->
  exists st',
    lifecycle B C handler request st = (Return tt, st')
    /\ db st' = db st2
    /\ reply st' = r_send "Internal Server Error" (r_type "text/html" (r_status 500 (reply st2)))
    /\ statusCode (reply st') = 500
    /\ contentType (reply st') = Some "text/html"
    /\ payload (reply st') = Some "Internal Server Error"
    /\ (forall inst, getRollbar C = Return (Some inst) ->
        exists rest, log st' = (log st2 ++ Call_rollbar_error error (raw r') :: rest)%list
                     /\ forall e' q, ~ In (Call_rollbar_error e' q) rest)
    /\ (getRollbar C = Return None -> log st' = log st2).
Proof.
  intros Hhook Hpre Hthrow. unfold lifecycle. rewrite Hhook, Hpre.
  unfold try_catch. rewrite Hthrow.
  destruct (errorHandler_run C error r' st2) as (st' & Hrun & Hdb & Hrep & Hlog).
  exists st'. split; [exact Hrun|]. split; [exact Hdb|]. split; [exact Hrep|].
  rewrite Hrep. repeat split.
  - intros inst Hrb. rewrite Hrb in Hlog. eexists. split; [exact Hlog|].
    intros e' q. destruct (rollbar_error inst error (raw r')); simpl.
    + tauto.
    + intros [H|[]]. discriminate H.
  - intros Hrb. rewrite Hrb in Hlog. now rewrite app_nil_r in Hlog.
Qed.

Lemma unhandled_exception_gives_500_witness :
  exists st',
    lifecycle Fixture.runtime
      (Fixture.collab (Return (Some {| rollbar_error := fun _ _ => Return tt |})))
      get_debug_rollbar
      (Fixture.req "GET" "/debug/rollbar" None "" Fixture.no_query None) Fixture.st0
    = (Return tt, st')
    /\ statusCode (reply st') = 500
    /\ payload (reply st') = Some "Internal Server Error".
Proof.
  destruct (unhandled_exception_gives_500
              Fixture.runtime
              (Fixture.collab (Return (Some {| rollbar_error := fun _ _ => Return tt |})))
              get_debug_rollbar
              (Fixture.req "GET" "/debug/rollbar" None "" Fixture.no_query None)
              (set_currentUser None
                 (set_cookies ∅ (Fixture.req "GET" "/debug/rollbar" None "" Fixture.no_query None)))
              (set_currentUser None
                 (set_cookies ∅ (Fixture.req "GET" "/debug/rollbar" None "" Fixture.no_query None)))
              Fixture.st0 Fixture.st0 Fixture.st0
              (JsError "Error" "Debug rollbar error: manual trigger")
              eq_refl eq_refl eq_refl)
    as (st' & Hrun & _ & _ & Hst & _ & Hpl & _).
  exists st'. split; [exact Hrun|]. split; [exact Hst | exact Hpl].
Defined.

(** ** Deleting a task *)

(** The access check of [DELETE /tasks/:id] compares the decimal renderings
    of two integers, hence the integers. *)
Lemma creator_check (request : Request) (task : task) :
  match currentUser request with
  | None => true
  | Some u => negb (String.eqb (String_of_Z (user_id u)) (String_of_Z (creatorId task)))
  end = negb (is_creator request task).
Proof.
  unfold is_creator. destruct (currentUser request) as [u|]; [|reflexivity].
  now rewrite String_of_Z_eqb.
Qed.

(** C2: [DELETE /tasks/:id] looks the task up; a missing task gives 404; a
    task found is removed through [taskRepo.remove] exactly when the request
    has a current user whose id is the [creatorId] of the task, and
    otherwise the handler redirects to /tasks with the flash 'Access denied'
    and calls nothing else, so that the database stays as the lookup left
    it. *)
Theorem delete_task_only_by_creator
    (B : builtins) (C : collaborators) (request : Request) (st : state) :
  let id := params_id request in
  let result := delete_tasks_id B C request st in
  let o := fst result in
  let st' := snd result in
  match taskRepo_findById C id (db st) with
  | (Throw e, d1) => o = Throw e /\ db st' = d1
  | (Return None, d1) =>
      o = Return tt
      /\ log st' = (log st ++ [Call_taskRepo_findById id])%list
      /\ db st' = d1
      /\ statusCode (reply st') = 404
      /\ payload (reply st') = Some "Not found"
  | (Return (Some task), d1) =>
      if is_creator request task
      then
        log st' = (log st ++ [Call_taskRepo_findById id; Call_taskRepo_remove id])%list
        /\ db st' = snd (taskRepo_remove C id d1)
        /\ match fst (taskRepo_remove C id d1) with
           | Return _ =>
               o = Return tt
               /\ flash_redirect B "success" (t B (lang_of request) "task.deleted")
                                 "/tasks" (reply st) (reply st')
           | Throw e => o = Throw e
           end
      else
        o = Return tt
        /\ log st' = (log st ++ [Call_taskRepo_findById id])%list
        /\ db st' = d1
        /\ flash_redirect B "danger" "Access denied" "/tasks" (reply st) (reply st')
  end.
Proof.
  intros id result o st'. subst o st' result. unfold delete_tasks_id. fold id.
  destruct (taskRepo_findById C id (db st)) as [[[task|]|e] d1] eqn:Efind.
  - rewrite (bind_Return _ _ _ _ _ (invoke_eq (Call_taskRepo_findById id) _ st _ _ Efind)).
    rewrite creator_check.
    destruct (is_creator request task); cbn [negb].
    + set (st1 := with_db d1 (with_log (Call_taskRepo_findById id) st)).
      destruct (taskRepo_remove C id d1) as [[[]|e] d2] eqn:Erm.
      * assert (Hrm : taskRepo_remove C id (db st1) = (Return tt, d2)) by exact Erm.
        rewrite (bind_Return _ _ _ _ _ (invoke_eq (Call_taskRepo_remove id) _ st1 _ _ Hrm)).
        destruct (setFlash_redirect_run B "success" (t B (lang_of request) "task.deleted")
                    "/tasks" (with_db d2 (with_log (Call_taskRepo_remove id) st1)))
          as (st' & Hrun & Hdb & Hlog & Hfl).
        rewrite Hrun. cbn [fst snd]. rewrite Hlog, Hdb. cbn.
        rewrite <- app_assoc. repeat split; try reflexivity; try apply Hfl.
      * assert (Hrm : taskRepo_remove C id (db st1) = (Throw e, d2)) by exact Erm.
        rewrite (bind_Throw _ _ _ _ _ (invoke_eq (Call_taskRepo_remove id) _ st1 _ _ Hrm)).
        cbn. rewrite <- app_assoc. repeat split; reflexivity.
    + destruct (setFlash_redirect_run B "danger" "Access denied" "/tasks"
                  (with_db d1 (with_log (Call_taskRepo_findById id) st)))
        as (st' & Hrun & Hdb & Hlog & Hfl).
      rewrite Hrun. cbn [fst snd]. rewrite Hlog, Hdb.
      repeat split; try reflexivity; try apply Hfl.
  - rewrite (bind_Return _ _ _ _ _ (invoke_eq (Call_taskRepo_findById id) _ st _ _ Efind)).
    cbn. repeat split; reflexivity.
  - rewrite (bind_Throw _ _ _ _ _ (invoke_eq (Call_taskRepo_findById id) _ st _ _ Efind)).
    cbn. split; reflexivity.
Qed.

(** The repository as the specification describes it: after [remove(id)]
    no row answers to [id]. *)
Lemma taskRepo_remove_model_deletes (B : builtins) (id : string) (d : database) :
  fst (taskRepo_findById_model B id (snd (taskRepo_remove_model B id d))) = Return None.
Proof.
  unfold taskRepo_findById_model, taskRepo_remove_model. cbn. f_equal.
  induction (tasks d) as [|x l IH]; [reflexivity|]. simpl.
  destruct (sqlite_int_eq B (task_id x) id) eqn:E; simpl; [exact IH|].
  now rewrite E.
Qed.

Example delete_task_by_creator :
  let C := Fixture.collab (Return None) in
  let h := delete_tasks_id Fixture.runtime C in
  let r cookie := Fixture.req "DELETE" "/tasks/1" cookie "1" Fixture.no_query None in
  tasks (db (snd (lifecycle Fixture.runtime C h (r (Some "userId=1")) Fixture.st0))) = []
  /\ tasks (db (snd (lifecycle Fixture.runtime C h (r (Some "userId=2")) Fixture.st0)))
     = [Fixture.task1]
  /\ tasks (db (snd (lifecycle Fixture.runtime C h (r None) Fixture.st0)))
     = [Fixture.task1].
Proof. cbv zeta. repeat split; vm_compute; reflexivity. Qed.

(** ** Registration and login *)

(** C3: when the email of a registration belongs to an existing user, [POST
    /users] creates nothing: it redirects to /users/new with a danger flash,
    makes no call to [userRepo.create] and leaves the database as it is; the
    schema moreover declares [users.email] unique. *)
Theorem duplicate_email_creates_no_user
    (B : builtins) (C : collaborators) (request : Request) (st : state) (u : user) :
  let email := default "" (data_field request d_email) in
  userRepo_findByEmail C email (db st) = (Return (Some u), db st) ->
  exists st',
    post_users B C request st = (Return tt, st')
    /\ db st' = db st
    /\ log st' = (log st ++ if registration_invalid request then []
                            else [Call_userRepo_findByEmail email])%list
    /\ (forall attrs, In (Call_userRepo_create attrs) (log st') ->
                      In (Call_userRepo_create attrs) (log st))
    /\ flash_redirect B "danger"
         (if registration_invalid request then "Validation error: check required fields"
          else "Email already in use")
         "/users/new" (reply st) (reply st')
    /\ option_map col_unique (find_column "users" "email") = Some true.
Proof.
  intros email Hfind. unfold post_users. fold email.
  destruct (registration_invalid request).
  - destruct (setFlash_redirect_run B "danger" "Validation error: check required fields"
                "/users/new" st) as (st' & Hrun & Hdb & Hlog & Hfl).
    exists st'. split; [exact Hrun|]. split; [exact Hdb|].
    rewrite Hlog, app_nil_r. split; [reflexivity|].
    split; [tauto|]. split; [exact Hfl | reflexivity].
  - rewrite (bind_Return _ _ _ _ _ (invoke_eq (Call_userRepo_findByEmail email) _ st _ _ Hfind)).
    destruct (setFlash_redirect_run B "danger" "Email already in use" "/users/new"
                (with_db (db st) (with_log (Call_userRepo_findByEmail email) st)))
      as (st' & Hrun & Hdb & Hlog & Hfl).
    exists st'. split; [exact Hrun|]. split; [exact Hdb|].
    rewrite Hlog. cbn [log with_db with_log]. split; [reflexivity|].
    split; [|split; [exact Hfl | reflexivity]].
    intros attrs Hin. apply in_app_or in Hin as [Hin|[Hin|[]]]; [exact Hin | discriminate Hin].
Qed.

Lemma duplicate_email_creates_no_user_witness :
  exists st',
    post_users Fixture.runtime (Fixture.collab (Return None))
      (Fixture.req "POST" "/users" None "" Fixture.no_query
         (Some {| b__method := None;
                  b_data := Some {| d_firstName := Some "Al"; d_lastName := Some "Ice";
                                    d_email := Some "alice@example.com";
                                    d_password := Some "secret" |} |}))
      Fixture.st0 = (Return tt, st')
    /\ db st' = Fixture.data0.
Proof.
  destruct (duplicate_email_creates_no_user
              Fixture.runtime (Fixture.collab (Return None))
              (Fixture.req "POST" "/users" None "" Fixture.no_query
                 (Some {| b__method := None;
                          b_data := Some {| d_firstName := Some "Al"; d_lastName := Some "Ice";
                                            d_email := Some "alice@example.com";
                                            d_password := Some "secret" |} |}))
              Fixture.st0 Fixture.alice eq_refl)
    as (st' & Hrun & Hdb & _).
  exists st'. split; [exact Hrun | exact Hdb].
Defined.

Lemma flash_header_not_userId (B : builtins) (type message value : string) :
  flash_header B type message <> cookie_header B "userId" value.
Proof. unfold flash_header, cookie_header. simpl. discriminate. Qed.

(** C4: [POST /session] with an unknown email or a password that
    [bcrypt.compare] rejects redirects to /session/new with the flash
    'Invalid credentials' and adds no [userId] cookie; with a matching
    password it adds the cookie [userId], holding the id of the user, and
    redirects to /. *)
Theorem post_session_checks_password
    (B : builtins) (C : collaborators) (request : Request) (st : state) :
  let email' := default "" (data_field request d_email) in
  let password' := default "" (data_field request d_password) in
  let result := post_session B C request st in
  let o := fst result in
  let st' := snd result in
  match userRepo_findByEmail C email' (db st) with
  | (Throw e, d1) => o = Throw e
  | (Return None, d1) => login_rejected B st st' o d1
  | (Return (Some user), d1) =>
      match bcrypt_compare C password' (password user) with
      | Throw e => o = Throw e
      | Return false => login_rejected B st st' o d1
      | Return true =>
          o = Return tt
          /\ db st' = d1
          /\ cookie_headers (reply st')
             = (cookie_headers (reply st)
                ++ [cookie_header B "userId" (String_of_Z (user_id user));
                    flash_header B "success" "Signed in"])%list
          /\ statusCode (reply st') = 302
          /\ location (reply st') = Some "/"
      end
  end.
Proof.
  intros email' password' result o st'. subst o st' result.
  unfold post_session. fold email' password'.
  assert (Hrej : forall s0 : state,
             login_rejected B s0
               (snd ((do* setFlash B "danger" "Invalid credentials" in
                      reply_redirect "/session/new") s0))
               (fst ((do* setFlash B "danger" "Invalid credentials" in
                      reply_redirect "/session/new") s0))
               (db s0)).
  { intros s0.
    destruct (setFlash_redirect_run B "danger" "Invalid credentials" "/session/new" s0)
      as (s1 & Hrun & Hdb & Hlog & Hfl).
    rewrite Hrun. cbn [fst snd].
    split; [reflexivity|]. split; [exact Hdb|]. split; [exact Hfl|].
    intros h Hin. destruct Hfl as (Hck & _). rewrite Hck in Hin.
    apply in_app_or in Hin as [Hin|[<-|[]]]; [now left | right].
    intros v. apply flash_header_not_userId. }
  destruct (userRepo_findByEmail C email' (db st)) as [[[user|]|e] d1] eqn:Efind.
  - rewrite (bind_Return _ _ _ _ _ (invoke_eq (Call_userRepo_findByEmail email') _ st _ _ Efind)).
    set (st1 := with_db d1 (with_log (Call_userRepo_findByEmail email') st)).
    destruct (bcrypt_compare C password' (password user)) as [[|]|e].
    1, 2: rewrite (bind_Return _ _ _ _ _ (invoke_o_eq (Call_bcrypt_compare password' (password user)) _ st1)); cbn [negb].
    3: rewrite (bind_Throw _ _ _ _ _ (invoke_o_eq (Call_bcrypt_compare password' (password user)) _ st1)).
    + set (st2 := with_log (Call_bcrypt_compare password' (password user)) st1).
      destruct (setCookie_run B "userId" (String_of_Z (user_id user)) (opts_path "/") st2)
        as (st3 & Hrun3 & Hdb3 & Hlog3 & _ & Hct3 & _ & _ & Hck3).
      rewrite (bind_Return _ _ _ _ _ Hrun3).
      destruct (setFlash_redirect_run B "success" "Signed in" "/" st3)
        as (st4 & Hrun4 & Hdb4 & Hlog4 & Hfl4).
      rewrite Hrun4. cbn [fst snd]. destruct Hfl4 as (Hck4 & Hst4 & Hloc4 & _).
      split; [reflexivity|]. split; [now rewrite Hdb4, Hdb3|].
      split; [|split; assumption].
      rewrite Hck4, Hck3; [now rewrite <- app_assoc|].
      rewrite serializeCookie_path. apply cookie_header_truthy.
    + exact (Hrej (with_log (Call_bcrypt_compare password' (password user)) st1)).
    + reflexivity.
  - rewrite (bind_Return _ _ _ _ _ (invoke_eq (Call_userRepo_findByEmail email') _ st _ _ Efind)).
    exact (Hrej (with_db d1 (with_log (Call_userRepo_findByEmail email') st))).
  - rewrite (bind_Throw _ _ _ _ _ (invoke_eq (Call_userRepo_findByEmail email') _ st _ _ Efind)).
    reflexivity.
Qed.

(** ** Listing tasks *)

(** What [GET /tasks] does after fetching the tasks: further calls are
    logged, and the page is rendered from the fetched tasks. *)
Lemma get_tasks_render_log
    (B : builtins) (C : collaborators) (request : Request) (tasks : list task) (st : state) :
  exists rest,
    log (snd (get_tasks_render B C request tasks st)) = (log st ++ rest)%list
    /\ forall p l, In (Call_pug_renderFile p l) rest -> l_tasks l = tasks.
Proof.
  unfold get_tasks_render.
  rewrite (bind_Return _ _ _ _ _
             (eq_refl : on_db statusRepo.findAll st
                        = (Return (statuses (db st)), with_db (db st) st))).
  set (st1 := with_db (db st) st).
  destruct (userRepo_findAll C (db st1)) as [[us|e] d2] eqn:E2.
  2:{ rewrite (bind_Throw _ _ _ _ _ (invoke_eq Call_userRepo_findAll _ st1 _ _ E2)).
      exists [Call_userRepo_findAll]. split; [reflexivity|].
      intros p l [H|[]]; discriminate H. }
  rewrite (bind_Return _ _ _ _ _ (invoke_eq Call_userRepo_findAll _ st1 _ _ E2)).
  set (st2 := with_db d2 (with_log Call_userRepo_findAll st1)).
  destruct (labelRepo_findAll C (db st2)) as [[ls|e] d3] eqn:E3.
  2:{ rewrite (bind_Throw _ _ _ _ _ (invoke_eq Call_labelRepo_findAll _ st2 _ _ E3)).
      exists [Call_userRepo_findAll; Call_labelRepo_findAll]. split.
      - cbn. now rewrite <- app_assoc.
      - intros p l [H|[H|[]]]; discriminate H. }
  rewrite (bind_Return _ _ _ _ _ (invoke_eq Call_labelRepo_findAll _ st2 _ _ E3)).
  set (st3 := with_db d3 (with_log Call_labelRepo_findAll st2)).
  destruct (getFlash_total B request st3) as (j & st4 & Hfl & _ & Hlog4).
  rewrite (bind_Return _ _ _ _ _ Hfl).
  set (locals := {| l_lang := lang_of request; l_tasks := tasks |}).
  exists [Call_userRepo_findAll; Call_labelRepo_findAll;
          Call_pug_renderFile "views/tasks/index.pug" locals].
  split.
  - destruct (pug_renderFile C "views/tasks/index.pug" locals) as [html|e] eqn:Ep.
    + rewrite (bind_Return _ _ _ _ _
                 (invoke_o_eq (Call_pug_renderFile "views/tasks/index.pug" locals) _ st4)).
      cbn. rewrite Hlog4. cbn. now rewrite <- !app_assoc.
    + rewrite (bind_Throw _ _ _ _ _
                 (invoke_o_eq (Call_pug_renderFile "views/tasks/index.pug" locals) _ st4)).
      cbn. rewrite Hlog4. cbn. now rewrite <- !app_assoc.
  - intros p l [H|[H|[H|[]]]]; try discriminate H.
    injection H as _ <-. reflexivity.
Qed.

Lemma matches_num_Int (col : Z) (n : jsnum) :
  matches_num col n = true -> n = Int col.
Proof.
  destruct n as [z|]; simpl; [|discriminate].
  intros H. apply Z.eqb_eq in H. now subst.
Qed.

(** A task that passes the filter object of a request satisfies every filter
    the query supplies. *)
Lemma task_matches_sound (B : builtins) (request : Request) (d : database) (t : task) :
  task_matches (tasks_filters B request) d t = true ->
  satisfies_query B request d t.
Proof.
  unfold task_matches, tasks_filters, satisfies_query. cbn [f_statusId f_executorId
    f_labelId f_hasLabel f_createdBy].
  intros H. repeat (apply andb_true_iff in H as [H ?]).
  repeat split.
  - intros Hq. rewrite Hq in H. now apply matches_num_Int.
  - intros Hq. rewrite Hq in H3. destruct (executorId t) as [e|]; [|discriminate].
    exists e. split; [reflexivity | now apply matches_num_Int].
  - intros Hq. rewrite Hq in H2. apply existsb_exists in H2 as ([tid lid] & Hin & Hm).
    apply andb_true_iff in Hm as [Hid Hm]. apply Z.eqb_eq in Hid. simpl in Hid, Hm.
    subst tid. exists lid. split; [exact Hin | now apply matches_num_Int].
  - intros Hq. rewrite Hq in H1. apply existsb_exists in H1 as ([tid lid] & Hin & Hid).
    apply Z.eqb_eq in Hid. simpl in Hid. subst tid. now exists lid.
  - intros Hq u Hu. rewrite Hq, Hu in H0. now apply Z.eqb_eq in H0.
Qed.

(** The current user comes from the cookie [userId] of the request. *)
Lemma onRequest_currentUser
    (B : builtins) (C : collaborators) (r0 r1 : Request) (st0 st : state) (u : user) :
  onRequest B C r0 st0 = (Return r1, st) ->
  currentUser r1 = Some u ->
  exists m s,
    parseCookies B (headers_cookie r0) = Return m
    /\ m !! "userId" = Some s
    /\ JsString.truthy s = true
    /\ fst (userRepo_findById C s (db st0)) = Return (Some u).
Proof.
  unfold onRequest. intros Hrun Hu.
  destruct (parseCookies B (headers_cookie r0)) as [m|e] eqn:Ep.
  2:{ unfold bind, lift_o in Hrun. discriminate Hrun. }
  rewrite (bind_Return _ _ _ _ _ (eq_refl : lift_o (Return m) st0 = (Return m, st0))) in Hrun.
  destruct (m !! "userId") as [s|] eqn:Es; cbn [truthy_opt] in Hrun.
  - destruct (JsString.truthy s) eqn:Et.
    + cbn [default] in Hrun.
      destruct (userRepo_findById C s (db st0)) as [[v|e] d1] eqn:Ef.
      * rewrite (bind_Return _ _ _ _ _ (invoke_eq (Call_userRepo_findById s) _ st0 _ _ Ef))
          in Hrun.
        injection Hrun as <- _. cbn in Hu. subst v.
        exists m, s. rewrite Ef. now repeat split.
      * rewrite (bind_Throw _ _ _ _ _ (invoke_eq (Call_userRepo_findById s) _ st0 _ _ Ef))
          in Hrun.
        discriminate Hrun.
    + injection Hrun as <- _. discriminate Hu.
  - injection Hrun as <- _. discriminate Hu.
Qed.

(** C5: [GET /tasks] hands [taskRepo.findAll] the filter object built from
    the query; with the repository as the specification describes it, every
    task returned (and rendered) satisfies all the filters supplied; the key
    [createdBy] is present only when 'only my' is checked and the request
    has a current user, who was resolved from the cookie [userId]. *)
Theorem get_tasks_filters_are_conjoined
    (B : builtins) (C : collaborators) (request : Request) (st : state) :
  taskRepo_findAll C = taskRepo_findAll_model ->
  let f := tasks_filters B request in
  exists found rest,
    taskRepo_findAll C f (db st) = (Return found, db st)
    /\ log (snd (get_tasks B C request st))
       = (log st ++ Call_taskRepo_findAll f :: rest)%list
    /\ (forall p l, In (Call_pug_renderFile p l) rest -> l_tasks l = found)
    /\ (forall t, In t found -> In t (tasks (db st)) /\ satisfies_query B request (db st) t)
    /\ (forall uid,
          f_createdBy f = Some uid <->
          checked (q_onlyMy (query request)) = true
          /\ exists u, currentUser request = Some u /\ user_id u = uid)
    /\ (forall r0 r1 st0 u,
          onRequest B C r0 st0 = (Return r1, st) ->
          preHandler r1 = (Return tt, request) ->
          currentUser request = Some u ->
          exists m s,
            parseCookies B (headers_cookie r0) = Return m
            /\ m !! "userId" = Some s
            /\ JsString.truthy s = true
            /\ fst (userRepo_findById C s (db st0)) = Return (Some u)).
Proof.
  intros Hmodel f.
  assert (Hfind : taskRepo_findAll C f (db st)
                  = (Return (List.filter (task_matches f (db st)) (tasks (db st))), db st)).
  { now rewrite Hmodel. }
  destruct (get_tasks_render_log B C request
              (List.filter (task_matches f (db st)) (tasks (db st)))
              (with_db (db st) (with_log (Call_taskRepo_findAll f) st)))
    as (rest & Hlog & Hrender).
  exists (List.filter (task_matches f (db st)) (tasks (db st))), rest.
  split; [exact Hfind|]. split; [|split; [exact Hrender|split; [|split]]].
  - unfold get_tasks. fold f.
    rewrite (bind_Return _ _ _ _ _ (invoke_eq (Call_taskRepo_findAll f) _ st _ _ Hfind)).
    rewrite Hlog. cbn. now rewrite <- app_assoc.
  - intros t Hin. apply filter_In in Hin as [Hin Hm].
    split; [exact Hin | now apply task_matches_sound].
  - intros uid. unfold f, tasks_filters. cbn [f_createdBy].
    destruct (checked (q_onlyMy (query request))).
    + destruct (currentUser request) as [u|].
      * split.
        -- intros H. injection H as <-. split; [reflexivity|]. now exists u.
        -- intros (_ & u' & Hu & <-). now injection Hu as <-.
      * split; [discriminate|]. intros (_ & u' & Hu & _). discriminate Hu.
    + split; [discriminate|]. intros (H & _). discriminate H.
  - intros r0 r1 st0 u Hrun Hpre Hu.
    apply preHandler_returns in Hpre. subst request.
    exact (onRequest_currentUser B C r0 r1 st0 st u Hrun Hu).
Qed.

Lemma get_tasks_filters_are_conjoined_witness :
  exists found,
    taskRepo_findAll (Fixture.collab (Return None))
      (tasks_filters Fixture.runtime
         (set_currentUser (Some Fixture.alice)
            (Fixture.req "GET" "/tasks?statusId=1&onlyMy=on" (Some "userId=1") ""
               {| q_lng := None; q_statusId := Some "1"; q_executorId := None;
                  q_labelId := None; q_onlyMy := Some "on"; q_hasLabel := None |} None)))
      Fixture.data0
    = (Return found, Fixture.data0).
Proof.
  destruct (get_tasks_filters_are_conjoined
              Fixture.runtime (Fixture.collab (Return None))
              (set_currentUser (Some Fixture.alice)
                 (Fixture.req "GET" "/tasks?statusId=1&onlyMy=on" (Some "userId=1") ""
                    {| q_lng := None; q_statusId := Some "1"; q_executorId := None;
                       q_labelId := None; q_onlyMy := Some "on"; q_hasLabel := None |} None))
              Fixture.st0 eq_refl)
    as (found & rest & Hfind & _).
  exists found. exact Hfind.
Defined.

Example get_tasks_filtering :
  let C := Fixture.collab (Return None) in
  let q s := {| q_lng := None; q_statusId := Some s; q_executorId := None;
                q_labelId := None; q_onlyMy := Some "on"; q_hasLabel := None |} in
  let resolved cookie s :=
    match fst (onRequest Fixture.runtime C
                 (Fixture.req "GET" "/tasks" cookie "" (q s) None) Fixture.st0) with
    | Return r => r
    | Throw _ => Fixture.req "GET" "/tasks" cookie "" (q s) None
    end in
  let find cookie s :=
    fst (taskRepo_findAll C (tasks_filters Fixture.runtime (resolved cookie s))
                          Fixture.data0) in
  find (Some "userId=1") "1" = Return [Fixture.task1]
  /\ find (Some "userId=2") "1" = Return []
  /\ find (Some "userId=1") "2" = Return []
  /\ find None "1" = Return [Fixture.task1].
Proof. cbv zeta. repeat split; vm_compute; reflexivity. Qed.

(** * Further properties *)

(** ** Strings *)

Lemma list_of_rev_app (s acc : string) :
  list_ascii_of_string (String.rev_app s acc)
  = (List.rev (list_ascii_of_string s) ++ list_ascii_of_string acc)%list.
Proof.
  revert acc. induction s as [|c s IH]; intros acc; simpl; [reflexivity|].
  rewrite IH. simpl. now rewrite <- app_assoc.
Qed.

Lemma list_of_rev (s : string) :
  list_ascii_of_string (String.rev s) = List.rev (list_ascii_of_string s).
Proof. unfold String.rev. rewrite list_of_rev_app. simpl. apply app_nil_r. Qed.

Lemma list_of_append (a b : string) :
  list_ascii_of_string (a +:+ b)
  = (list_ascii_of_string a ++ list_ascii_of_string b)%list.
Proof. induction a as [|c a IH]; simpl; [reflexivity | now rewrite IH]. Qed.

Lemma list_ascii_inj (a b : string) :
  list_ascii_of_string a = list_ascii_of_string b -> a = b.
Proof.
  intros H. rewrite <- (string_of_list_ascii_of_string a), H.
  apply string_of_list_ascii_of_string.
Qed.

Lemma rev_rev (s : string) : String.rev (String.rev s) = s.
Proof. apply list_ascii_inj. rewrite !list_of_rev. apply rev_involutive. Qed.

Lemma rev_append (a b : string) :
  String.rev (a +:+ b) = String.rev b +:+ String.rev a.
Proof.
  apply list_ascii_inj.
  rewrite list_of_rev, !list_of_append, !list_of_rev. apply rev_app_distr.
Qed.

Lemma rev_app_rev (s cur : string) :
  String.rev (String.rev_app s cur) = String.rev cur +:+ s.
Proof.
  apply list_ascii_inj.
  rewrite list_of_rev, list_of_rev_app, list_of_append, list_of_rev.
  rewrite rev_app_distr. now rewrite rev_involutive.
Qed.

Lemma lacks_iff (c : ascii) (s : string) :
  lacks c s <-> ~ In c (list_ascii_of_string s).
Proof.
  unfold lacks. induction s as [|d s IH]; simpl.
  - split; [intros _ [] | reflexivity].
  - destruct (Ascii.eqb_spec d c) as [->|Hne].
    + split; [discriminate | intros H; exfalso; apply H; now left].
    + destruct (JsString.indexOf c s).
      * split; [discriminate|]. intros H. exfalso.
        destruct IH as [_ IH]. assert (Some n = None); [|discriminate].
        apply IH. intros Hin. apply H. now right.
      * split; [|reflexivity]. intros _ [Heq|Hin]; [contradiction|].
        now apply (proj1 IH).
Qed.

Lemma lacks_append (c : ascii) (a b : string) :
  lacks c (a +:+ b) <-> lacks c a /\ lacks c b.
Proof.
  rewrite !lacks_iff, list_of_append. split.
  - intros H. split; intros Hin; apply H, in_or_app; auto.
  - intros [Ha Hb] Hin. apply in_app_or in Hin as [?|?]; auto.
Qed.

Lemma lacks_rev (c : ascii) (s : string) : lacks c (String.rev s) <-> lacks c s.
Proof. rewrite !lacks_iff, list_of_rev. now rewrite <- in_rev. Qed.

Lemma lacks_trimStart (c : ascii) (s : string) :
  lacks c s -> lacks c (JsString.trimStart s).
Proof.
  rewrite !lacks_iff. induction s as [|d s IH]; simpl; [auto|].
  destruct (JsString.is_space d); [|auto].
  intros H. apply IH. intros Hin. apply H. now right.
Qed.

Lemma lacks_trim (c : ascii) (s : string) : lacks c s -> lacks c (JsString.trim s).
Proof.
  intros H. unfold JsString.trim.
  apply lacks_rev, lacks_trimStart, lacks_rev, lacks_trimStart, H.
Qed.

Lemma lacks_slice_to (c : ascii) (n : nat) (s : string) :
  lacks c s -> lacks c (JsString.slice_to n s).
Proof.
  rewrite !lacks_iff. revert s. induction n as [|n IH]; intros [|d s]; simpl; auto.
  intros H [Heq|Hin]; [apply H; now left|].
  apply (IH s); [|exact Hin]. intros Hin'. apply H. now right.
Qed.

(** The text before the first [c] contains no [c]. *)
Lemma lacks_before_indexOf (c : ascii) (s : string) (n : nat) :
  JsString.indexOf c s = Some n -> lacks c (JsString.slice_to n s).
Proof.
  unfold lacks. revert n. induction s as [|d s IH]; intros n; simpl; [discriminate|].
  destruct (Ascii.eqb d c) eqn:E.
  - intros H. injection H as <-. reflexivity.
  - destruct (JsString.indexOf c s) as [m|]; [|discriminate].
    intros H. injection H as <-. simpl. rewrite E. now rewrite (IH m eq_refl).
Qed.

Lemma trimStart_clean (s : string) :
  starts_clean s = true -> JsString.trimStart s = s.
Proof. destruct s as [|c s]; simpl; [reflexivity|]. now destruct (JsString.is_space c). Qed.

Lemma trim_trimmed (s : string) : trimmed s = true -> JsString.trim s = s.
Proof.
  unfold trimmed, JsString.trim. intros H. apply andb_true_iff in H as [H1 H2].
  rewrite (trimStart_clean s H1), (trimStart_clean _ H2). apply rev_rev.
Qed.

Lemma starts_clean_append (a b : string) :
  starts_clean a = true -> starts_clean b = true -> starts_clean (a +:+ b) = true.
Proof. destruct a; simpl; auto. Qed.

Lemma trimmed_append (a b : string) :
  trimmed a = true -> trimmed b = true -> trimmed (a +:+ b) = true.
Proof.
  unfold trimmed. intros Ha Hb.
  apply andb_true_iff in Ha as [Ha1 Ha2]. apply andb_true_iff in Hb as [Hb1 Hb2].
  apply andb_true_iff. split; [now apply starts_clean_append|].
  rewrite rev_append. now apply starts_clean_append.
Qed.

(** ** Splitting a header *)

Lemma split_go_lacks (sep : ascii) (cur s : string) :
  lacks sep s -> JsString.split_go sep cur s = [String.rev cur +:+ s].
Proof.
  unfold lacks. revert cur. induction s as [|c s IH]; intros cur; simpl.
  - intros _. f_equal. apply list_ascii_inj. rewrite list_of_append. simpl.
    now rewrite app_nil_r.
  - destruct (Ascii.eqb c sep); [discriminate|].
    destruct (JsString.indexOf sep s) eqn:E; [discriminate|]. intros _.
    rewrite (IH _ eq_refl). f_equal. apply list_ascii_inj.
    rewrite !list_of_append, !list_of_rev. simpl. now rewrite <- app_assoc.
Qed.

Lemma split_lacks (sep : ascii) (s : string) :
  lacks sep s -> JsString.split sep s = [s].
Proof. intros H. unfold JsString.split. now rewrite (split_go_lacks sep "" s H). Qed.

Lemma split_go_append (sep : ascii) (cur a b : string) :
  JsString.split_go sep cur (a +:+ String sep b)
  = (JsString.split_go sep cur a ++ JsString.split sep b)%list.
Proof.
  revert cur. induction a as [|c a IH]; intros cur; simpl.
  - now rewrite Ascii.eqb_refl.
  - destruct (Ascii.eqb c sep); [simpl; f_equal|]; apply IH.
Qed.

Lemma split_go_all_lack (sep : ascii) (cur s : string) :
  lacks sep cur ->
  Forall (lacks sep) (JsString.split_go sep cur s).
Proof.
  revert cur. induction s as [|c s IH]; intros cur Hcur; simpl.
  - constructor; [now apply lacks_rev | constructor].
  - destruct (Ascii.eqb c sep) eqn:E.
    + constructor; [now apply lacks_rev | now apply IH].
    + apply IH. unfold lacks. simpl. rewrite E. now rewrite Hcur.
Qed.

(** ** Parsing cookies *)

Lemma reduce_app {A B} (f : A -> B -> outcome A) (l1 l2 : list B) (acc : A) :
  reduce f (l1 ++ l2) acc = obind (reduce f l1 acc) (reduce f l2).
Proof.
  revert acc. induction l1 as [|x l1 IH]; intros acc; simpl; [reflexivity|].
  destruct (f acc x); simpl; [apply IH | reflexivity].
Qed.

(** A well formed pair [name=value] whose value decodes is stored under its
    name. *)
Lemma parseCookies_pair_stores
    (B : builtins) (acc : gmap string string) (name encoded value : string) :
  lacks "=" name -> trimmed name = true -> trimmed encoded = true ->
  decodeURIComponent B encoded = Return value ->
  parseCookies_pair B acc (name +:+ "=" +:+ encoded) = Return (obj_set acc name value).
Proof.
  intros Hname Htn Hte Hdec. unfold parseCookies_pair.
  assert (Hidx : JsString.indexOf "=" (name +:+ "=" +:+ encoded)
                 = Some (String.length name)).
  { clear -Hname. unfold lacks in Hname. induction name as [|c n IH]; simpl; [reflexivity|].
    simpl in Hname. destruct (Ascii.eqb c "="); [discriminate|].
    destruct (JsString.indexOf "=" n); [discriminate|]. now rewrite (IH eq_refl). }
  rewrite Hidx.
  assert (Hto : JsString.slice_to (String.length name) (name +:+ "=" +:+ encoded) = name).
  { clear. induction name as [|c n IH]; simpl; [reflexivity | now rewrite IH]. }
  assert (Hfrom : JsString.slice_from (S (String.length name)) (name +:+ "=" +:+ encoded)
                  = encoded).
  { clear. induction name as [|c n IH]; simpl; [now destruct encoded | exact IH]. }
  cbv zeta. rewrite Hto, Hfrom, (trim_trimmed _ Htn), (trim_trimmed _ Hte), Hdec.
  reflexivity.
Qed.

Lemma starts_clean_trimStart (s : string) : starts_clean (JsString.trimStart s) = true.
Proof.
  induction s as [|c s IH]; simpl; [reflexivity|].
  destruct (JsString.is_space c) eqn:E; [exact IH | simpl; now rewrite E].
Qed.

Lemma rev_cons (c : ascii) (s : string) :
  String.rev (String c s) = String.rev s +:+ String c "".
Proof. exact (rev_append (String c "") s). Qed.

Lemma starts_clean_rev_trimStart (s : string) :
  starts_clean (String.rev s) = true ->
  starts_clean (String.rev (JsString.trimStart s)) = true.
Proof.
  induction s as [|c s IH]; simpl; [auto|].
  destruct (JsString.is_space c); [|auto].
  rewrite rev_cons. intros H. apply IH.
  destruct (String.rev s) eqn:E; [reflexivity | exact H].
Qed.

Lemma trimmed_trim (s : string) : trimmed (JsString.trim s) = true.
Proof.
  unfold trimmed, JsString.trim. apply andb_true_iff. split.
  - apply starts_clean_rev_trimStart. rewrite rev_rev. apply starts_clean_trimStart.
  - rewrite rev_rev. apply starts_clean_trimStart.
Qed.

Lemma trimmed_pair (name encoded : string) :
  trimmed name = true -> trimmed encoded = true ->
  trimmed (name +:+ "=" +:+ encoded) = true.
Proof.
  intros Hn He. apply trimmed_append; [exact Hn|].
  unfold trimmed in *. apply andb_true_iff in He as [_ He].
  apply andb_true_iff. split; [reflexivity|].
  change ("=" +:+ encoded) with (String "=" encoded). rewrite rev_cons.
  now apply starts_clean_append.
Qed.

Lemma pair_truthy (name encoded : string) :
  JsString.truthy (name +:+ "=" +:+ encoded) = true.
Proof. now apply append_truthy. Qed.

(** One well formed pair is parsed into the map holding it. *)
Lemma parseCookies_reads_back_one
    (B : builtins) (name encoded value : string) :
  lacks "=" name -> lacks ";" name -> trimmed name = true -> name <> "__proto__" ->
  lacks ";" encoded -> trimmed encoded = true ->
  decodeURIComponent B encoded = Return value ->
  parseCookies B (Some (name +:+ "=" +:+ encoded)) = Return {[ name := value ]}.
Proof.
  intros Hn1 Hn2 Hn3 Hn4 He1 He2 Hdec.
  set (pair := name +:+ "=" +:+ encoded).
  assert (Hsemi : lacks ";" pair).
  { apply lacks_append. split; [exact Hn2|]. apply lacks_append. now split. }
  unfold parseCookies. cbn [truthy_opt]. unfold pair at 1. rewrite pair_truthy.
  cbn [negb from_option id]. rewrite (split_lacks ";" pair Hsemi). cbn [map].
  rewrite (trim_trimmed pair (trimmed_pair _ _ Hn3 He2)). cbn [List.filter].
  unfold pair at 1. rewrite pair_truthy. cbn [reduce].
  unfold pair. rewrite (parseCookies_pair_stores B ∅ name _ value Hn1 Hn3 He2 Hdec).
  cbn [obind]. unfold obj_set.
  destruct (String.eqb_spec name "__proto__") as [->|_]; [contradiction | reflexivity].
Qed.

(** X1: a cookie comes back from the wire.  The text [serializeCookie]
    produces without options, sent back as the Cookie header, is parsed into
    the map holding just that cookie, provided the name has no [=], no [;]
    and no white space at its ends, is not [__proto__], and the encoded value
    has no [;], no white space at its ends and decodes to the value. *)
Theorem parseCookies_reads_back_serializeCookie
    (B : builtins) (name value : string) :
  lacks "=" name -> lacks ";" name -> trimmed name = true -> name <> "__proto__" ->
  lacks ";" (encodeURIComponent B value) ->
  trimmed (encodeURIComponent B value) = true ->
  decodeURIComponent B (encodeURIComponent B value) = Return value ->
  parseCookies B (Some (serializeCookie B name value no_opts))
  = Return {[ name := value ]}.
Proof.
  intros Hn1 Hn2 Hn3 Hn4 He1 He2 Hdec.
  change (serializeCookie B name value no_opts)
    with (name +:+ "=" +:+ encodeURIComponent B value).
  set (pair := name +:+ "=" +:+ encodeURIComponent B value).
  assert (Hsemi : lacks ";" pair).
  { apply lacks_append. split; [exact Hn2|]. apply lacks_append. now split. }
  unfold parseCookies. cbn [truthy_opt]. unfold pair at 1. rewrite pair_truthy.
  cbn [negb from_option id]. rewrite (split_lacks ";" pair Hsemi). cbn [map].
  rewrite (trim_trimmed pair (trimmed_pair _ _ Hn3 He2)). cbn [List.filter].
  unfold pair at 1. rewrite pair_truthy. cbn [reduce].
  unfold pair. rewrite (parseCookies_pair_stores B ∅ name _ value Hn1 Hn3 He2 Hdec).
  cbn [obind]. unfold obj_set.
  destruct (String.eqb_spec name "__proto__") as [->|_]; [contradiction | reflexivity].
Qed.

Lemma parseCookies_reads_back_serializeCookie_witness :
  parseCookies Fixture.runtime
    (Some (serializeCookie Fixture.runtime "userId" "42" no_opts))
  = Return {[ "userId" := "42" ]}.
Proof.
  apply (parseCookies_reads_back_serializeCookie Fixture.runtime "userId" "42");
    (reflexivity || discriminate).
Defined.

(** X2: the last cookie of a name wins.  Whatever the header holds, a well
    formed pair [name=value] appended after ["; "] is what the parsed map
    gives for [name]. *)
Theorem parseCookies_last_pair_wins
    (B : builtins) (header name encoded value : string) :
  lacks "=" name -> lacks ";" name -> trimmed name = true -> name <> "__proto__" ->
  lacks ";" encoded -> trimmed encoded = true ->
  decodeURIComponent B encoded = Return value ->
  exists m,
    parseCookies B (Some (header +:+ "; " +:+ name +:+ "=" +:+ encoded)) = Return m
    /\ m !! name = Some value.
Proof.
  intros Hn1 Hn2 Hn3 Hn4 He1 He2 Hdec.
  set (pair := name +:+ "=" +:+ encoded).
  assert (Hsemi : lacks ";" (String " " pair)).
  { change (String " " pair) with (" " +:+ pair). apply lacks_append. split; [reflexivity|].
    apply lacks_append. split; [exact Hn2|]. apply lacks_append. now split. }
  unfold parseCookies. cbn [truthy_opt from_option id].
  rewrite (append_truthy header ("; " +:+ pair) eq_refl). cbn [negb].
  change (header +:+ "; " +:+ pair) with (header +:+ String ";" (String " " pair)).
  unfold JsString.split. rewrite split_go_append, (split_lacks ";" _ Hsemi).
  rewrite List.map_app, List.filter_app, reduce_app. cbn [map].
  change (JsString.trim (String " " pair)) with (JsString.trim pair).
  rewrite (trim_trimmed pair (trimmed_pair _ _ Hn3 He2)). cbn [List.filter].
  unfold pair at 1. rewrite pair_truthy.
  destruct (reduce_parseCookies_total B
              (List.filter JsString.truthy
                 (map JsString.trim (JsString.split_go ";" "" header))) ∅) as (m1 & ->).
  cbn [obind reduce]. unfold pair.
  rewrite (parseCookies_pair_stores B m1 name encoded value Hn1 Hn3 He2 Hdec).
  eexists. split; [reflexivity|]. unfold obj_set.
  destruct (String.eqb_spec name "__proto__") as [->|_]; [contradiction|].
  apply lookup_insert_eq.
Qed.

Lemma parseCookies_last_pair_wins_witness :
  exists m,
    parseCookies Fixture.runtime (Some "userId=1; flash=x; userId=2") = Return m
    /\ m !! "userId" = Some "2".
Proof.
  apply (parseCookies_last_pair_wins Fixture.runtime "userId=1; flash=x" "userId" "2" "2");
    (reflexivity || discriminate).
Defined.

(** The keys [parseCookies] stores. *)
Lemma parseCookies_pair_keys
    (B : builtins) (P : string -> Prop) (acc m : gmap string string) (pair : string) :
  (forall k, k <> "__proto__" -> lacks "=" k -> lacks ";" k -> trimmed k = true -> P k) ->
  lacks ";" pair ->
  map_Forall (fun k _ => P k) acc ->
  parseCookies_pair B acc pair = Return m ->
  map_Forall (fun k _ => P k) m.
Proof.
  intros HP Hsemi Hacc. unfold parseCookies_pair.
  destruct (JsString.indexOf "=" pair) as [idx|] eqn:Eidx.
  2:{ intros H. now injection H as <-. }
  cbv zeta. set (key := JsString.trim (JsString.slice_to idx pair)).
  assert (Hset : forall v, map_Forall (fun k _ => P k) (obj_set acc key v)).
  { intros v. unfold obj_set. destruct (String.eqb_spec key "__proto__") as [E|E]; [exact Hacc|].
    apply map_Forall_insert_2; [|exact Hacc].
    apply HP; [exact E | | | apply trimmed_trim].
    - apply lacks_trim. now apply lacks_before_indexOf.
    - now apply lacks_trim, lacks_slice_to. }
  destruct (decodeURIComponent B _); simpl; intros H; injection H as <-; apply Hset.
Qed.

(** X3: what a cookie name can be.  Every key of the map [parseCookies]
    returns differs from [__proto__], contains neither [=] nor [;], and has
    no white space at its ends. *)
Theorem parseCookies_keys_are_clean
    (B : builtins) (header : option string) (m : gmap string string) :
  parseCookies B header = Return m ->
  forall k v, m !! k = Some v ->
    k <> "__proto__" /\ lacks "=" k /\ lacks ";" k /\ trimmed k = true.
Proof.
  intros Hparse.
  set (P := fun k : string => k <> "__proto__" /\ lacks "=" k /\ lacks ";" k
                              /\ trimmed k = true).
  assert (Hall : map_Forall (fun k _ => P k) m).
  { unfold parseCookies in Hparse.
    destruct (negb (truthy_opt header)).
    { injection Hparse as <-. apply map_Forall_empty. }
    assert (Hpairs : Forall (lacks ";")
                       (List.filter JsString.truthy
                          (map JsString.trim (JsString.split ";" (default "" header))))).
    { apply List.Forall_forall. intros x Hx. apply filter_In in Hx as [Hx _].
      apply in_map_iff in Hx as (y & <- & Hy). apply lacks_trim.
      pose proof (split_go_all_lack ";" "" (default "" header) eq_refl) as Hf.
      rewrite List.Forall_forall in Hf. now apply Hf. }
    assert (Hgen : forall l acc,
               map_Forall (fun k _ => P k) acc -> Forall (lacks ";") l ->
               reduce (parseCookies_pair B) l acc = Return m ->
               map_Forall (fun k _ => P k) m).
    { induction l as [|pair l IH]; intros acc Hacc Hl; simpl.
      - intros H. now injection H as <-.
      - inversion Hl as [|? ? Hp Hl']; subst.
        destruct (parseCookies_pair B acc pair) as [acc'|e] eqn:E; simpl; [|discriminate].
        apply IH; [|exact Hl'].
        apply (parseCookies_pair_keys B P acc acc' pair); auto.
        intros k ? ? ? ?. now repeat split. }
    exact (Hgen _ ∅ (map_Forall_empty _) Hpairs Hparse). }
  intros k v Hk. exact (Hall k v Hk).
Qed.

Lemma parseCookies_keys_are_clean_witness :
  "a" <> "__proto__" /\ lacks "=" "a" /\ lacks ";" "a" /\ trimmed "a" = true.
Proof.
  apply (parseCookies_keys_are_clean Fixture.runtime
           (Some "__proto__=y;; =x; a = b%20c ; c")
           (<[ "a" := "b c" ]> (<[ "" := "x" ]> ∅)) eq_refl "a" "b c" eq_refl).
Defined.

(** ** Serialising and setting cookies *)

Lemma concat_snoc (sep x y : string) (l : list string) :
  String.concat sep ((x :: l) ++ [y]) = String.concat sep (x :: l) +:+ sep +:+ y.
Proof.
  revert x. induction l as [|z l IH]; intros x; simpl; [reflexivity|].
  simpl in IH. rewrite IH.
  apply list_ascii_inj. rewrite !list_of_append. now rewrite <- !app_assoc.
Qed.

Lemma append_assoc (a b c : string) : (a +:+ b) +:+ c = a +:+ b +:+ c.
Proof. apply list_ascii_inj. rewrite !list_of_append. now rewrite <- app_assoc. Qed.

Lemma append_nil_r (a : string) : a +:+ "" = a.
Proof. apply list_ascii_inj. rewrite list_of_append. apply app_nil_r. Qed.

(** The text of a list of attributes that starts with [first]. *)
Lemma concat_starts (first : string) (more : list string) :
  exists rest,
    String.concat "; " (first :: more) = first +:+ rest
    /\ (rest = "" \/ exists a, rest = "; " +:+ a).
Proof.
  destruct more as [|y more].
  - exists "". split; [symmetry; apply append_nil_r | now left].
  - eexists. split; [reflexivity | right; eexists; reflexivity].
Qed.

(** Whatever the options, the text [serializeCookie] returns begins with
    [name=encodeURIComponent(value)]; what follows is empty or begins with
    ["; "]. *)
Lemma serializeCookie_starts_with_pair
    (B : builtins) (name value : string) (opts : cookie_opts) :
  exists rest,
    serializeCookie B name value opts
    = (name +:+ "=" +:+ encodeURIComponent B value) +:+ rest
    /\ (rest = "" \/ exists attributes, rest = "; " +:+ attributes).
Proof.
  unfold serializeCookie. cbv zeta.
  set (first := name +:+ "=" +:+ encodeURIComponent B value).
  destruct (truthy_opt (path opts)), (expires opts), (httpOnly opts),
    (maxAge opts) as [n|]; try destruct (n =? 0);
    destruct (secure opts), (truthy_opt (sameSite opts));
    cbn [app String.concat];
    first [ (exists ""; split; [symmetry; apply append_nil_r | now left])
          | (eexists; split; [reflexivity | right; eexists; reflexivity]) ].
Qed.

Lemma serializeCookie_truthy (B : builtins) (name value : string) (opts : cookie_opts) :
  JsString.truthy (serializeCookie B name value opts) = true.
Proof.
  destruct (serializeCookie_starts_with_pair B name value opts) as (rest & -> & _).
  rewrite !append_assoc. apply append_truthy. reflexivity.
Qed.

(** X4: setting a cookie never loses one.  Whatever headers the reply
    holds, [setCookie] completes, appends exactly the serialised cookie after
    them and changes nothing else in the reply, the database or the log. *)
Theorem setCookie_appends_one_header
    (B : builtins) (name value : string) (opts : cookie_opts) (st : state) :
  exists st',
    setCookie B name value opts st = (Return tt, st')
    /\ cookie_headers (reply st')
       = (cookie_headers (reply st) ++ [serializeCookie B name value opts])%list
    /\ (exists v, set_cookie (reply st') = Some v)
    /\ statusCode (reply st') = statusCode (reply st)
    /\ contentType (reply st') = contentType (reply st)
    /\ location (reply st') = location (reply st)
    /\ payload (reply st') = payload (reply st)
    /\ db st' = db st /\ log st' = log st.
Proof.
  destruct (setCookie_run B name value opts st)
    as (st' & Hrun & Hdb & Hlog & Hsc & Hct & Hloc & Hpl & Hck).
  exists st'. split; [exact Hrun|].
  split; [apply Hck, serializeCookie_truthy|].
  split; [|now repeat split].
  unfold setCookie, bind, get_reply in Hrun.
  destruct (set_cookie (reply st)) as [[prev|prev]|];
    try destruct (JsString.truthy prev);
    injection Hrun as <-; eexists; reflexivity.
Qed.

(** ** The schema *)

Lemma schema_names_distinct : NoDup (map tbl_name schema).
Proof.
  simpl.
  repeat (apply NoDup_cons_2;
          [rewrite list_elem_of_In; simpl; intuition discriminate|]).
  apply NoDup_nil_2.
Qed.

Section SchemaFacts.
Context {D : Type} (K : schema_builder D) (def : string -> D -> option table_def).
Hypothesis laws : engine_laws K def.

Lemma hasTable_run (n : string) (d : D) :
  (exists e, hasTable K n d = (Throw e, d))
  \/ hasTable K n d = (Return (match def n d with Some _ => true | None => false end), d).
Proof.
  pose proof (hasTable_reads K def laws n d) as Hs.
  pose proof (hasTable_answers K def laws n d) as Ha.
  destruct (hasTable K n d) as [[b|e] d']; simpl in Hs; subst d'.
  - right. now rewrite (Ha b eq_refl).
  - left. now exists e.
Qed.

(** One block on a table that exists: nothing is created. *)
Lemma ensure_table_present (t t0 : table_def) (d : D) :
  def (tbl_name t) d = Some t0 ->
  snd (ensure_table K t d) = d
  /\ (fst (ensure_table K t d) = Return tt
      \/ exists e, hasTable K (tbl_name t) d = (Throw e, d)
                   /\ fst (ensure_table K t d) = Throw e).
Proof.
  intros Hdef. unfold ensure_table, bind.
  destruct (hasTable_run (tbl_name t) d) as [[e He]|Hr].
  - rewrite He. split; [reflexivity|]. right. now exists e.
  - rewrite Hr, Hdef. split; [reflexivity | now left].
Qed.

(** A run over tables that all exist changes nothing. *)
Lemma ensure_tables_present (tables : list table_def) (d : D) :
  (forall t, In t tables -> def (tbl_name t) d <> None) ->
  snd (ensure_tables K tables d) = d.
Proof.
  induction tables as [|t rest IH]; intros Hall; [reflexivity|].
  destruct (def (tbl_name t) d) as [t0|] eqn:Hdef.
  2:{ now destruct (Hall t (or_introl eq_refl)). }
  destruct (ensure_table_present t t0 d Hdef) as [Hs Hf].
  cbn [ensure_tables]. unfold bind.
  destruct (ensure_table K t d) as [[[]|e] d'] eqn:Et; simpl in Hs; subst d'.
  - apply IH. intros t' Hin. apply Hall. now right.
  - reflexivity.
Qed.

(** What a run over tables of distinct names leaves behind. *)
Lemma ensure_tables_run (tables : list table_def) (d : D) :
  NoDup (map tbl_name tables) ->
  let r := ensure_tables K tables d in
  (forall n, ~ In n (map tbl_name tables) -> def n (snd r) = def n d)
  /\ (forall n t, def n d = Some t -> def n (snd r) = Some t)
  /\ (fst r = Return tt ->
      forall t, In t tables ->
                def (tbl_name t) (snd r) = Some (default t (def (tbl_name t) d)))
  /\ (forall e, fst r = Throw e ->
      exists before t after d1,
        tables = (before ++ t :: after)%list
        /\ ensure_tables K before d = (Return tt, d1)
        /\ (hasTable K (tbl_name t) d1 = (Throw e, snd r)
            \/ def (tbl_name t) d1 = None /\ createTable K t d1 = (Throw e, snd r))
        /\ (forall t', In t' before ->
                       def (tbl_name t') (snd r) = Some (default t' (def (tbl_name t') d)))
        /\ (forall t', In t' after -> def (tbl_name t') (snd r) = def (tbl_name t') d)).
Proof.
  revert d. induction tables as [|t rest IH]; intros d Hnd; cbv zeta.
  - cbn. split; [reflexivity|]. split; [tauto|]. split; [tauto|]. discriminate.
  - apply NoDup_cons in Hnd as [Hfresh Hnd]. rewrite list_elem_of_In in Hfresh.
    assert (Hother : forall t', In t' rest -> tbl_name t' <> tbl_name t).
    { intros t' Hin Heq. apply Hfresh. rewrite <- Heq. now apply in_map. }
    cbn [ensure_tables]. unfold bind at 1 2 3 4 5. unfold ensure_table, bind.
    destruct (hasTable_run (tbl_name t) d) as [[e He]|Hr].
    + (* hasTable rejects *)
      rewrite He. cbn [fst snd].
      split; [reflexivity|]. split; [tauto|]. split; [discriminate|].
      intros e' H. injection H as <-. exists [], t, rest, d.
      split; [reflexivity|]. split; [reflexivity|]. split; [now left|].
      split; [intros t' []|reflexivity].
    + rewrite Hr. destruct (def (tbl_name t) d) as [t0|] eqn:Hdef; cbn [negb].
      * (* the table exists *)
        change (ret tt d) with (Return tt, d).
        destruct (IH d Hnd) as (HA & HB & HC & HD).
        set (r := ensure_tables K rest d) in *.
        split; [|split; [exact HB|split]].
        -- intros n Hn. apply HA. intros Hin. apply Hn. now right.
        -- intros Hret t' [<-|Hin].
           ++ rewrite (HA _ Hfresh), Hdef. reflexivity.
           ++ now apply HC.
        -- intros e He. destruct (HD e He) as (before & t1 & after & d1 & Hsplit & Hb & Hat & Hbef & Haft).
           exists (t :: before), t1, after, d1.
           split; [now rewrite Hsplit|]. split.
           { cbn [ensure_tables]. unfold bind, ensure_table, bind.
             rewrite Hr. exact Hb. }
           split; [exact Hat|]. split; [|exact Haft].
           intros t' [<-|Hin]; [|now apply Hbef].
           rewrite (HA _ Hfresh), Hdef. reflexivity.
      * (* the table is missing *)
        pose proof (createTable_frame K def laws t d) as Hframe.
        pose proof (createTable_creates K def laws t d) as Hcreates.
        destruct (createTable K t d) as [[[]|e] d2] eqn:Ec; cbn [snd] in Hframe.
        -- specialize (Hcreates d2 eq_refl).
           destruct (IH d2 Hnd) as (HA & HB & HC & HD).
           set (r := ensure_tables K rest d2) in *.
           split; [|split; [|split]].
           ++ intros n Hn. rewrite HA.
              ** apply Hframe. intros ->. apply Hn. now left.
              ** intros Hin. apply Hn. now right.
           ++ intros n t0 Hn. apply HB. rewrite Hframe; [exact Hn|].
              intros ->. congruence.
           ++ intros Hret t' [<-|Hin].
              ** rewrite (HA _ Hfresh), Hcreates, Hdef. reflexivity.
              ** rewrite (HC Hret t' Hin). now rewrite (Hframe _ (Hother t' Hin)).
           ++ intros e He.
              destruct (HD e He) as (before & t1 & after & d1 & Hsplit & Hb & Hat & Hbef & Haft).
              exists (t :: before), t1, after, d1.
              split; [now rewrite Hsplit|]. split.
              { cbn [ensure_tables]. unfold bind, ensure_table, bind.
                rewrite Hr. cbn [negb]. rewrite Ec. exact Hb. }
              split; [exact Hat|]. split.
              ** intros t' [<-|Hin].
                 --- rewrite (HA _ Hfresh), Hcreates, Hdef. reflexivity.
                 --- rewrite (Hbef t' Hin). rewrite Hframe; [reflexivity|].
                     apply Hother. rewrite Hsplit. apply in_or_app. now left.
              ** intros t' Hin. rewrite (Haft t' Hin). apply Hframe, Hother.
                 rewrite Hsplit. apply in_or_app. right. now right.
        -- cbn [fst snd].
           split; [|split; [|split]].
           ++ intros n Hn. apply Hframe. intros ->. apply Hn. now left.
           ++ intros n t0 Hn. rewrite Hframe; [exact Hn|]. intros ->. congruence.
           ++ discriminate.
           ++ intros e' H. injection H as <-. exists [], t, rest, d.
              split; [reflexivity|]. split; [reflexivity|].
              split; [right; now split|].
              split; [intros t' []|].
              intros t' Hin. apply Hframe, Hother, Hin.
Qed.

End SchemaFacts.

(** The sample engine keeps the laws. *)
Lemma table_named_app (n : string) (c1 c2 : SqliteSample.catalog) :
  SqliteSample.table_named n (c1 ++ c2)%list
  = match SqliteSample.table_named n c1 with
    | Some t => Some t
    | None => SqliteSample.table_named n c2
    end.
Proof.
  induction c1 as [|[t|v] c1 IH]; simpl; [reflexivity| |exact IH].
  destruct (String.eqb (tbl_name t) n); [reflexivity | exact IH].
Qed.

Lemma table_named_free (n : string) (c : SqliteSample.catalog) :
  SqliteSample.name_taken n c = false -> SqliteSample.table_named n c = None.
Proof.
  unfold SqliteSample.name_taken.
  induction c as [|[t|v] c IH]; simpl; [reflexivity| |].
  - destruct (String.eqb (tbl_name t) n); [discriminate | exact IH].
  - intros H. apply orb_false_iff in H as [_ H]. now apply IH.
Qed.

Lemma SqliteSample_laws : engine_laws SqliteSample.builder SqliteSample.table_named.
Proof.
  split.
  - reflexivity.
  - intros n d b H. simpl in H. now injection H as <-.
  - intros t d d'. simpl.
    destruct (SqliteSample.name_taken (tbl_name t) d) eqn:E; [discriminate|].
    intros H. injection H as <-.
    rewrite table_named_app, (table_named_free _ _ E). simpl.
    now rewrite String.eqb_refl.
  - intros t d n Hn. simpl.
    destruct (SqliteSample.name_taken (tbl_name t) d); [reflexivity|]. simpl.
    rewrite table_named_app.
    destruct (SqliteSample.table_named n d); [reflexivity|]. simpl.
    destruct (String.eqb (tbl_name t) n) eqn:E; [|reflexivity].
    apply String.eqb_eq in E. congruence.
Qed.

(** X5: [ensureSchema] creates what is missing and alters nothing else.
    On an engine that keeps the laws above: a table that exists keeps its
    definition, also when it differs from the one in [ensureSchema], and
    so does every table outside the schema; when the run returns, the five
    tables exist, those that were missing as [ensureSchema] defines them;
    when it throws, the exception is that of [hasTable] or of [createTable]
    for one table found missing, the tables before it in the order of the
    source exist and the tables after it are as they were; and a run on a
    database that has the five tables changes nothing. *)
Theorem ensureSchema_creates_missing_tables
    {D : Type} (K : schema_builder D) (def : string -> D -> option table_def) (d : D) :
  engine_laws K def ->
  let r := ensureSchema K d in
  (forall n t, def n d = Some t -> def n (snd r) = Some t)
  /\ (forall n, ~ In n (map tbl_name schema) -> def n (snd r) = def n d)
  /\ (fst r = Return tt ->
      forall t, In t schema ->
                def (tbl_name t) (snd r) = Some (default t (def (tbl_name t) d)))
  /\ (forall e, fst r = Throw e ->
      exists before t after d1,
        schema = (before ++ t :: after)%list
        /\ ensure_tables K before d = (Return tt, d1)
        /\ (hasTable K (tbl_name t) d1 = (Throw e, snd r)
            \/ def (tbl_name t) d1 = None /\ createTable K t d1 = (Throw e, snd r))
        /\ (forall t', In t' before ->
                       def (tbl_name t') (snd r) = Some (default t' (def (tbl_name t') d)))
        /\ (forall t', In t' after -> def (tbl_name t') (snd r) = def (tbl_name t') d))
  /\ ((forall t, In t schema -> def (tbl_name t) d <> None) -> snd r = d)
  /\ (fst r = Return tt -> snd (ensureSchema K (snd r)) = snd r).
Proof.
  intros laws r.
  destruct (ensure_tables_run K def laws schema d schema_names_distinct)
    as (HA & HB & HC & HD).
  fold (ensureSchema K d) in HA, HB, HC, HD. fold r in HA, HB, HC, HD.
  split; [exact HB|]. split; [exact HA|]. split; [exact HC|]. split; [exact HD|].
  split.
  - intros Hall. apply (ensure_tables_present K def laws schema d Hall).
  - intros Hret. apply (ensure_tables_present K def laws schema (snd r)).
    intros t Hin. rewrite (HC Hret t Hin). discriminate.
Qed.

Lemma ensureSchema_creates_missing_tables_witness :
  let r := ensureSchema SqliteSample.builder [SqliteSample.Table SqliteSample.old_users] in
  fst r = Return tt
  /\ SqliteSample.table_named "users" (snd r) = Some SqliteSample.old_users
  /\ snd (ensureSchema SqliteSample.builder (snd r)) = snd r.
Proof.
  destruct (ensureSchema_creates_missing_tables
              SqliteSample.builder SqliteSample.table_named
              [SqliteSample.Table SqliteSample.old_users] SqliteSample_laws)
    as (Hkeep & _ & _ & _ & _ & Hagain).
  cbv zeta. split; [reflexivity|]. split.
  - apply Hkeep. reflexivity.
  - apply Hagain. reflexivity.
Defined.

(** A view called [tasks] stops the run at the third table: [users] stays
    as it was, [statuses] is created, [labels] and [tasks_labels] are not. *)
Example ensureSchema_stopped_by_a_view :
  let r := ensureSchema SqliteSample.builder SqliteSample.with_view in
  fst r = Throw (SqliteSample.already_exists "tasks")
  /\ map SqliteSample.object_name (snd r) = ["users"; "tasks"; "statuses"]
  /\ SqliteSample.table_named "users" (snd r) = Some SqliteSample.old_users
  /\ SqliteSample.table_named "labels" (snd r) = None.
Proof. cbv zeta. repeat split. Qed.

(** ** The status repository *)

(** X6: removing a status keeps the references sound.  If every task
    points to an existing status before [statusRepo.remove], so it does
    afterwards, whether or not the engine enforces foreign keys. *)
Theorem statusRepo_remove_keeps_references
    (B : builtins) (id : string) (d : database) :
  statuses_referenced d ->
  statuses_referenced (snd (statusRepo.remove B id d)).
Proof.
  intros Hok.
  destruct (existsb (fun t => sqlite_int_eq B (statusId t) id) (tasks d)) eqn:Href.
  - now rewrite (statusRepo_remove_referenced B id d Href).
  - rewrite (statusRepo_remove_unreferenced B id d Href). cbn [snd].
    intros t Ht. cbn [tasks set_statuses] in Ht.
    destruct (Hok t Ht) as (s & Hs & Heq).
    exists s. split; [|exact Heq]. cbn [statuses set_statuses].
    apply filter_In. split; [exact Hs|]. apply negb_true_iff.
    rewrite Heq. apply not_true_is_false. intros Hm.
    assert (existsb (fun t => sqlite_int_eq B (statusId t) id) (tasks d) = true).
    { apply existsb_exists. now exists t. }
    congruence.
Qed.

Lemma statusRepo_remove_keeps_references_witness :
  statuses_referenced (snd (statusRepo.remove Fixture.runtime "2" Fixture.data0)).
Proof.
  apply (statusRepo_remove_keeps_references Fixture.runtime "2" Fixture.data0).
  intros t [<-|[]]. exists Fixture.todo. split; [now left | reflexivity].
Defined.

Lemma find_none_filter_negb {A} (f : A -> bool) (l : list A) :
  List.find f (List.filter (fun x => negb (f x)) l) = None.
Proof.
  induction l as [|x l IH]; simpl; [reflexivity|].
  destruct (f x) eqn:E; simpl; [exact IH | now rewrite E].
Qed.

Lemma existsb_filter_negb {A} (f : A -> bool) (l : list A) :
  existsb f (List.filter (fun x => negb (f x)) l) = false.
Proof.
  induction l as [|x l IH]; simpl; [reflexivity|].
  destruct (f x) eqn:E; simpl; [exact IH | now rewrite E].
Qed.

(** X7: a removed status is gone.  When [statusRepo.remove(id)] returns
    [true], the rows that remain are exactly those that [id] does not
    select, the other tables are untouched, [findById(id)] finds nothing
    afterwards and a second [remove(id)] returns [false] without changing
    anything. *)
Theorem statusRepo_remove_then_gone
    (B : builtins) (id : string) (d d' : database) :
  statusRepo.remove B id d = (Return true, d') ->
  statuses d' = List.filter (fun s => negb (sqlite_int_eq B (status_id s) id)) (statuses d)
  /\ tasks d' = tasks d /\ users d' = users d /\ labels d' = labels d
  /\ tasks_labels d' = tasks_labels d
  /\ statusRepo.findById B id d' = (Return None, d')
  /\ statusRepo.remove B id d' = (Return false, d').
Proof.
  intros Hrm.
  destruct (existsb (fun t => sqlite_int_eq B (statusId t) id) (tasks d)) eqn:Href.
  { rewrite (statusRepo_remove_referenced B id d Href) in Hrm. discriminate Hrm. }
  rewrite (statusRepo_remove_unreferenced B id d Href) in Hrm.
  injection Hrm as _ <-. cbn [statuses tasks users labels tasks_labels set_statuses].
  repeat split.
  - unfold statusRepo.findById, knex_statuses_where_id_first.
    cbn [statuses set_statuses]. now rewrite find_none_filter_negb.
  - rewrite statusRepo_remove_unreferenced; [|exact Href].
    cbn [statuses set_statuses]. rewrite existsb_filter_negb. f_equal.
    rewrite (filter_negb_id _ _ (existsb_filter_negb _ _)).
    now destruct d.
Qed.

Lemma statusRepo_remove_then_gone_witness :
  statusRepo.findById Fixture.runtime "2" (set_statuses [Fixture.todo] Fixture.data0)
  = (Return None, set_statuses [Fixture.todo] Fixture.data0).
Proof.
  apply (statusRepo_remove_then_gone Fixture.runtime "2" Fixture.data0
           (set_statuses [Fixture.todo] Fixture.data0) eq_refl).
Defined.

Lemma find_app_fresh {A} (f : A -> bool) (l : list A) (x : A) :
  existsb f l = false -> f x = true -> List.find f (l ++ [x]) = Some x.
Proof.
  induction l as [|y l IH]; simpl; intros Hl Hx; [now rewrite Hx|].
  destruct (f y); [discriminate | now apply IH].
Qed.

(** X8: creating a status adds one row.  When the id SQLite allocates is not
    in use, [create(attrs)] returns the new row, which carries that id and
    the given name; the table holds the old rows and the new one, the other
    tables are untouched, references stay sound, and [findById] of the new
    id finds the row. *)
Theorem statusRepository_create_adds_row
    (B : builtins) (E : sqlite) (attrs : status_attrs) (d : database) :
  ~ In (statuses_rowid E d) (map status_id (statuses d)) ->
  let row := {| status_id := statuses_rowid E d; status_name := attrs_name attrs |} in
  exists d',
    statusRepository.create B E attrs d = (Return (Some row), d')
    /\ (forall s, In s (statuses d') <-> In s (statuses d) \/ s = row)
    /\ length (statuses d') = S (length (statuses d))
    /\ tasks d' = tasks d /\ users d' = users d /\ labels d' = labels d
    /\ tasks_labels d' = tasks_labels d
    /\ (statuses_referenced d -> statuses_referenced d')
    /\ statusRepository.findById B (PInt (statuses_rowid E d)) d' = (Return (Some row), d').
Proof.
  intros Hfresh row.
  assert (Hno : existsb (fun s => status_id s =? statuses_rowid E d) (statuses d) = false).
  { apply not_true_is_false. intros Hex. apply existsb_exists in Hex as (s & Hs & Heq).
    apply Z.eqb_eq in Heq. apply Hfresh. rewrite <- Heq. now apply in_map. }
  assert (Hfind : List.find (fun s => sql_int_eq B (status_id s) (PInt (statuses_rowid E d)))
                            (statuses d ++ [row]) = Some row).
  { apply find_app_fresh; [exact Hno | apply Z.eqb_refl]. }
  exists (set_statuses (statuses d ++ [row]) d).
  split.
  { unfold statusRepository.create, bind, knex_statuses_insert. rewrite Hno.
    unfold statusRepository.findById, knex_statuses_first.
    cbn [statuses set_statuses]. fold row. now rewrite Hfind. }
  cbn [statuses tasks users labels tasks_labels set_statuses].
  split.
  { intros s. rewrite in_app_iff. simpl. intuition. }
  split; [rewrite length_app; simpl; lia|].
  repeat split.
  - intros Hok t Ht. destruct (Hok t Ht) as (s & Hs & Heq).
    exists s. split; [|exact Heq]. cbn [statuses set_statuses].
    apply in_or_app. now left.
  - unfold statusRepository.findById, knex_statuses_first.
    cbn [statuses set_statuses]. now rewrite Hfind.
Qed.

Lemma statusRepository_create_adds_row_witness :
  exists d',
    statusRepository.create Fixture.runtime sample_engine {| attrs_name := "review" |}
      Fixture.data0
    = (Return (Some {| status_id := 3; status_name := "review" |}), d').
Proof.
  destruct (statusRepository_create_adds_row Fixture.runtime sample_engine
              {| attrs_name := "review" |} Fixture.data0) as (d' & Hrun & _).
  - simpl. intros [H|[H|[]]]; discriminate H.
  - exists d'. exact Hrun.
Defined.

Lemma find_map_rename (f : status -> bool) (g : status -> status) (l : list status) :
  (forall s, f (g s) = f s) ->
  List.find f (map (fun s => if f s then g s else s) l) = option_map g (List.find f l).
Proof.
  intros Hg. induction l as [|x l IH]; simpl; [reflexivity|].
  destruct (f x) eqn:E.
  - now rewrite Hg, E.
  - now rewrite E.
Qed.

Lemma map_rename_id (f : status -> bool) (g : status -> status) (l : list status) :
  existsb f l = false -> map (fun s => if f s then g s else s) l = l.
Proof.
  induction l as [|x l IH]; simpl; [reflexivity|].
  destruct (f x); [discriminate|]. intros H. now rewrite IH.
Qed.

(** X9: renaming a status.  [update(id, { name })] completes; it keeps the
    ids of the rows, their number and their order, gives the new name to the
    rows that [id] selects and leaves the others and the other tables as
    they are, so that references stay sound; it returns a row selected by
    [id], carrying the new name, or nothing when [id] selects no row, in
    which case the database is unchanged. *)
Theorem statusRepository_update_renames
    (B : builtins) (id : sql_param) (attrs : status_attrs) (d : database) :
  exists r d',
    statusRepository.update B id attrs d = (Return r, d')
    /\ map status_id (statuses d') = map status_id (statuses d)
    /\ (forall s, In s (statuses d) -> sql_int_eq B (status_id s) id = false ->
                  In s (statuses d'))
    /\ (forall s', In s' (statuses d') ->
          (In s' (statuses d) /\ sql_int_eq B (status_id s') id = false)
          \/ (status_name s' = attrs_name attrs /\ sql_int_eq B (status_id s') id = true))
    /\ (r = None <-> existsb (fun s => sql_int_eq B (status_id s) id) (statuses d) = false)
    /\ (r = None -> d' = d)
    /\ (forall s', r = Some s' ->
          In s' (statuses d') /\ status_name s' = attrs_name attrs
          /\ sql_int_eq B (status_id s') id = true)
    /\ tasks d' = tasks d /\ users d' = users d /\ labels d' = labels d
    /\ tasks_labels d' = tasks_labels d
    /\ (statuses_referenced d -> statuses_referenced d').
Proof.
  set (f := fun s => sql_int_eq B (status_id s) id).
  set (g := fun s => {| status_id := status_id s; status_name := attrs_name attrs |}).
  set (l' := map (fun s => if f s then g s else s) (statuses d)).
  assert (Hrun : statusRepository.update B id attrs d
                 = (Return (List.find f l'), set_statuses l' d)) by reflexivity.
  assert (Hids : map status_id l' = map status_id (statuses d)).
  { unfold l'. rewrite map_map. apply map_ext. intros s. now destruct (f s). }
  assert (Hfind : List.find f l' = option_map g (List.find f (statuses d))).
  { apply find_map_rename. reflexivity. }
  exists (List.find f l'), (set_statuses l' d). split; [exact Hrun|].
  cbn [statuses tasks users labels tasks_labels set_statuses].
  split; [exact Hids|]. split; [|split; [|split; [|split; [|split]]]].
  - intros s Hs Hf. change (f s = false) in Hf.
    unfold l'. apply in_map_iff. exists s. split; [|exact Hs]. now rewrite Hf.
  - intros s' Hs'. unfold l' in Hs'. apply in_map_iff in Hs' as (s & <- & Hs).
    destruct (f s) eqn:Ef; [right | left]; [now split | now split].
  - rewrite Hfind. split.
    + intros Hnone. destruct (List.find f (statuses d)) as [s|] eqn:E; [discriminate|].
      apply not_true_is_false. intros Hex. apply existsb_exists in Hex as (s & Hs & Hfs).
      now rewrite (find_none _ _ E s Hs) in Hfs.
    + intros Hex. destruct (List.find f (statuses d)) as [s|] eqn:E; [|reflexivity].
      apply find_some in E as [Hs Hfs].
      assert (existsb f (statuses d) = true) by (apply existsb_exists; now exists s).
      congruence.
  - rewrite Hfind. intros Hnone.
    destruct (List.find f (statuses d)) as [s|] eqn:E; [discriminate|].
    assert (Hex : existsb f (statuses d) = false).
    { apply not_true_is_false. intros Hex. apply existsb_exists in Hex as (s & Hs & Hfs).
      now rewrite (find_none _ _ E s Hs) in Hfs. }
    unfold l'. rewrite (map_rename_id f g _ Hex). apply set_statuses_id.
  - intros s' Hsome. rewrite Hfind in Hsome.
    destruct (List.find f (statuses d)) as [s|] eqn:E; [|discriminate].
    injection Hsome as <-. apply find_some in E as [Hs Hfs].
    split; [|split; [reflexivity | exact Hfs]].
    unfold l'. apply in_map_iff. exists s. split; [now rewrite Hfs | exact Hs].
  - repeat split.
    intros Hok t Ht. destruct (Hok t Ht) as (s & Hs & Heq).
    assert (Hin : In (statusId t) (map status_id l')).
    { rewrite Hids, <- Heq. now apply in_map. }
    apply in_map_iff in Hin as (s' & Heq' & Hs'). now exists s'.
Qed.

Example statusRepository_update_sample :
  fst (statusRepository.update Fixture.runtime (PText "2") {| attrs_name := "closed" |}
         Fixture.data0)
  = Return (Some {| status_id := 2; status_name := "closed" |})
  /\ fst (statusRepository.update Fixture.runtime (PText "7") {| attrs_name := "closed" |}
            Fixture.data0) = Return None.
Proof. split; reflexivity. Qed.

(** ** Running the routes *)

Lemma lift_eq {A} (m : M A) (s : state2) (o : outcome A) (st : state) :
  m (base s) = (o, st) -> lift m s = (o, {| base := st; calls := calls s |}).
Proof. intros H. unfold lift. now rewrite H. Qed.

Lemma lift_refuses (B : builtins) (type message url : string) (s : state2) :
  refused B type message url s
    (lift (do* setFlash B type message in reply_redirect url) s).
Proof.
  destruct (setFlash_redirect_run B type message url (base s))
    as (st' & Hrun & Hdb & Hlog & Hfl).
  rewrite (lift_eq _ s _ _ Hrun).
  split; [reflexivity|]. split; [exact Hdb|]. split; [exact Hlog|].
  split; [reflexivity | exact Hfl].
Qed.

Lemma lift_not_found (s : state2) :
  not_found s (lift (do* reply_status 404 in reply_send "Not found") s).
Proof. now repeat split. Qed.

(** X10: statuses are for signed-in users.  Without a current user the
    form pages, the creation, the update and the deletion of a status all
    answer 'Access denied' with a redirect to /session/new; the database is
    not touched, nothing is rendered and no collaborator is called. *)
Theorem anonymous_cannot_manage_statuses
    (B : builtins) (E : sqlite) (P : platform) (request : Request)
    (data : option status_form) (s : state2) :
  currentUser request = None ->
  refused B "danger" "Access denied" "/session/new" s (get_statuses_new B P request s)
  /\ refused B "danger" "Access denied" "/session/new" s (post_statuses B E request data s)
  /\ refused B "danger" "Access denied" "/session/new" s
             (get_statuses_id_edit B P request s)
  /\ refused B "danger" "Access denied" "/session/new" s
             (patch_statuses_id B request data s)
  /\ refused B "danger" "Access denied" "/session/new" s
             (lift (delete_statuses_id B request) s).
Proof.
  intros Hanon.
  unfold get_statuses_new, post_statuses, get_statuses_id_edit, patch_statuses_id,
    delete_statuses_id.
  rewrite Hanon. repeat split; apply lift_refuses.
Qed.

Lemma anonymous_cannot_manage_statuses_witness :
  refused Fixture.runtime "danger" "Access denied" "/session/new" Sample.s0
    (post_statuses Fixture.runtime sample_engine
       (Sample.anonymous "POST" "/statuses" "") (Some {| sf_name := Some "x" |}) Sample.s0).
Proof.
  apply (anonymous_cannot_manage_statuses Fixture.runtime sample_engine Sample.platform0
           (Sample.anonymous "POST" "/statuses" "") (Some {| sf_name := Some "x" |})
           Sample.s0 eq_refl).
Defined.

(** X11: tasks are created and edited by signed-in users only.  Without a
    current user the form pages, the creation and the update of a task
    answer 'Access denied' with a redirect to /session/new, and neither the
    task repository nor the templates are called. *)
Theorem anonymous_cannot_manage_tasks
    (B : builtins) (C : collaborators) (P : platform) (request : Request)
    (data : option task_form) (s : state2) :
  currentUser request = None ->
  refused B "danger" "Access denied" "/session/new" s (get_tasks_new B C P request s)
  /\ refused B "danger" "Access denied" "/session/new" s (post_tasks B P request data s)
  /\ refused B "danger" "Access denied" "/session/new" s
             (get_tasks_id_edit B C P request s)
  /\ refused B "danger" "Access denied" "/session/new" s
             (patch_tasks_id B P request data s).
Proof.
  intros Hanon.
  unfold get_tasks_new, post_tasks, get_tasks_id_edit, patch_tasks_id.
  rewrite Hanon. repeat split; apply lift_refuses.
Qed.

Lemma anonymous_cannot_manage_tasks_witness :
  refused Fixture.runtime "danger" "Access denied" "/session/new" Sample.s0
    (patch_tasks_id Fixture.runtime Sample.platform0
       (Sample.anonymous "PATCH" "/tasks/1" "1") None Sample.s0).
Proof.
  apply (anonymous_cannot_manage_tasks Fixture.runtime (Fixture.collab (Return None))
           Sample.platform0 (Sample.anonymous "PATCH" "/tasks/1" "1") None Sample.s0 eq_refl).
Defined.

Lemma statusRepository_create_fresh
    (B : builtins) (E : sqlite) (attrs : status_attrs) (d : database) :
  ~ In (statuses_rowid E d) (map status_id (statuses d)) ->
  statusRepository.create B E attrs d
  = (Return (Some {| status_id := statuses_rowid E d; status_name := attrs_name attrs |}),
     set_statuses
       (statuses d ++ [{| status_id := statuses_rowid E d;
                          status_name := attrs_name attrs |}]) d).
Proof.
  intros Hfresh.
  assert (Hno : existsb (fun s => status_id s =? statuses_rowid E d) (statuses d) = false).
  { apply not_true_is_false. intros Hex. apply existsb_exists in Hex as (s & Hs & Heq).
    apply Z.eqb_eq in Heq. apply Hfresh. rewrite <- Heq. now apply in_map. }
  set (row := {| status_id := statuses_rowid E d; status_name := attrs_name attrs |}).
  assert (Hfind : List.find (fun s => sql_int_eq B (status_id s) (PInt (statuses_rowid E d)))
                            (statuses d ++ [row]) = Some row).
  { apply find_app_fresh; [exact Hno | apply Z.eqb_refl]. }
  unfold statusRepository.create, bind, knex_statuses_insert. rewrite Hno.
  unfold statusRepository.findById, knex_statuses_first. cbn [statuses set_statuses].
  fold row. now rewrite Hfind.
Qed.

(** X12: [POST /statuses] by a signed-in user.  A name that is empty once
    trimmed is refused with a danger flash and a redirect to /statuses/new,
    and no row is written; otherwise, the allocated id being free, exactly
    one row is added, it carries the trimmed name, and the answer is the
    success flash with a redirect to /statuses. *)
Theorem post_statuses_creates_trimmed_name
    (B : builtins) (E : sqlite) (request : Request) (data : option status_form)
    (s : state2) (u : user) :
  currentUser request = Some u ->
  let name := trimmed_name (field data sf_name) in
  let d := db (base s) in
  let r := post_statuses B E request data s in
  (JsString.truthy name = false ->
   refused B "danger" (t B (lang_of request) "status.name" +:+ " is required")
           "/statuses/new" s r)
  /\ (JsString.truthy name = true ->
      ~ In (statuses_rowid E d) (map status_id (statuses d)) ->
      fst r = Return tt
      /\ (forall x, In x (statuses (db (base (snd r)))) <->
                    In x (statuses d)
                    \/ x = {| status_id := statuses_rowid E d; status_name := name |})
      /\ trimmed name = true
      /\ tasks (db (base (snd r))) = tasks d
      /\ calls (snd r) = calls s
      /\ flash_redirect B "success" (t B (lang_of request) "status.created") "/statuses"
                        (reply (base s)) (reply (base (snd r)))).
Proof.
  intros Hu name d r. subst r. unfold post_statuses. rewrite Hu.
  change (trimmed_name match data with Some f => sf_name f | None => None end) with name.
  split; intros Hname; rewrite Hname; cbn [negb].
  - apply lift_refuses.
  - intros Hfresh.
    pose proof (statusRepository_create_fresh B E {| attrs_name := name |} d Hfresh) as Hc.
    cbn [attrs_name] in Hc.
    set (row := {| status_id := statuses_rowid E d; status_name := name |}) in *.
    assert (Hstep : lift (on_db (statusRepository.create B E {| attrs_name := name |})) s
                    = (Return (Some row),
                       {| base := with_db (set_statuses (statuses d ++ [row]) d) (base s);
                          calls := calls s |})).
    { apply lift_eq. unfold on_db. fold d. now rewrite Hc. }
    rewrite (bind_Return _ _ _ _ _ Hstep).
    destruct (lift_refuses B "success" (t B (lang_of request) "status.created") "/statuses"
                {| base := with_db (set_statuses (statuses d ++ [row]) d) (base s);
                   calls := calls s |}) as (Ho & Hdb & _ & Hcalls & Hfl).
    split; [exact Ho|]. rewrite Hdb. cbn [base db with_db statuses tasks set_statuses].
    split; [|split; [apply trimmed_trim | split; [reflexivity | split; assumption]]].
    intros x. rewrite in_app_iff. simpl. intuition.
Qed.

Lemma post_statuses_creates_trimmed_name_witness :
  fst (post_statuses Fixture.runtime sample_engine
         (Sample.as_user Fixture.alice "POST" "/statuses" "" None)
         (Some {| sf_name := Some "  review " |}) Sample.s0) = Return tt.
Proof.
  destruct (post_statuses_creates_trimmed_name Fixture.runtime sample_engine
              (Sample.as_user Fixture.alice "POST" "/statuses" "" None)
              (Some {| sf_name := Some "  review " |}) Sample.s0 Fixture.alice eq_refl)
    as [_ Hok].
  apply Hok; [reflexivity|]. simpl. intros [H|[H|[]]]; discriminate H.
Defined.

(** X13: [PATCH /statuses/:id] by a signed-in user.  A name that is empty
    once trimmed is refused with a redirect back to the edit form and no row
    is changed; otherwise the database is what [statusRepo.update] with the
    trimmed name leaves: ids are kept, every row selected by the id carries
    the new name, and the success flash is sent even when the id selects no
    row, in which case nothing has changed. *)
Theorem patch_statuses_renames
    (B : builtins) (request : Request) (data : option status_form)
    (s : state2) (u : user) :
  currentUser request = Some u ->
  let name := trimmed_name (field data sf_name) in
  let id := params_id request in
  let d := db (base s) in
  let r := patch_statuses_id B request data s in
  (JsString.truthy name = false ->
   refused B "danger" (t B (lang_of request) "status.name" +:+ " is required")
           ("/statuses/" +:+ id +:+ "/edit") s r)
  /\ (JsString.truthy name = true ->
      fst r = Return tt
      /\ map status_id (statuses (db (base (snd r)))) = map status_id (statuses d)
      /\ (forall x, In x (statuses (db (base (snd r)))) ->
                    sqlite_int_eq B (status_id x) id = true -> status_name x = name)
      /\ (existsb (fun x => sqlite_int_eq B (status_id x) id) (statuses d) = false ->
          db (base (snd r)) = d)
      /\ tasks (db (base (snd r))) = tasks d
      /\ calls (snd r) = calls s
      /\ flash_redirect B "success" (t B (lang_of request) "status.updated") "/statuses"
                        (reply (base s)) (reply (base (snd r)))).
Proof.
  intros Hu name id d r. subst r. unfold patch_statuses_id. rewrite Hu. fold id.
  change (trimmed_name match data with Some f => sf_name f | None => None end) with name.
  split; intros Hname; rewrite Hname; cbn [negb].
  - apply lift_refuses.
  - set (f := fun x : status => sqlite_int_eq B (status_id x) id).
    set (g := fun x : status => {| status_id := status_id x; status_name := name |}).
    set (l' := map (fun x => if f x then g x else x) (statuses d)).
    assert (Hstep : lift (on_db (statusRepository.update B (PText id) {| attrs_name := name |}))
                         s
                    = (Return (List.find f l'),
                       {| base := with_db (set_statuses l' d) (base s); calls := calls s |})).
    { apply lift_eq. reflexivity. }
    rewrite (bind_Return _ _ _ _ _ Hstep).
    destruct (lift_refuses B "success" (t B (lang_of request) "status.updated") "/statuses"
                {| base := with_db (set_statuses l' d) (base s); calls := calls s |})
      as (Ho & Hdb & _ & Hcalls & Hfl).
    split; [exact Ho|]. rewrite Hdb. cbn [base db with_db statuses tasks set_statuses].
    split; [|split; [|split; [|split; [reflexivity | split; assumption]]]].
    + unfold l'. rewrite map_map. apply map_ext. intros x. now destruct (f x).
    + intros x Hx Hsel. unfold l' in Hx. apply in_map_iff in Hx as (y & <- & Hy).
      destruct (f y) eqn:Ef; [reflexivity|]. unfold f in Ef. congruence.
    + intros Hnone. unfold l'. rewrite (map_rename_id f g _ Hnone). apply set_statuses_id.
Qed.

Lemma patch_statuses_renames_witness :
  fst (patch_statuses_id Fixture.runtime
         (Sample.as_user Fixture.alice "PATCH" "/statuses/2" "2" None)
         (Some {| sf_name := Some "closed" |}) Sample.s0) = Return tt.
Proof.
  destruct (patch_statuses_renames Fixture.runtime
              (Sample.as_user Fixture.alice "PATCH" "/statuses/2" "2" None)
              (Some {| sf_name := Some "closed" |}) Sample.s0 Fixture.alice eq_refl)
    as [_ Hok].
  apply Hok. reflexivity.
Defined.

Lemma invoke2_eq {A} (c : call2) (m : ST database A) (s : state2) :
  invoke2 c m s
  = (fst (m (db (base s))),
     {| base := with_db (snd (m (db (base s)))) (base s);
        calls := (calls s ++ [c])%list |}).
Proof.
  unfold invoke2, bind, tell2, lift, on_db. cbn [base calls].
  now destruct (m (db (base s))).
Qed.

Lemma invoke2_run {A} (c : call2) (m : ST database A) (s : state2) (o : outcome A)
      (d1 : database) :
  m (db (base s)) = (o, d1) ->
  invoke2 c m s
  = (o, {| base := with_db d1 (base s); calls := (calls s ++ [c])%list |}).
Proof. intros H. rewrite invoke2_eq. now rewrite H. Qed.

Lemma or_null_not_empty (v : option string) : or_null v <> Some "".
Proof.
  unfold or_null. destruct v as [[|c x]|]; simpl; discriminate.
Qed.

Lemma or_null_cases (v : option string) :
  or_null v = match v with
              | Some (String c x) => Some (String c x)
              | _ => None
              end.
Proof. now destruct v as [[|c x]|]. Qed.

Lemma or_null_twice (v : option string) : or_null (or_null v) = or_null v.
Proof. now destruct v as [[|c x]|]. Qed.

(** X14: the creator of a task is the requester.  For a signed-in user,
    [POST /tasks] refuses a name that is empty once trimmed or a missing
    status with 'Validation error' and calls nothing; otherwise it calls
    [taskRepo.create] once, with the id of the current user as [creatorId],
    the trimmed name, and [null] in place of an empty executor or
    description; the success flash follows if the repository returns. *)
Theorem post_tasks_creator_is_requester
    (B : builtins) (P : platform) (request : Request) (data : option task_form)
    (s : state2) (u : user) :
  currentUser request = Some u ->
  let name := trimmed_name (field data tf_name) in
  let statusId := field data tf_statusId in
  let d := db (base s) in
  let r := post_tasks B P request data s in
  (JsString.truthy name = false \/ truthy_opt statusId = false ->
   refused B "danger" "Validation error" "/tasks/new" s r)
  /\ (JsString.truthy name = true -> truthy_opt statusId = true ->
      exists attrs,
        calls (snd r) = (calls s ++ [Call_taskRepo_create attrs])%list
        /\ ta_creatorId attrs = user_id u
        /\ ta_name attrs = name
        /\ ta_statusId attrs = statusId
        /\ ta_executorId attrs = match field data tf_executorId with
                                 | Some (String c x) => Some (String c x)
                                 | _ => None
                                 end
        /\ ta_description attrs = match field data tf_description with
                                  | Some (String c x) => Some (String c x)
                                  | _ => None
                                  end
        /\ ta_executorId attrs <> Some ""
        /\ ta_description attrs <> Some ""
        /\ ta_labelIds attrs = labelIds_of B P data
        /\ db (base (snd r)) = snd (taskRepo_create P attrs d)
        /\ log (base (snd r)) = log (base s)
        /\ match fst (taskRepo_create P attrs d) with
           | Return _ =>
               fst r = Return tt
               /\ flash_redirect B "success" (t B (lang_of request) "task.created")
                                 "/tasks" (reply (base s)) (reply (base (snd r)))
           | Throw e => fst r = Throw e
           end).
Proof.
  intros Hu name statusId d r. subst r. unfold post_tasks. rewrite Hu.
  fold name statusId. split.
  - intros Hbad.
    assert (Hc : negb (JsString.truthy name) || negb (truthy_opt statusId) = true).
    { destruct Hbad as [-> | ->]; [reflexivity | apply orb_true_r]. }
    rewrite Hc. apply lift_refuses.
  - intros Hn Hs. rewrite Hn, Hs. cbn [negb orb].
    set (attrs := {| ta_name := name; ta_creatorId := user_id u |}).
    exists attrs.
    destruct (taskRepo_create P attrs d) as [[tk|e] d1] eqn:Ecreate; cbn [fst snd].
    1: rewrite (bind_Return _ _ _ _ _ (invoke2_run (Call_taskRepo_create attrs) _ s _ _ Ecreate)).
    2: rewrite (bind_Throw _ _ _ _ _ (invoke2_run (Call_taskRepo_create attrs) _ s _ _ Ecreate)).
    + destruct (lift_refuses B "success" (t B (lang_of request) "task.created") "/tasks"
                  {| base := with_db d1 (base s);
                     calls := (calls s ++ [Call_taskRepo_create attrs])%list |})
        as (Ho & Hdb & Hlog & Hcalls & Hfl).
      rewrite Hcalls, Hdb, Hlog. cbn [base calls db log with_db].
      repeat split; try reflexivity; try apply or_null_not_empty; try exact Ho;
        try (cbn [ta_executorId ta_description attrs];
             rewrite ?or_null_twice; apply or_null_cases).
      all: apply Hfl.
    + cbn [base calls db log with_db].
      repeat split; try reflexivity; try apply or_null_not_empty;
        cbn [ta_executorId ta_description attrs];
        rewrite ?or_null_twice; apply or_null_cases.
Qed.

Lemma post_tasks_creator_is_requester_witness :
  exists attrs,
    calls (snd (post_tasks Fixture.runtime Sample.platform0
                  (Sample.as_user Fixture.bob "POST" "/tasks" "" None)
                  (Some {| tf_name := Some " ship "; tf_description := Some "";
                           tf_statusId := Some "1"; tf_executorId := Some "";
                           tf_labelIds := Some (LArray ["1"; ""; "0"]) |})
                  Sample.s0))
    = [Call_taskRepo_create attrs]
    /\ ta_creatorId attrs = 2.
Proof.
  destruct (post_tasks_creator_is_requester Fixture.runtime Sample.platform0
              (Sample.as_user Fixture.bob "POST" "/tasks" "" None)
              (Some {| tf_name := Some " ship "; tf_description := Some "";
                       tf_statusId := Some "1"; tf_executorId := Some "";
                       tf_labelIds := Some (LArray ["1"; ""; "0"]) |})
              Sample.s0 Fixture.bob eq_refl) as [_ Hok].
  destruct (Hok eq_refl eq_refl) as (attrs & Hcalls & Hcreator & _).
  exists attrs. split; [exact Hcalls | exact Hcreator].
Defined.

(** X15: how label ids are normalised.  From an array, the empty strings
    and the values whose number is zero or [NaN] are dropped and the others
    are kept in order as numbers; a single value is kept whatever its number
    is; an empty array gives an empty list, a missing or empty field gives
    [null]. *)
Theorem labelIds_normalisation (B : builtins) (P : platform) :
  (forall l n, In n (normalize_labelIds B P (LArray l)) ->
     n <> Int 0
     /\ exists x, In x l /\ x <> "" /\ Number_of B x = n /\ Number_truthy B P x = true)
  /\ (forall l x, In x l -> x <> "" -> Number_truthy B P x = true ->
        In (Number_of B x) (normalize_labelIds B P (LArray l)))
  /\ (forall l1 l2, normalize_labelIds B P (LArray (l1 ++ l2))
                    = (normalize_labelIds B P (LArray l1)
                       ++ normalize_labelIds B P (LArray l2))%list)
  /\ (forall x, normalize_labelIds B P (LSingle x) = [Number_of B x])
  /\ (forall f, tf_labelIds f = Some (LArray []) -> labelIds_of B P (Some f) = Some [])
  /\ (forall f, tf_labelIds f = Some (LSingle "") -> labelIds_of B P (Some f) = None)
  /\ (forall f, tf_labelIds f = None -> labelIds_of B P (Some f) = None)
  /\ labelIds_of B P None = None.
Proof.
  repeat split.
  - revert H. simpl. intros Hin Heq. apply in_map_iff in Hin as (x & Hx & Hin).
    apply filter_In in Hin as [_ Hc]. apply andb_true_iff in Hc as [_ Ht].
    unfold Number_truthy in Ht. rewrite Hx, Heq in Ht. discriminate Ht.
  - revert H. simpl. intros Hin. apply in_map_iff in Hin as (x & Hx & Hin).
    apply filter_In in Hin as [Hin Hc]. apply andb_true_iff in Hc as [Hne Ht].
    exists x. repeat split; try assumption.
    intros ->. discriminate Hne.
  - intros l x Hin Hne Ht. simpl. apply in_map. apply filter_In. split; [exact Hin|].
    rewrite Ht, andb_true_r. apply negb_true_iff. now apply String.eqb_neq.
  - intros l1 l2. simpl. now rewrite List.filter_app, List.map_app.
  - intros f H. unfold labelIds_of. now rewrite H.
  - intros f H. unfold labelIds_of. now rewrite H.
  - intros f H. unfold labelIds_of. now rewrite H.
Qed.

Example labelIds_sample :
  normalize_labelIds Fixture.runtime Sample.platform0 (LArray ["3"; ""; "0"; "x"; "12"])
  = [Int 3; Int 12]
  /\ normalize_labelIds Fixture.runtime Sample.platform0 (LSingle "x") = [NotInt]
  /\ normalize_labelIds Fixture.runtime Sample.platform0 (LSingle "0") = [Int 0].
Proof. repeat split; reflexivity. Qed.

(** X16: any signed-in user may edit any task.  [PATCH /tasks/:id] looks
    nothing up: whoever the current user is, it calls [taskRepo.update] once
    with the id of the route and the fields of the form as they are (the
    name is not trimmed), an empty executor being replaced by [null]; the
    success flash follows if the repository returns. *)
Theorem patch_tasks_updates_for_any_user
    (B : builtins) (P : platform) (request : Request) (data : option task_form)
    (s : state2) (u : user) :
  currentUser request = Some u ->
  let id := params_id request in
  let attrs := patch_tasks_attrs B P data in
  let d := db (base s) in
  let r := patch_tasks_id B P request data s in
  calls (snd r) = (calls s ++ [Call_taskRepo_update id attrs])%list
  /\ log (base (snd r)) = log (base s)
  /\ tu_name attrs = field data tf_name
  /\ tu_statusId attrs = field data tf_statusId
  /\ tu_executorId attrs <> Some ""
  /\ db (base (snd r)) = snd (taskRepo_update P id attrs d)
  /\ match fst (taskRepo_update P id attrs d) with
     | Return _ =>
         fst r = Return tt
         /\ flash_redirect B "success" (t B (lang_of request) "task.updated")
                           "/tasks" (reply (base s)) (reply (base (snd r)))
     | Throw e => fst r = Throw e
     end.
Proof.
  intros Hu id attrs d r. subst r. unfold patch_tasks_id. rewrite Hu. fold id attrs.
  destruct (taskRepo_update P id attrs d) as [[tk|e] d1] eqn:Eup; cbn [fst snd].
  1: rewrite (bind_Return _ _ _ _ _ (invoke2_run (Call_taskRepo_update id attrs) _ s _ _ Eup)).
  2: rewrite (bind_Throw _ _ _ _ _ (invoke2_run (Call_taskRepo_update id attrs) _ s _ _ Eup)).
  - destruct (lift_refuses B "success" (t B (lang_of request) "task.updated") "/tasks"
                {| base := with_db d1 (base s);
                   calls := (calls s ++ [Call_taskRepo_update id attrs])%list |})
      as (Ho & Hdb & Hlog & Hcalls & Hfl).
    rewrite Hcalls, Hdb, Hlog. cbn [base calls db log with_db].
    repeat split; try reflexivity; try apply or_null_not_empty; try exact Ho.
    all: apply Hfl.
  - cbn [base calls db log with_db].
    repeat split; try reflexivity; apply or_null_not_empty.
Qed.

Lemma patch_tasks_updates_for_any_user_witness :
  calls (snd (patch_tasks_id Fixture.runtime Sample.platform0
                (Sample.as_user Fixture.bob "PATCH" "/tasks/1" "1" None)
                (Some {| tf_name := Some " late "; tf_description := None;
                         tf_statusId := Some "2"; tf_executorId := Some "";
                         tf_labelIds := None |})
                Sample.s0))
  = [Call_taskRepo_update "1"
       {| tu_name := Some " late "; tu_description := None; tu_statusId := Some "2";
          tu_executorId := None; tu_labelIds := None |}].
Proof.
  apply (proj1 (patch_tasks_updates_for_any_user Fixture.runtime Sample.platform0
                  (Sample.as_user Fixture.bob "PATCH" "/tasks/1" "1" None)
                  (Some {| tf_name := Some " late "; tf_description := None;
                           tf_statusId := Some "2"; tf_executorId := Some "";
                           tf_labelIds := None |})
                  Sample.s0 Fixture.bob eq_refl)).
Defined.

(** ** Users and sessions *)

(** X17: a profile is edited by its owner, and a password is stored hashed.
    [PATCH /users/:id] answers 'Access denied' and calls nothing unless the
    current user has the id of the route.  For the owner it calls
    [userRepo.update] once: the password is left out when the form gives
    fewer than three characters, and is otherwise the result of
    [bcrypt.hash(password, 10)], never the text of the form as such. *)
Theorem patch_users_only_self_and_hashed
    (B : builtins) (C : collaborators) (P : platform) (request : Request) (s : state2) :
  let id := params_id request in
  let given := data_field request d_password in
  let attrs pw := {| uu_firstName := data_field request d_firstName;
                     uu_lastName := data_field request d_lastName;
                     uu_email := data_field request d_email;
                     uu_password := pw |} in
  let r := patch_users_id B C P request s in
  (not_self request id = true -> refused B "danger" "Access denied" "/users" s r)
  /\ (not_self request id = false ->
      if truthy_opt given && (3 <=? Z.of_nat (String.length (default "" given)))
      then match bcrypt_hash C (default "" given) 10 with
           | Return hashed =>
               calls (snd r) = (calls s ++ [Call_userRepo_update id (attrs (Some hashed))])%list
               /\ log (base (snd r))
                  = (log (base s) ++ [Call_bcrypt_hash (default "" given) 10])%list
           | Throw e => fst r = Throw e /\ calls (snd r) = calls s
           end
      else calls (snd r) = (calls s ++ [Call_userRepo_update id (attrs None)])%list
           /\ log (base (snd r)) = log (base s)).
Proof.
  intros id given attrs r. subst r. unfold patch_users_id. fold id given.
  split; intros Hself; rewrite Hself.
  - apply lift_refuses.
  - assert (Htail : forall a s1,
              calls (snd ((do* invoke2 (Call_userRepo_update id a) (userRepo_update P id a) in
                           lift (do* setFlash B "success" "User updated" in
                                 reply_redirect "/users")) s1))
              = (calls s1 ++ [Call_userRepo_update id a])%list
              /\ log (base (snd ((do* invoke2 (Call_userRepo_update id a)
                                        (userRepo_update P id a) in
                                  lift (do* setFlash B "success" "User updated" in
                                        reply_redirect "/users")) s1)))
                 = log (base s1)).
    { intros a s1.
      destruct (userRepo_update P id a (db (base s1))) as [[x|e] d1] eqn:Eup.
      - rewrite (bind_Return _ _ _ _ _ (invoke2_run (Call_userRepo_update id a) _ s1 _ _ Eup)).
        destruct (lift_refuses B "success" "User updated" "/users"
                    {| base := with_db d1 (base s1);
                       calls := (calls s1 ++ [Call_userRepo_update id a])%list |})
          as (_ & _ & Hlog & Hcalls & _).
        now rewrite Hcalls, Hlog.
      - rewrite (bind_Throw _ _ _ _ _ (invoke2_run (Call_userRepo_update id a) _ s1 _ _ Eup)).
        now split. }
    destruct (truthy_opt given && (3 <=? Z.of_nat (String.length (default "" given)))).
    + destruct (bcrypt_hash C (default "" given) 10) as [hashed|e] eqn:Eh.
      * assert (Hstep : lift (invoke_o (Call_bcrypt_hash (default "" given) 10)
                                       (Return hashed)) s
                        = (Return hashed,
                           {| base := with_log (Call_bcrypt_hash (default "" given) 10) (base s);
                              calls := calls s |})) by reflexivity.
        unfold bind at 1. unfold bind at 1. rewrite Hstep. unfold ret at 1.
        exact (Htail (attrs (Some hashed)) _).
      * assert (Hstep : lift (invoke_o (Call_bcrypt_hash (default "" given) 10)
                                       (@Throw string e)) s
                        = (Throw e,
                           {| base := with_log (Call_bcrypt_hash (default "" given) 10) (base s);
                              calls := calls s |})) by reflexivity.
        unfold bind at 1. unfold bind at 1. rewrite Hstep. now split.
    + unfold bind at 1. unfold ret at 1. exact (Htail (attrs None) s).
Qed.

Example patch_users_sample :
  let body pw := Some {| b__method := Some "PATCH";
                         b_data := Some {| d_firstName := Some "Al"; d_lastName := None;
                                           d_email := None; d_password := Some pw |} |} in
  let run pw := patch_users_id Fixture.runtime (Fixture.collab (Return None))
                  Sample.platform0
                  (Sample.as_user Fixture.alice "PATCH" "/users/1" "1" (body pw))
                  Sample.s0 in
  calls (snd (run "ab"))
  = [Call_userRepo_update "1"
       {| uu_firstName := Some "Al"; uu_lastName := None; uu_email := None;
          uu_password := None |}]
  /\ calls (snd (run "abc"))
     = [Call_userRepo_update "1"
          {| uu_firstName := Some "Al"; uu_lastName := None; uu_email := None;
             uu_password := Some "$2b$abc" |}]
  /\ calls (snd (patch_users_id Fixture.runtime (Fixture.collab (Return None))
                   Sample.platform0
                   (Sample.as_user Fixture.bob "PATCH" "/users/1" "1" (body "abc"))
                   Sample.s0)) = [].
Proof. cbv zeta. repeat split; vm_compute; reflexivity. Qed.

(** X18: registration.  [POST /users] with an invalid form (a missing
    field, or a password of fewer than three characters) calls nothing, not
    even the lookup by email.  With a valid form and a free email it hashes
    the password, creates the user with the hash in place of the password,
    signs the new user in through the cookie [userId] and redirects to
    /users. *)
Theorem post_users_validates_then_hashes
    (B : builtins) (C : collaborators) (request : Request) (st : state) :
  let firstName := default "" (data_field request d_firstName) in
  let lastName := default "" (data_field request d_lastName) in
  let email := default "" (data_field request d_email) in
  let password := default "" (data_field request d_password) in
  let r := post_users B C request st in
  (registration_invalid request = true ->
   fst r = Return tt /\ log (snd r) = log st /\ db (snd r) = db st
   /\ flash_redirect B "danger" "Validation error: check required fields" "/users/new"
                     (reply st) (reply (snd r)))
  /\ (registration_invalid request = false ->
      (3 <= Z.of_nat (String.length password))
      /\ forall d1 hashed user d2,
           userRepo_findByEmail C email (db st) = (Return None, d1) ->
           bcrypt_hash C password 10 = Return hashed ->
           userRepo_create C {| a_firstName := firstName; a_lastName := lastName;
                                a_email := email; a_password := hashed |} d1
           = (Return user, d2) ->
           fst r = Return tt
           /\ db (snd r) = d2
           /\ log (snd r)
              = (log st ++ [Call_userRepo_findByEmail email; Call_bcrypt_hash password 10;
                            Call_userRepo_create
                              {| a_firstName := firstName; a_lastName := lastName;
                                 a_email := email; a_password := hashed |}])%list
           /\ cookie_headers (reply (snd r))
              = (cookie_headers (reply st)
                 ++ [flash_header B "success" "User created";
                     cookie_header B "userId" (String_of_Z (user_id user))])%list
           /\ statusCode (reply (snd r)) = 302
           /\ location (reply (snd r)) = Some "/users").
Proof.
  intros firstName lastName email password r. subst r. unfold post_users.
  fold firstName lastName email password.
  split; intros Hinv; rewrite Hinv.
  - destruct (setFlash_redirect_run B "danger" "Validation error: check required fields"
                "/users/new" st) as (st' & Hrun & Hdb & Hlog & Hfl).
    rewrite Hrun. cbn [fst snd].
    split; [reflexivity|]. split; [exact Hlog|]. split; [exact Hdb | exact Hfl].
  - split.
    { unfold registration_invalid in Hinv. fold password in Hinv.
      apply orb_false_iff in Hinv as [_ Hlen]. now apply Z.ltb_ge in Hlen. }
    intros d1 hashed user d2 Hfind Hhash Hcreate.
    rewrite (bind_Return _ _ _ _ _ (invoke_eq (Call_userRepo_findByEmail email) _ st _ _ Hfind)).
    set (st1 := with_db d1 (with_log (Call_userRepo_findByEmail email) st)).
    rewrite (bind_Return _ _ _ _ hashed
               (eq_trans (invoke_o_eq (Call_bcrypt_hash password 10) _ st1)
                         (f_equal (fun o => (o, _)) Hhash))).
    set (st2 := with_log (Call_bcrypt_hash password 10) st1).
    set (attrs := {| a_firstName := firstName; a_password := hashed |}).
    assert (Hc : userRepo_create C attrs (db st2) = (Return user, d2)) by exact Hcreate.
    rewrite (bind_Return _ _ _ _ _ (invoke_eq (Call_userRepo_create attrs) _ st2 _ _ Hc)).
    set (st3 := with_db d2 (with_log (Call_userRepo_create attrs) st2)).
    destruct (setCookie_run B "flash" (flash_payload B "success" "User created")
                (opts_path "/") st3)
      as (st4 & Hrun4 & Hdb4 & Hlog4 & _ & _ & _ & _ & Hck4).
    unfold setFlash. rewrite (bind_Return _ _ _ _ _ Hrun4).
    destruct (setCookie_run B "userId" (String_of_Z (user_id user)) (opts_path "/") st4)
      as (st5 & Hrun5 & Hdb5 & Hlog5 & _ & _ & _ & _ & Hck5).
    rewrite (bind_Return _ _ _ _ _ Hrun5). cbn [fst snd reply_redirect update_reply].
    cbn [db log reply with_reply statusCode location r_redirect].
    change (cookie_headers (r_redirect "/users" (reply st5)))
      with (cookie_headers (reply st5)).
    rewrite Hck5, Hck4, Hdb5, Hdb4, Hlog5, Hlog4;
      try (rewrite serializeCookie_path; apply cookie_header_truthy).
    rewrite !serializeCookie_path. cbn. rewrite <- !app_assoc.
    repeat split; reflexivity.
Qed.

Lemma post_users_validates_then_hashes_witness :
  log (snd (post_users Fixture.runtime (Fixture.collab (Return None))
              (Fixture.req "POST" "/users" None "" Fixture.no_query
                 (Some {| b__method := None;
                          b_data := Some {| d_firstName := Some "Carol"; d_lastName := Some "C";
                                            d_email := Some "carol@example.com";
                                            d_password := Some "ab" |} |}))
              Fixture.st0)) = [].
Proof.
  apply (proj1 (post_users_validates_then_hashes Fixture.runtime
                  (Fixture.collab (Return None))
                  (Fixture.req "POST" "/users" None "" Fixture.no_query
                     (Some {| b__method := None;
                              b_data := Some {| d_firstName := Some "Carol";
                                                d_lastName := Some "C";
                                                d_email := Some "carol@example.com";
                                                d_password := Some "ab" |} |}))
                  Fixture.st0) eq_refl).
Defined.

(** X19: an account is deleted by its owner only.  [DELETE /users/:id]
    answers 'Access denied' and does not call [userRepo.remove] unless the
    current user has the id of the route; for the owner it calls
    [userRepo.remove] once, and when that returns [true] it expires the
    cookie [userId], says 'User deleted' and redirects to /. *)
Theorem delete_users_only_self
    (B : builtins) (C : collaborators) (request : Request) (st : state) :
  let id := params_id request in
  let r := delete_users_id B C request st in
  (not_self request id = true ->
   fst r = Return tt /\ log (snd r) = log st /\ db (snd r) = db st
   /\ flash_redirect B "danger" "Access denied" "/users" (reply st) (reply (snd r)))
  /\ (not_self request id = false ->
      log (snd r) = (log st ++ [Call_userRepo_remove id])%list
      /\ db (snd r) = snd (userRepo_remove C id (db st))
      /\ match fst (userRepo_remove C id (db st)) with
         | Return true =>
             fst r = Return tt
             /\ cookie_headers (reply (snd r))
                = (cookie_headers (reply st)
                   ++ [clear_header B "userId"; flash_header B "success" "User deleted"])%list
             /\ statusCode (reply (snd r)) = 302
             /\ location (reply (snd r)) = Some "/"
         | Return false =>
             fst r = Return tt
             /\ flash_redirect B "danger" "Cannot delete user with assigned tasks" "/users"
                               (reply st) (reply (snd r))
         | Throw e => fst r = Throw e
         end).
Proof.
  intros id r. subst r. unfold delete_users_id. fold id.
  change (match currentUser request with
          | Some u => negb (String_of_Z (user_id u) =? id)%string
          | None => true
          end) with (not_self request id).
  split; intros Hself; rewrite Hself.
  - destruct (setFlash_redirect_run B "danger" "Access denied" "/users" st)
      as (st' & Hrun & Hdb & Hlog & Hfl).
    rewrite Hrun. cbn [fst snd].
    split; [reflexivity|]. split; [exact Hlog|]. split; [exact Hdb | exact Hfl].
  - destruct (userRepo_remove C id (db st)) as [[[|]|e] d1] eqn:Erm; cbn [fst snd].
    + rewrite (bind_Return _ _ _ _ _ (invoke_eq (Call_userRepo_remove id) _ st _ _ Erm)).
      cbn [negb].
      set (st1 := with_db d1 (with_log (Call_userRepo_remove id) st)).
      unfold clearCookie.
      destruct (setCookie_run B "userId" ""
                  {| path := Some (or_default (path (opts_path "/")) "/"); expires := Some 0;
                     httpOnly := httpOnly (opts_path "/"); maxAge := maxAge (opts_path "/");
                     secure := secure (opts_path "/"); sameSite := sameSite (opts_path "/") |}
                  st1)
        as (st2 & Hrun2 & Hdb2 & Hlog2 & _ & _ & _ & _ & Hck2).
      rewrite (bind_Return _ _ _ _ _ Hrun2).
      destruct (setFlash_redirect_run B "success" "User deleted" "/" st2)
        as (st3 & Hrun3 & Hdb3 & Hlog3 & Hck3 & Hst3 & Hloc3 & _).
      rewrite Hrun3. cbn [fst snd]. rewrite Hlog3, Hlog2, Hdb3, Hdb2, Hck3, Hck2.
      * cbn. rewrite <- app_assoc. repeat split; assumption.
      * change (serializeCookie B "userId" "" _) with (clear_header B "userId").
        apply clear_header_truthy.
    + rewrite (bind_Return _ _ _ _ _ (invoke_eq (Call_userRepo_remove id) _ st _ _ Erm)).
      cbn [negb].
      destruct (setFlash_redirect_run B "danger" "Cannot delete user with assigned tasks"
                  "/users" (with_db d1 (with_log (Call_userRepo_remove id) st)))
        as (st' & Hrun & Hdb & Hlog & Hfl).
      rewrite Hrun. cbn [fst snd]. rewrite Hlog, Hdb.
      split; [reflexivity|]. split; [reflexivity|]. split; [reflexivity | exact Hfl].
    + rewrite (bind_Throw _ _ _ _ _ (invoke_eq (Call_userRepo_remove id) _ st _ _ Erm)).
      now repeat split.
Qed.

Example delete_users_sample :
  let C := Fixture.collab (Return None) in
  let run u id := delete_users_id Fixture.runtime C
                    (Sample.as_user u "DELETE" "/users" id None) Fixture.st0 in
  users (db (snd (run Fixture.bob "2"))) = [Fixture.alice]
  /\ users (db (snd (run Fixture.bob "1"))) = [Fixture.alice; Fixture.bob]
  /\ users (db (snd (run Fixture.alice "1"))) = [Fixture.alice; Fixture.bob]
  /\ log (snd (run Fixture.bob "1")) = [].
Proof. cbv zeta. repeat split; vm_compute; reflexivity. Qed.

(** X20: signing out.  [DELETE /session] needs no session: for every
    request it expires the cookie [userId], sets the flash 'Signed out' and
    redirects to /, and it neither reads nor writes the database. *)
Theorem delete_session_always_signs_out
    (B : builtins) (request : Request) (st : state) :
  exists st',
    delete_session B request st = (Return tt, st')
    /\ db st' = db st /\ log st' = log st
    /\ cookie_headers (reply st')
       = (cookie_headers (reply st)
          ++ [clear_header B "userId"; flash_header B "success" "Signed out"])%list
    /\ statusCode (reply st') = 302
    /\ location (reply st') = Some "/".
Proof.
  unfold delete_session, clearCookie.
  destruct (setCookie_run B "userId" ""
              {| path := Some (or_default (path (opts_path "/")) "/"); expires := Some 0;
                 httpOnly := httpOnly (opts_path "/"); maxAge := maxAge (opts_path "/");
                 secure := secure (opts_path "/"); sameSite := sameSite (opts_path "/") |} st)
    as (st1 & Hrun1 & Hdb1 & Hlog1 & _ & _ & _ & _ & Hck1).
  rewrite (bind_Return _ _ _ _ _ Hrun1).
  destruct (setFlash_redirect_run B "success" "Signed out" "/" st1)
    as (st2 & Hrun2 & Hdb2 & Hlog2 & Hck2 & Hst2 & Hloc2 & _).
  exists st2. split; [exact Hrun2|]. rewrite Hdb2, Hlog2, Hck2, Hck1.
  - rewrite <- app_assoc. now repeat split.
  - change (serializeCookie B "userId" "" _) with (clear_header B "userId").
    apply clear_header_truthy.
Qed.

Lemma pretty_N_go_length (x : N) (s : string) :
  (String.length s <= String.length (pretty_N_go x s))%nat.
Proof.
  revert s. induction (N.lt_wf_0 x) as [x _ IH]. intros s.
  destruct (N.eq_dec x 0%N) as [->|Hne].
  - now rewrite pretty_N_go_0.
  - rewrite pretty_N_go_step by lia.
    etransitivity; [|apply IH; apply N.div_lt; lia]. simpl. lia.
Qed.

Lemma String_of_Z_truthy (z : Z) : JsString.truthy (String_of_Z z) = true.
Proof.
  assert (Hpos : forall p, JsString.truthy (pretty (N.pos p)) = true).
  { intros p. unfold pretty, pretty_N.
    destruct (decide (N.pos p = 0%N)) as [H|_]; [discriminate H|].
    rewrite pretty_N_go_step by lia.
    pose proof (pretty_N_go_length (N.pos p `div` 10)
                  (String (pretty_N_char (N.pos p `mod` 10)) "")) as Hlen.
    destruct (pretty_N_go _ _); [simpl in Hlen; lia | reflexivity]. }
  unfold String_of_Z, pretty, pretty_Z. destruct z as [|p|p]; [reflexivity | apply Hpos |].
  reflexivity.
Qed.

(** X21: the session cookie is what the next request is recognised by.  The
    cookie [userId] that a login writes carries [encodeURIComponent] of the
    decimal id; a request that sends it back, the value containing no [;]
    and no white space at its ends and decoding to the decimal id, is given
    by the onRequest hook the user that [userRepo.findById] finds under that
    id, the lookup being logged. *)
Theorem onRequest_recognises_login_cookie
    (B : builtins) (C : collaborators) (request : Request) (st : state)
    (user : user) (d1 : database) :
  let sid := String_of_Z (user_id user) in
  let value := encodeURIComponent B sid in
  lacks ";" value -> trimmed value = true ->
  decodeURIComponent B value = Return sid ->
  headers_cookie request = Some ("userId=" +:+ value) ->
  userRepo_findById C sid (db st) = (Return (Some user), d1) ->
  cookie_header B "userId" sid = ("userId=" +:+ value) +:+ "; Path=/"
  /\ exists r,
       onRequest B C request st
       = (Return r, with_db d1 (with_log (Call_userRepo_findById sid) st))
       /\ currentUser r = Some user
       /\ cookies r = Some {[ "userId" := sid ]}
       /\ method r = method request /\ body r = body request /\ query r = query request
       /\ raw r = raw request /\ params_id r = params_id request
       /\ headers_cookie r = headers_cookie request.
Proof.
  intros sid value Hsemi Htrim Hdec Hcookie Hfind. split; [reflexivity|].
  assert (Hparse : parseCookies B (Some ("userId=" +:+ value)) = Return {[ "userId" := sid ]}).
  { apply (parseCookies_reads_back_one B "userId" value sid);
      (reflexivity || discriminate || assumption). }
  unfold onRequest. rewrite Hcookie, Hparse.
  rewrite (bind_Return _ _ _ _ _
             (eq_refl : lift_o (Return ({[ "userId" := sid ]} : gmap string string)) st
                        = (Return {[ "userId" := sid ]}, st))).
  rewrite lookup_singleton_eq. cbn [truthy_opt]. unfold sid at 1.
  rewrite String_of_Z_truthy. cbn [from_option id]. fold sid.
  rewrite (bind_Return _ _ _ _ _ (invoke_eq (Call_userRepo_findById sid) _ st _ _ Hfind)).
  eexists. split; [reflexivity|]. now repeat split.
Qed.

Lemma onRequest_recognises_login_cookie_witness :
  exists r,
    onRequest Fixture.runtime (Fixture.collab (Return None))
      (Fixture.req "GET" "/tasks" (Some "userId=2") "" Fixture.no_query None) Fixture.st0
    = (Return r, with_db Fixture.data0 (with_log (Call_userRepo_findById "2") Fixture.st0))
    /\ currentUser r = Some Fixture.bob.
Proof.
  destruct (onRequest_recognises_login_cookie Fixture.runtime (Fixture.collab (Return None))
              (Fixture.req "GET" "/tasks" (Some "userId=2") "" Fixture.no_query None)
              Fixture.st0 Fixture.bob Fixture.data0
              eq_refl eq_refl eq_refl eq_refl eq_refl)
    as (_ & r & Hrun & Hu & _).
  exists r. split; [exact Hrun | exact Hu].
Defined.

(** ** Pages *)

Lemma parseCookies_total (B : builtins) (header : option string) :
  exists m, parseCookies B header = Return m.
Proof.
  unfold parseCookies.
  destruct (negb (truthy_opt header)); [now exists ∅ | apply reduce_parseCookies_total].
Qed.

Lemma lift_getFlash (B : builtins) (request : Request) (s : state2) :
  exists flash st1,
    lift (getFlash B request) s = (Return flash, {| base := st1; calls := calls s |})
    /\ getFlash B request (base s) = (Return flash, st1)
    /\ db st1 = db (base s) /\ log st1 = log (base s).
Proof.
  destruct (getFlash_total B request (base s)) as (j & st1 & Hrun & Hdb & Hlog).
  exists j, st1. split; [now apply lift_eq | now repeat split].
Qed.

Lemma render_run (P : platform) (p : page) (s : state2) :
  render P p s
  = match renderFile P p with
    | Return html =>
        (Return tt,
         {| base := with_reply (r_send html) (with_reply (r_type "text/html") (base s));
            calls := (calls s ++ [Call_renderFile p])%list |})
    | Throw e => (Throw e, {| base := base s; calls := (calls s ++ [Call_renderFile p])%list |})
    end.
Proof.
  unfold render, bind, invoke2_o, bind, tell2, lift_o.
  destruct (renderFile P p); reflexivity.
Qed.

(** X22: the home page never fails.  [GET /] completes for every request:
    it reads the flash message, renders the index page for the current user
    and sends it as text/html; when the template fails, the error is logged
    and the answer is the status 500 with the body 'Template render error',
    the flash cookie having been cleared all the same. *)
Theorem get_index_never_throws
    (B : builtins) (P : platform) (request : Request) (s : state2) :
  exists flash st1 s',
    getFlash B request (base s) = (Return flash, st1)
    /\ get_index B P request s = (Return tt, s')
    /\ db (base s') = db (base s)
    /\ cookie_headers (reply (base s')) = cookie_headers (reply st1)
    /\ let p := Page_index (lang_of request) (currentUser request) flash in
       match renderFile P p with
       | Return html =>
           calls s' = (calls s ++ [Call_renderFile p])%list
           /\ contentType (reply (base s')) = Some "text/html"
           /\ payload (reply (base s')) = Some html
           /\ statusCode (reply (base s')) = statusCode (reply st1)
       | Throw e =>
           calls s' = (calls s ++ [Call_renderFile p; Call_request_log_error e])%list
           /\ statusCode (reply (base s')) = 500
           /\ payload (reply (base s')) = Some "Template render error"
       end.
Proof.
  destruct (lift_getFlash B request s) as (flash & st1 & Hlift & Hrun & Hdb & _).
  exists flash, st1. unfold get_index, try_catch.
  rewrite (bind_Return _ _ _ _ _ Hlift), render_run.
  destruct (renderFile P (Page_index (lang_of request) (currentUser request) flash))
    as [html|e] eqn:Er.
  - eexists. split; [exact Hrun|]. split; [reflexivity|]. cbn.
    now repeat split.
  - eexists. split; [exact Hrun|]. split; [reflexivity|]. cbn.
    rewrite <- app_assoc. now repeat split.
Qed.

(** The onRequest hook leaves the method and the body alone, so the form
    asks for the same verb before and after it. *)
Lemma onRequest_keeps_form
    (B : builtins) (C : collaborators) (request r : Request) (st st1 : state) :
  onRequest B C request st = (Return r, st1) ->
  forall m, overrides r m <-> overrides request m.
Proof.
  intros Hrun.
  assert (H : method r = method request /\ body r = body request).
  { unfold onRequest in Hrun.
    destruct (parseCookies B (headers_cookie request)) as [c|e] eqn:Ep.
    2:{ unfold bind, lift_o in Hrun. discriminate Hrun. }
    rewrite (bind_Return _ _ _ _ _
               (eq_refl : lift_o (Return c) st = (Return c, st))) in Hrun.
    destruct (truthy_opt (c !! "userId")).
    - destruct (userRepo_findById C (default "" (c !! "userId")) (db st))
        as [[u|e] d1] eqn:Ef.
      + rewrite (bind_Return _ _ _ _ _ (invoke_eq _ _ st _ _ Ef)) in Hrun.
        injection Hrun as <- _. now split.
      + rewrite (bind_Throw _ _ _ _ _ (invoke_eq _ _ st _ _ Ef)) in Hrun.
        discriminate Hrun.
    - injection Hrun as <- _. now split. }
  destruct H as [Hm Hb]. intros m. unfold overrides. now rewrite Hm, Hb.
Qed.

(** X23: every request is answered.  Whatever the handler of the route
    does, the lifecycle completes without an exception.  When the form
    asks for no other verb and the handler returns, the handler's own
    answer stands.  When the form asks for PATCH, DELETE or PUT, the
    preHandler hook throws: the handler is not entered, the error handler
    runs on the state that the onRequest hook left, with the TypeError and
    the request whose raw method the hook has written, and the answer is
    the generic status 500.  An exception of the onRequest hook, which can
    only come from [userRepo.findById], gives the same answer. *)
Theorem lifecycle_always_answers
    (B : builtins) (C : collaborators) (handler : Request -> M unit)
    (request : Request) (st : state) :
  exists st',
    lifecycle B C handler request st = (Return tt, st')
    /\ (forall r st1 st2,
          onRequest B C request st = (Return r, st1) ->
          (forall m, ~ overrides request m) ->
          handler r st1 = (Return tt, st2) -> st' = st2)
    /\ (forall r st1 m,
          onRequest B C request st = (Return r, st1) ->
          overrides request m ->
          errorHandler C TypeError_method (set_method m r) st1 = (Return tt, st')
          /\ db st' = db st1
          /\ reply st'
             = r_send "Internal Server Error" (r_type "text/html" (r_status 500 (reply st1))))
    /\ (forall e st1,
          onRequest B C request st = (Throw e, st1) ->
          reply st'
          = r_send "Internal Server Error" (r_type "text/html" (r_status 500 (reply st1)))
          /\ exists m v d1,
               parseCookies B (headers_cookie request) = Return m
               /\ m !! "userId" = Some v
               /\ userRepo_findById C v (db st) = (Throw e, d1)).
Proof.
  unfold lifecycle.
  destruct (onRequest B C request st) as [[r|e] st1] eqn:Ehook.
  - pose proof (onRequest_keeps_form B C request r st st1 Ehook) as Hform.
    destruct (preHandler_cases r) as [[Hk Hno]|(m & Hov & Ht)].
    + rewrite Hk. unfold try_catch.
      destruct (handler r st1) as [[[]|e] st2] eqn:Eh.
      * exists st2. split; [reflexivity|]. split; [|split].
        -- intros r' st1' st2' Hr _ Hh. injection Hr as <- <-. rewrite Eh in Hh.
           now injection Hh as <-.
        -- intros r' st1' m Hr Hov. destruct (Hno m). now apply Hform.
        -- intros e' st1' H. discriminate H.
      * destruct (errorHandler_run C e r st2) as (st' & Hrun & _).
        exists st'. split; [exact Hrun|]. split; [|split].
        -- intros r' st1' st2' Hr _ Hh. injection Hr as <- <-. rewrite Eh in Hh.
           discriminate Hh.
        -- intros r' st1' m Hr Hov. destruct (Hno m). now apply Hform.
        -- intros e' st1' H. discriminate H.
    + rewrite Ht.
      destruct (errorHandler_run C TypeError_method (set_method m r) st1)
        as (st' & Hrun & Hdb & Hrep & _).
      exists st'. split; [exact Hrun|]. split; [|split].
      * intros r' st1' st2' _ Hno _. destruct (Hno m). now apply Hform.
      * intros r' st1' m' Hr Hov'. injection Hr as <- <-.
        apply Hform in Hov'.
        assert (m' = m) as ->.
        { destruct Hov as (_ & b & v & Hb & Hv & -> & _).
          destruct Hov' as (_ & b' & v' & Hb' & Hv' & -> & _).
          rewrite Hb in Hb'. injection Hb' as <-. rewrite Hv in Hv'.
          now injection Hv' as <-. }
        now repeat split.
      * intros e' st1' H. discriminate H.
  - destruct (errorHandler_run C e request st1) as (st' & Hrun & _ & Hrep & _).
    exists st'. split; [exact Hrun|]. split; [|split].
    + intros r st1' st2 H. discriminate H.
    + intros r st1' m H. discriminate H.
    + intros e' st1' H. injection H as <- <-. split; [exact Hrep|].
      unfold onRequest in Ehook.
      destruct (parseCookies_total B (headers_cookie request)) as [m Ep].
      rewrite Ep in Ehook.
      rewrite (bind_Return _ _ _ _ _
                 (eq_refl : lift_o (Return m) st = (Return m, st))) in Ehook.
      destruct (m !! "userId") as [v|] eqn:Ev; cbn [truthy_opt] in Ehook.
      2:{ discriminate Ehook. }
      destruct (JsString.truthy v); [|discriminate Ehook].
      cbn [from_option id] in Ehook.
      destruct (userRepo_findById C v (db st)) as [[u|e1] d1] eqn:Ef.
      * rewrite (bind_Return _ _ _ _ _ (invoke_eq (Call_userRepo_findById v) _ st _ _ Ef))
          in Ehook. discriminate Ehook.
      * rewrite (bind_Throw _ _ _ _ _ (invoke_eq (Call_userRepo_findById v) _ st _ _ Ef))
          in Ehook. injection Ehook as <- _. now exists m, v, d1.
Qed.

(** X24: who is anonymous.  The onRequest hook leaves the request without
    a current user, the state untouched and the user repository uncalled
    when there is no Cookie header, or no cookie [userId], or an empty one;
    and a [userId] that [userRepo.findById] does not know gives no current
    user either. *)
Theorem onRequest_anonymous
    (B : builtins) (C : collaborators) (request : Request) (st : state) :
  (headers_cookie request = None ->
   onRequest B C request st = (Return (set_currentUser None (set_cookies ∅ request)), st))
  /\ (forall m, parseCookies B (headers_cookie request) = Return m ->
        truthy_opt (m !! "userId") = false ->
        onRequest B C request st
        = (Return (set_currentUser None (set_cookies m request)), st))
  /\ (forall m v d1, parseCookies B (headers_cookie request) = Return m ->
        m !! "userId" = Some v -> JsString.truthy v = true ->
        userRepo_findById C v (db st) = (Return None, d1) ->
        exists r, fst (onRequest B C request st) = Return r /\ currentUser r = None
                  /\ cookies r = Some m).
Proof.
  split; [|split].
  - intros Hnone. unfold onRequest. rewrite Hnone. reflexivity.
  - intros m Hparse Hfalsy. unfold onRequest. rewrite Hparse.
    rewrite (bind_Return _ _ _ _ _ (eq_refl : lift_o (Return m) st = (Return m, st))).
    now rewrite Hfalsy.
  - intros m v d1 Hparse Hv Ht Hfind. unfold onRequest. rewrite Hparse.
    rewrite (bind_Return _ _ _ _ _ (eq_refl : lift_o (Return m) st = (Return m, st))).
    rewrite Hv. cbn [truthy_opt from_option id]. rewrite Ht.
    rewrite (bind_Return _ _ _ _ _ (invoke_eq (Call_userRepo_findById v) _ st _ _ Hfind)).
    eexists. split; [reflexivity|]. now split.
Qed.

(** X25: a missing row gives 404.  When the task, the status or the user of
    the route does not exist, the pages [GET /tasks/:id], [GET
    /tasks/:id/edit], [GET /statuses/:id/edit] (for a signed-in user) and
    [GET /users/:id/edit] answer the status 404 with the body 'Not found';
    no template is rendered and the flash cookie is not consumed. *)
Theorem missing_rows_give_404
    (B : builtins) (C : collaborators) (P : platform) (request : Request) (s : state2) :
  let id := params_id request in
  (forall d1, taskRepo_findById C id (db (base s)) = (Return None, d1) ->
     not_found s (get_tasks_id B C P request s)
     /\ (currentUser request <> None -> not_found s (get_tasks_id_edit B C P request s)))
  /\ (List.find (fun x => sqlite_int_eq B (status_id x) id) (statuses (db (base s))) = None ->
      currentUser request <> None ->
      not_found s (get_statuses_id_edit B P request s))
  /\ (forall d1, userRepo_findById C id (db (base s)) = (Return None, d1) ->
      not_found s (get_users_id_edit B C P request s)).
Proof.
  intros id. split; [|split].
  - intros d1 Hfind.
    assert (Hstep : lift (invoke (Call_taskRepo_findById id) (taskRepo_findById C id)) s
                    = (Return None,
                       {| base := with_db d1 (with_log (Call_taskRepo_findById id) (base s));
                          calls := calls s |})).
    { apply lift_eq. now apply invoke_eq. }
    split.
    + unfold get_tasks_id. fold id. rewrite (bind_Return _ _ _ _ _ Hstep). now repeat split.
    + intros Hu. unfold get_tasks_id_edit. fold id.
      destruct (currentUser request); [|contradiction].
      rewrite (bind_Return _ _ _ _ _ Hstep). now repeat split.
  - intros Hfind Hu. unfold get_statuses_id_edit. fold id.
    destruct (currentUser request); [|contradiction].
    assert (Hstep : lift (on_db (statusRepo.findById B id)) s
                    = (Return None, {| base := with_db (db (base s)) (base s);
                                       calls := calls s |})).
    { apply lift_eq. unfold on_db, statusRepo.findById, knex_statuses_where_id_first.
      now rewrite Hfind. }
    rewrite (bind_Return _ _ _ _ _ Hstep). now repeat split.
  - intros d1 Hfind. unfold get_users_id_edit. fold id.
    assert (Hstep : lift (invoke (Call_userRepo_findById id) (userRepo_findById C id)) s
                    = (Return None,
                       {| base := with_db d1 (with_log (Call_userRepo_findById id) (base s));
                          calls := calls s |})).
    { apply lift_eq. now apply invoke_eq. }
    rewrite (bind_Return _ _ _ _ _ Hstep). now repeat split.
Qed.

Example missing_rows_sample :
  let C := Fixture.collab (Return None) in
  let code r := statusCode (reply (base (snd r))) in
  code (get_tasks_id Fixture.runtime C Sample.platform0
          (Sample.anonymous "GET" "/tasks/9" "9") Sample.s0) = 404
  /\ code (get_tasks_id Fixture.runtime C Sample.platform0
             (Sample.anonymous "GET" "/tasks/1" "1") Sample.s0) = 200
  /\ code (get_statuses_id_edit Fixture.runtime Sample.platform0
             (Sample.as_user Fixture.bob "GET" "/statuses/9/edit" "9" None) Sample.s0) = 404
  /\ code (get_users_id_edit Fixture.runtime C Sample.platform0
             (Sample.as_user Fixture.bob "GET" "/users/9/edit" "9" None) Sample.s0) = 404.
Proof. cbv zeta. repeat split; vm_compute; reflexivity. Qed.

(** X26: the edit form of a user is shown to that user only.  When the
    user of the route exists, [GET /users/:id/edit] renders the form, with
    that user and the flash message, exactly when the current user has the
    id of the route; otherwise it answers 'Access denied' with a redirect to
    /users and renders nothing. *)
Theorem users_edit_form_is_for_self
    (B : builtins) (C : collaborators) (P : platform) (request : Request) (s : state2)
    (found : user) (d1 : database) :
  let id := params_id request in
  userRepo_findById C id (db (base s)) = (Return (Some found), d1) ->
  let r := get_users_id_edit B C P request s in
  (not_self request id = true ->
   fst r = Return tt /\ calls (snd r) = calls s /\ db (base (snd r)) = d1
   /\ flash_redirect B "danger" "Access denied" "/users"
                     (reply (base s)) (reply (base (snd r))))
  /\ (not_self request id = false ->
      exists flash st1,
        getFlash B request (with_db d1 (with_log (Call_userRepo_findById id) (base s)))
        = (Return flash, st1)
        /\ calls (snd r)
           = (calls s ++ [Call_renderFile (Page_users_edit (lang_of request) found flash)])%list
        /\ db (base (snd r)) = d1
        /\ (forall html,
              renderFile P (Page_users_edit (lang_of request) found flash) = Return html ->
              fst r = Return tt /\ payload (reply (base (snd r))) = Some html
              /\ contentType (reply (base (snd r))) = Some "text/html")).
Proof.
  intros id Hfind r. subst r. unfold get_users_id_edit. fold id.
  assert (Hstep : lift (invoke (Call_userRepo_findById id) (userRepo_findById C id)) s
                  = (Return (Some found),
                     {| base := with_db d1 (with_log (Call_userRepo_findById id) (base s));
                        calls := calls s |})).
  { apply lift_eq. now apply invoke_eq. }
  rewrite (bind_Return _ _ _ _ _ Hstep).
  set (s1 := {| base := with_db d1 (with_log (Call_userRepo_findById id) (base s));
                calls := calls s |}).
  split; intros Hself; rewrite Hself.
  - destruct (lift_refuses B "danger" "Access denied" "/users" s1)
      as (Ho & Hdb & _ & Hcalls & Hfl).
    split; [exact Ho|]. split; [exact Hcalls|]. split; [exact Hdb | exact Hfl].
  - destruct (lift_getFlash B request s1) as (flash & st1 & Hlift & Hflash & Hdb & _).
    exists flash, st1. split; [exact Hflash|].
    rewrite (bind_Return _ _ _ _ _ Hlift), render_run.
    destruct (renderFile P (Page_users_edit (lang_of request) found flash)) as [html|e].
    + cbn. split; [reflexivity|]. split; [exact Hdb|].
      intros html' H. injection H as <-. now repeat split.
    + cbn. split; [reflexivity|]. split; [exact Hdb|]. intros html' H. discriminate H.
Qed.

Lemma users_edit_form_is_for_self_witness :
  fst (get_users_id_edit Fixture.runtime (Fixture.collab (Return None)) Sample.platform0
         (Sample.as_user Fixture.alice "GET" "/users/2/edit" "2" None) Sample.s0)
  = Return tt
  /\ calls (snd (get_users_id_edit Fixture.runtime (Fixture.collab (Return None))
                   Sample.platform0
                   (Sample.as_user Fixture.alice "GET" "/users/2/edit" "2" None) Sample.s0))
     = [].
Proof.
  destruct (users_edit_form_is_for_self Fixture.runtime (Fixture.collab (Return None))
              Sample.platform0
              (Sample.as_user Fixture.alice "GET" "/users/2/edit" "2" None) Sample.s0
              Fixture.bob Fixture.data0 eq_refl) as [Hdenied _].
  destruct (Hdenied eq_refl) as (Ho & Hcalls & _). split; [exact Ho | exact Hcalls].
Defined.

(** ** Static files *)

Lemma pop_split_extension (stem ext : string) :
  lacks "." ext -> pop (JsString.split "." (stem +:+ "." +:+ ext)) = ext.
Proof.
  intros Hext. unfold pop, JsString.split.
  change (stem +:+ "." +:+ ext) with (stem +:+ String "." ext).
  rewrite split_go_append, (split_lacks "." ext Hext). apply List.last_last.
Qed.

(** X27: static files.  [GET /public/*] completes for every path and
    every behaviour of the file system: a file that does not exist and a
    directory give 404 'Not found', a failure of the file system gives 500
    'Error reading static file' after the error is logged, and a regular
    file is sent with the content type chosen from the text after the last
    dot of the joined path: javascript for [js], css for [css], octet-stream
    for anything else. *)
Theorem get_public_serves_or_fails
    (F : filesystem) (star : option string) (s : state2) :
  let safePath := joined F (or_default star "") in
  let failed e s' :=
    statusCode (reply (base s')) = 500
    /\ payload (reply (base s')) = Some "Error reading static file"
    /\ calls s' = (calls s ++ [Call_request_log_error e])%list in
  let missing s' :=
    statusCode (reply (base s')) = 404 /\ payload (reply (base s')) = Some "Not found" in
  (exists s',
     get_public F star s = (Return tt, s')
     /\ db (base s') = db (base s)
     /\ match existsSync F safePath with
        | Throw e => failed e s'
        | Return false => missing s'
        | Return true =>
            match lstatSync_isDirectory F safePath with
            | Throw e => failed e s'
            | Return true => missing s'
            | Return false =>
                match createReadStream F safePath with
                | Throw e => failed e s'
                | Return content =>
                    payload (reply (base s')) = Some content
                    /\ contentType (reply (base s')) = Some (mime_of safePath)
                    /\ statusCode (reply (base s')) = statusCode (reply (base s))
                end
            end
        end)
  /\ (forall stem ext, lacks "." ext ->
        mime_of (stem +:+ "." +:+ ext)
        = if String.eqb ext "js" then "application/javascript"
          else if String.eqb ext "css" then "text/css"
          else "application/octet-stream").
Proof.
  intros safePath failed missing. split.
  - unfold get_public. fold safePath. unfold try_catch, bind, lift_o, ret.
    destruct (existsSync F safePath) as [[|]|e].
    + cbn [negb]. destruct (lstatSync_isDirectory F safePath) as [[|]|e].
      * eexists. split; [reflexivity|]. now repeat split.
      * destruct (createReadStream F safePath) as [content|e].
        -- eexists. split; [reflexivity|]. now repeat split.
        -- eexists. split; [reflexivity|]. now repeat split.
      * eexists. split; [reflexivity|]. now repeat split.
    + eexists. split; [reflexivity|]. now repeat split.
    + eexists. split; [reflexivity|]. now repeat split.
  - intros stem ext Hext. unfold mime_of. now rewrite (pop_split_extension stem ext Hext).
Qed.

Example get_public_sample :
  let run p := get_public Sample.files (Some p) Sample.s0 in
  contentType (reply (base (snd (run "site.css")))) = Some "text/css"
  /\ statusCode (reply (base (snd (run "missing.js")))) = 404
  /\ mime_of "/app/public/js" = "application/octet-stream"
  /\ mime_of "/app.d/public/readme" = "application/octet-stream".
Proof. cbv zeta. repeat split; vm_compute; reflexivity. Qed.

(** X28: the list of statuses is public and read-only.  [GET /statuses]
    makes no access check: for every request, signed in or not, it renders
    the index with exactly the rows of the table [statuses], the current
    user and the flash message, and it leaves the database as it is. *)
Theorem get_statuses_is_public
    (B : builtins) (P : platform) (request : Request) (s : state2) :
  exists flash,
    fst (getFlash B request (base s)) = Return flash
    /\ let p := Page_statuses_index (lang_of request) (statuses (db (base s)))
                                    (currentUser request) flash in
       let r := get_statuses B P request s in
       calls (snd r) = (calls s ++ [Call_renderFile p])%list
       /\ db (base (snd r)) = db (base s)
       /\ log (base (snd r)) = log (base s)
       /\ match renderFile P p with
          | Return html =>
              fst r = Return tt
              /\ payload (reply (base (snd r))) = Some html
              /\ contentType (reply (base (snd r))) = Some "text/html"
          | Throw e => fst r = Throw e
          end.
Proof.
  unfold get_statuses.
  assert (Hstep : lift (on_db statusRepo.findAll) s
                  = (Return (statuses (db (base s))),
                     {| base := with_db (db (base s)) (base s); calls := calls s |}))
    by reflexivity.
  rewrite (bind_Return _ _ _ _ _ Hstep).
  destruct (lift_getFlash B request
              {| base := with_db (db (base s)) (base s); calls := calls s |})
    as (flash & st1 & Hlift & Hrun & Hdb & Hlog).
  assert (Hsame : fst (getFlash B request (base s)) = Return flash).
  { clear -Hrun. unfold getFlash in *. cbn [base] in Hrun.
    destruct (negb (truthy_opt _)); [exact (f_equal fst Hrun)|].
    unfold try_catch, bind, lift_o in *.
    destruct (JSON_parse B _); [|exact (f_equal fst Hrun)].
    unfold clearCookie in *.
    destruct (setCookie_run B "flash" ""
                {| path := Some (or_default (path (opts_path "/")) "/"); expires := Some 0;
                   httpOnly := httpOnly (opts_path "/"); maxAge := maxAge (opts_path "/");
                   secure := secure (opts_path "/"); sameSite := sameSite (opts_path "/") |}
                (base s)) as (sa & Ha & _).
    destruct (setCookie_run B "flash" ""
                {| path := Some (or_default (path (opts_path "/")) "/"); expires := Some 0;
                   httpOnly := httpOnly (opts_path "/"); maxAge := maxAge (opts_path "/");
                   secure := secure (opts_path "/"); sameSite := sameSite (opts_path "/") |}
                (with_db (db (base s)) (base s))) as (sb & Hb & _).
    rewrite Ha. rewrite Hb in Hrun. exact (f_equal fst Hrun). }
  exists flash. split; [exact Hsame|]. cbv zeta.
  rewrite (bind_Return _ _ _ _ _ Hlift), render_run.
  destruct (renderFile P _) as [html|e]; cbn; now repeat split.
Qed.

(** ** The JSON file of statuses *)

(** When the directory and the file are reported present, nothing is
    created. *)
Lemma ensureDataDir_present
    (B : builtins) {F : Type} (FS : JsonStore.fs F) (f : F) :
  JsonStore.existsSync FS JsonStore.dataDir f = (Return true, f) ->
  JsonStore.existsSync FS JsonStore.STATUSES_FILE f = (Return true, f) ->
  JsonStore.ensureDataDir B FS f = (Return tt, f).
Proof.
  intros Hd Hf. unfold JsonStore.ensureDataDir, bind. rewrite Hd. cbn. now rewrite Hf.
Qed.

(** [read] hands on the exceptions of the file system and answers the
    empty array only for a text that [JSON.parse] rejects. *)
Lemma read_run (B : builtins) {F : Type} (FS : JsonStore.fs F) (f : F) :
  JsonStore.read B FS f
  = match JsonStore.ensureDataDir B FS f with
    | (Throw e, f1) => (Throw e, f1)
    | (Return _, f1) =>
        match JsonStore.readFileSync FS JsonStore.STATUSES_FILE f1 with
        | (Throw e, f2) => (Throw e, f2)
        | (Return raw, f2) =>
            (Return match JSON_parse B raw with
                    | Return v => v
                    | Throw _ => JArr []
                    end, f2)
        end
    end.
Proof.
  unfold JsonStore.read, bind.
  destruct (JsonStore.ensureDataDir B FS f) as [[[]|e] f1]; [|reflexivity].
  destruct (JsonStore.readFileSync FS JsonStore.STATUSES_FILE f1) as [[raw|e] f2];
    [|reflexivity].
  unfold try_catch, lift_o, ret. now destruct (JSON_parse B raw).
Qed.

Lemma sample_keeps_written : JsonStore.keeps_written JsonStore.sample.
Proof.
  intros text f f'. destruct f as [|old|[|old|]]; simpl; intros H;
    try discriminate H; injection H as <-; now repeat split.
Qed.

(** X29: the JSON file of statuses.  On a file system that shows what was
    written, once [write(items)] has returned, [read] creates nothing,
    leaves the file system as it is and returns what [JSON.parse] makes of
    the indented text of the items: the items themselves whenever
    [JSON.parse] inverts the serialisation, the empty array when it
    rejects the text.  On any file system, an exception of [existsSync],
    [mkdirSync], [writeFileSync] or [readFileSync] leaves [read] as it
    is: only that of [JSON.parse] is caught. *)
Theorem statuses_file_round_trip
    (B : builtins) (indented : json -> string) {F : Type} (FS : JsonStore.fs F)
    (items : json) (f f' : F) :
  JsonStore.keeps_written FS ->
  JsonStore.write B indented FS items f = (Return tt, f') ->
  JsonStore.ensureDataDir B FS f' = (Return tt, f')
  /\ JsonStore.read B FS f'
     = (Return match JSON_parse B (indented items) with
               | Return v => v
               | Throw _ => JArr []
               end, f')
  /\ (JSON_parse B (indented items) = Return items ->
      JsonStore.read B FS f' = (Return items, f'))
  /\ (forall g e g1,
        JsonStore.ensureDataDir B FS g = (Throw e, g1) ->
        JsonStore.read B FS g = (Throw e, g1))
  /\ (forall g g1 e g2,
        JsonStore.ensureDataDir B FS g = (Return tt, g1) ->
        JsonStore.readFileSync FS JsonStore.STATUSES_FILE g1 = (Throw e, g2) ->
        JsonStore.read B FS g = (Throw e, g2)).
Proof.
  intros Hlaw Hwrite.
  assert (Hlast : exists f0,
             JsonStore.writeFileSync FS JsonStore.STATUSES_FILE (indented items) f0
             = (Return tt, f')).
  { unfold JsonStore.write, bind in Hwrite.
    destruct (JsonStore.ensureDataDir B FS f) as [[[]|e] f0]; [|discriminate Hwrite].
    now exists f0. }
  destruct Hlast as (f0 & Hlast).
  destruct (Hlaw _ _ _ Hlast) as (Hd & Hf & Hr).
  pose proof (ensureDataDir_present B FS f' Hd Hf) as Hens.
  assert (Hread : JsonStore.read B FS f'
                  = (Return match JSON_parse B (indented items) with
                            | Return v => v
                            | Throw _ => JArr []
                            end, f')).
  { now rewrite read_run, Hens, Hr. }
  split; [exact Hens|]. split; [exact Hread|]. split; [|split].
  - intros Hparse. now rewrite Hread, Hparse.
  - intros g e g1 Hg. now rewrite read_run, Hg.
  - intros g g1 e g2 Hg Hrf. now rewrite read_run, Hg, Hrf.
Qed.

Lemma statuses_file_round_trip_witness :
  JsonStore.write Fixture.runtime Fixture.stringify JsonStore.sample (JNum 12)
    JsonStore.Missing
  = (Return tt, JsonStore.Folder (JsonStore.Regular "12"))
  /\ JsonStore.read Fixture.runtime JsonStore.sample
       (JsonStore.Folder (JsonStore.Regular "12"))
     = (Return (JNum 12), JsonStore.Folder (JsonStore.Regular "12")).
Proof.
  split; [reflexivity|].
  exact (proj1 (proj2 (statuses_file_round_trip
                         Fixture.runtime Fixture.stringify JsonStore.sample (JNum 12)
                         JsonStore.Missing (JsonStore.Folder (JsonStore.Regular "12"))
                         sample_keeps_written eq_refl))).
Defined.

(** What is at the two paths decides: a missing directory and a missing
    file are created; a regular file called [data], or a directory called
    [statuses.json], makes [read] throw. *)
Example statuses_file_sample :
  JsonStore.read Fixture.runtime JsonStore.sample JsonStore.Missing
  = (Return (JArr []), JsonStore.Folder (JsonStore.Regular "[]"))
  /\ JsonStore.read Fixture.runtime JsonStore.sample
       (JsonStore.Folder (JsonStore.Regular "{oops"))
     = (Return (JArr []), JsonStore.Folder (JsonStore.Regular "{oops"))
  /\ JsonStore.read Fixture.runtime JsonStore.sample (JsonStore.RegularFile "x")
     = (Throw JsonStore.ENOTDIR, JsonStore.RegularFile "x")
  /\ JsonStore.read Fixture.runtime JsonStore.sample (JsonStore.Folder JsonStore.Directory)
     = (Throw JsonStore.EISDIR, JsonStore.Folder JsonStore.Directory).
Proof. repeat split; reflexivity. Qed.
